(** * autoapprove: loopback-only command wrapper

    A shallow embedding of [scripts/autoapprove/autoapprove.py] and the
    properties its specification states about it.

    The script needs CPython 3.11 or later ([from datetime import UTC]);
    the library functions it calls ([re], [ipaddress], [urllib.parse],
    [pathlib], [str] methods) are modelled after CPython 3.11 on POSIX.

    A Python [str] is modelled by the list of its code points, restricted
    to code points below 256 (Latin-1) and to the lone surrogates U+DC80
    to U+DCFF, by which Python stands for the bytes of a command line
    that are no valid UTF-8 (PEP 383).  The Unicode-aware operations of
    the script ([\w], [\d], [str.isdigit], [str.lower]) are given by
    their exact tables on that range.

    Text is encoded in UTF-8, the encoding of [str.encode()] and, in a
    UTF-8 locale, of [Path.write_text] and of [sys.stdout].  The file
    system is that of one user with every permission and no quota; a
    name in it has at most [NAME_MAX] bytes. *)

From Stdlib Require Import List Ascii String ZArith NArith Bool Lia.
From stdpp Require Import gmap strings.
Import ListNotations.

(** ** Python strings *)

Module PyStr.

(** A character: a code point below 256, or the lone surrogate
    U+DC80 + [b] for the seven bits [b], which is what a byte 0x80 + [b]
    of the command line becomes when it is no part of valid UTF-8. *)
Inductive char : Type :=
| Latin (a : ascii)
| Escape (b0 b1 b2 b3 b4 b5 b6 : bool).
Coercion Latin : ascii >-> char.
Bind Scope char_scope with char.

(** The byte an escape stands for. *)
Definition escaped_byte (b0 b1 b2 b3 b4 b5 b6 : bool) : ascii :=
  Ascii b0 b1 b2 b3 b4 b5 b6 true.

#[global] Instance char_eq_dec : EqDecision char.
Proof. solve_decision. Defined.

#[global] Instance char_countable : Countable char.
Proof.
  refine (inj_countable'
    (fun c => match c with
              | Latin a => inl a
              | Escape b0 b1 b2 b3 b4 b5 b6 => inr (b0, b1, b2, b3, b4, b5, b6)
              end)
    (fun x => match x with
              | inl a => Latin a
              | inr (b0, b1, b2, b3, b4, b5, b6) => Escape b0 b1 b2 b3 b4 b5 b6
              end) _).
  intros []; reflexivity.
Defined.

Definition str := list char.
Definition bytes := list Byte.byte.

(** A string literal of the source. *)
Definition py (s : string) : str := map Latin (list_ascii_of_string s).

(** [ord(c)] *)
Definition ord (c : char) : N :=
  match c with
  | Latin a => N_of_ascii a
  | Escape b0 b1 b2 b3 b4 b5 b6 =>
      56320 + N_of_ascii (escaped_byte b0 b1 b2 b3 b4 b5 b6)
  end.

Definition eqc (a b : char) : bool :=
  match a, b with
  | Latin x, Latin y => Ascii.eqb x y
  | Escape a0 a1 a2 a3 a4 a5 a6, Escape b0 b1 b2 b3 b4 b5 b6 =>
      Ascii.eqb (escaped_byte a0 a1 a2 a3 a4 a5 a6) (escaped_byte b0 b1 b2 b3 b4 b5 b6)
  | _, _ => false
  end.
Definition between (lo hi : N) (c : char) : bool :=
  ((lo <=? ord c) && (ord c <=? hi))%N.
Definition one_of (l : list N) (c : char) : bool := existsb (N.eqb (ord c)) l.

Definition is_ascii_digit (c : char) : bool := between 48 57 c.
Definition is_ascii_upper (c : char) : bool := between 65 90 c.
Definition is_ascii_lower (c : char) : bool := between 97 122 c.
Definition is_ascii_alpha (c : char) : bool := is_ascii_upper c || is_ascii_lower c.
Definition is_hex_digit (c : char) : bool :=
  is_ascii_digit c || between 65 70 c || between 97 102 c.

(** Unicode character properties, for code points below 256; a
    surrogate (category Cs) has none of them. *)

(** [str.isdecimal] on one character: general category Nd. *)
Definition uni_isdecimal (c : char) : bool := is_ascii_digit c.

(** [str.isdigit] on one character: decimal digits and the superscripts
    U+00B2, U+00B3, U+00B9. *)
Definition uni_isdigit (c : char) : bool :=
  is_ascii_digit c || one_of [178; 179; 185]%N c.

(** [str.isnumeric] on one character: also the fractions U+00BC..U+00BE. *)
Definition uni_isnumeric (c : char) : bool := uni_isdigit c || between 188 190 c.

(** [str.isalpha] on one character: the letters of Latin-1. *)
Definition uni_isalpha (c : char) : bool :=
  is_ascii_alpha c || one_of [170; 181; 186]%N c
  || between 192 214 c || between 216 246 c || between 248 255 c.

Definition uni_isalnum (c : char) : bool :=
  uni_isalpha c || uni_isdecimal c || uni_isdigit c || uni_isnumeric c.

(** Lowercase mapping of one character. *)
Definition uni_tolower (c : char) : char :=
  if is_ascii_upper c || (between 192 222 c && negb (N.eqb (ord c) 215))
  then Latin (ascii_of_N (ord c + 32)) else c.

(** [s.lower()] *)
Definition lower (s : str) : str := map uni_tolower s.

(** [s.startswith(prefix)] *)
Fixpoint startswith (prefix s : str) : bool :=
  match prefix, s with
  | [], _ => true
  | a :: p', b :: s' => eqc a b && startswith p' s'
  | _ :: _, [] => false
  end.

(** [c in s] for a one-character string [c]. *)
Definition char_in (c : char) (s : str) : bool := existsb (eqc c) s.

Fixpoint dropwhile (p : char -> bool) (s : str) : str :=
  match s with
  | [] => []
  | c :: s' => if p c then dropwhile p s' else s
  end.

(** [s.lstrip(chars)], [s.rstrip(chars)], [s.strip(chars)] *)
Definition lstrip (chars s : str) : str := dropwhile (fun c => char_in c chars) s.
Definition rstrip (chars s : str) : str := rev (lstrip chars (rev s)).
Definition strip (chars s : str) : str := rstrip chars (lstrip chars s).

(** [s.partition(sep)] for a one-character separator: the text before and
    after the first [sep], or [None] when [sep] does not occur (Python then
    returns [(s, "", "")]). *)
Fixpoint str_partition (sep : char) (s : str) : option (str * str) :=
  match s with
  | [] => None
  | c :: s' =>
      if eqc c sep then Some ([], s')
      else match str_partition sep s' with
           | Some (a, b) => Some (c :: a, b)
           | None => None
           end
  end.

(** [s.rpartition(sep)]: the same at the last [sep]. *)
Definition str_rpartition (sep : char) (s : str) : option (str * str) :=
  match str_partition sep (rev s) with
  | Some (a, b) => Some (rev b, rev a)
  | None => None
  end.

(** [s.split(sep)] for a one-character separator. *)
Fixpoint split (sep : char) (s : str) : list str :=
  match s with
  | [] => [[]]
  | c :: s' =>
      if eqc c sep then [] :: split sep s'
      else match split sep s' with
           | h :: t => (c :: h) :: t
           | [] => [[c]]
           end
  end.

(** [s.isdigit()] *)
Definition isdigit (s : str) : bool :=
  match s with
  | [] => false
  | _ => forallb uni_isdigit s
  end.

(** [s.replace(c, "")] for a one-character string [c]. *)
Definition remove_char (c : char) (s : str) : str :=
  List.filter (fun x => negb (eqc x c)) s.

(** [sep.join(l)] *)
Fixpoint join (sep : str) (l : list str) : str :=
  match l with
  | [] => []
  | [x] => x
  | x :: rest => x ++ sep ++ join sep rest
  end.

(** A string is truthy when it is not empty. *)
Definition truthy (s : str) : bool :=
  match s with [] => false | _ => true end.

(** The UTF-8 form of a code point below 256. *)
Definition utf8 (a : ascii) : bytes :=
  if (N_of_ascii a <? 128)%N then [byte_of_ascii a]
  else match Byte.of_N (192 + N_of_ascii a / 64), Byte.of_N (128 + N_of_ascii a mod 64) with
       | Some hi, Some lo => [hi; lo]
       | _, _ => []
       end.

(** [os.fsencode(s)]: UTF-8 with [surrogateescape], which turns an
    escape back into its byte. *)
Definition fsencode_char (c : char) : bytes :=
  match c with
  | Latin a => utf8 a
  | Escape b0 b1 b2 b3 b4 b5 b6 => [byte_of_ascii (escaped_byte b0 b1 b2 b3 b4 b5 b6)]
  end.
Definition fsencode (s : str) : bytes := flat_map fsencode_char s.

(** Decimal rendering of integers: [str(n)] and zero-padded fields. *)
Definition digit_char (d : Z) : char := Latin (ascii_of_N (48 + Z.to_N d)).

Fixpoint pad_digits (width : nat) (n : Z) (acc : str) : str :=
  match width with
  | O => acc
  | S w => pad_digits w (n / 10)%Z (digit_char (n mod 10)%Z :: acc)
  end.

(** [n] zero-padded to exactly [width] digits (its low [width] digits). *)
Definition zpad (width : nat) (n : Z) : str := pad_digits width n [].

Fixpoint nat_digits (fuel : nat) (n : Z) (acc : str) : str :=
  match fuel with
  | O => acc
  | S f =>
      if (n <? 10)%Z then digit_char n :: acc
      else nat_digits f (n / 10)%Z (digit_char (n mod 10)%Z :: acc)
  end.

(** [str(n)] for an integer [n]. *)
Definition str_of_Z (n : Z) : str :=
  if (n <? 0)%Z then Latin "-" :: nat_digits (S (Z.to_nat (Z.log2 (- n)))) (- n) []
  else nat_digits (S (Z.to_nat (Z.log2 n))) n [].

End PyStr.
Import PyStr.

(** ** Regular expressions ([re])

    Only the boolean question "does [pattern.match(s)] succeed" is asked of
    the four module-level patterns, so they are matched by derivatives. *)

Module Re.

Inductive re : Type :=
| Void
| Eps
| Chr (c : char)
| Cls (p : char -> bool)
| Cat (a b : re)
| Alt (a b : re)
| Star (a : re).

Definition Opt (r : re) : re := Alt r Eps.
Definition Plus (r : re) : re := Cat r (Star r).

(** A literal string. *)
Fixpoint Lit (s : str) : re :=
  match s with
  | [] => Eps
  | c :: s' => Cat (Chr c) (Lit s')
  end.

(** [r{n}] and [r{0,n}], hence [r{lo,hi}]. *)
Fixpoint Rep (n : nat) (r : re) : re :=
  match n with
  | O => Eps
  | S k => Cat r (Rep k r)
  end.
Fixpoint UpTo (n : nat) (r : re) : re :=
  match n with
  | O => Eps
  | S k => Opt (Cat r (UpTo k r))
  end.
Definition Range (lo hi : nat) (r : re) : re := Cat (Rep lo r) (UpTo (hi - lo) r).

(** [\d] of a [str] pattern matches the Unicode decimal digits. *)
Definition Digit : re := Cls uni_isdecimal.

(** One pattern character against one input character; under
    [re.IGNORECASE] both are compared after lowercasing. *)
Definition chr_test (ic : bool) (c x : char) : bool :=
  if ic then eqc (uni_tolower x) (uni_tolower c) else eqc x c.

Fixpoint nullable (r : re) : bool :=
  match r with
  | Void => false
  | Eps => true
  | Chr _ => false
  | Cls _ => false
  | Cat a b => nullable a && nullable b
  | Alt a b => nullable a || nullable b
  | Star _ => true
  end.

Fixpoint deriv (ic : bool) (x : char) (r : re) : re :=
  match r with
  | Void => Void
  | Eps => Void
  | Chr c => if chr_test ic c x then Eps else Void
  | Cls p => if p x then Eps else Void
  | Cat a b =>
      if nullable a then Alt (Cat (deriv ic x a) b) (deriv ic x b)
      else Cat (deriv ic x a) b
  | Alt a b => Alt (deriv ic x a) (deriv ic x b)
  | Star a => Cat (deriv ic x a) (Star a)
  end.

(** The whole of [s] is in the language of [r]. *)
Fixpoint accepts (ic : bool) (r : re) (s : str) : bool :=
  match s with
  | [] => nullable r
  | x :: s' => accepts ic (deriv ic x r) s'
  end.

(** Some prefix of [s] is in the language of [r]. *)
Fixpoint accepts_prefix (ic : bool) (r : re) (s : str) : bool :=
  nullable r ||
  match s with
  | [] => false
  | x :: s' => accepts_prefix ic (deriv ic x r) s'
  end.

(** The language of a regular expression: the strings it matches as a
    whole, against which the derivative matcher is checked below. *)
Inductive lang (ic : bool) : re -> str -> Prop :=
| LEps : lang ic Eps []
| LChr (c x : char) : chr_test ic c x = true -> lang ic (Chr c) [x]
| LCls (p : char -> bool) (x : char) : p x = true -> lang ic (Cls p) [x]
| LCat (a b : re) (s t : str) :
    lang ic a s -> lang ic b t -> lang ic (Cat a b) (s ++ t)
| LAltL (a b : re) (s : str) : lang ic a s -> lang ic (Alt a b) s
| LAltR (a b : re) (s : str) : lang ic b s -> lang ic (Alt a b) s
| LStarNil (a : re) : lang ic (Star a) []
| LStarCons (a : re) (s t : str) :
    lang ic a s -> lang ic (Star a) t -> lang ic (Star a) (s ++ t).

(** A compiled pattern that starts with [^]: its body, whether it was
    compiled with [re.IGNORECASE], and whether it ends with [$]. *)
Record Pattern : Type := {
  body : re;
  ignorecase : bool;
  dollar : bool
}.

Definition newline : char := Latin (ascii_of_N 10).

(** [pattern.match(s)] as a truth value.  The match is anchored at the
    start of [s]; a final [$] holds at the end of [s] and just before a
    newline that ends [s]; without [$] any prefix may match. *)
Definition re_match (p : Pattern) (s : str) : bool :=
  if dollar p
  then accepts (ignorecase p) (Cat (body p) (Opt (Chr newline))) s
  else accepts_prefix (ignorecase p) (body p) s.

End Re.
Import Re.

(** ** Exceptions *)

Module PyExc.

Inductive exn : Type :=
| ValueError
| IndexError
| FileNotFoundError
| FileExistsError
| NotADirectoryError
| IsADirectoryError
| PermissionError
| UnicodeEncodeError
| OSError
| OtherException (detail : str).

(** The outcome of a call that may raise. *)
Inductive result (A : Type) : Type :=
| Return (a : A)
| Raise (e : exn).
Arguments Return {A} a.
Arguments Raise {A} e.

Definition bind {A B : Type} (m : result A) (k : A -> result B) : result B :=
  match m with
  | Return a => k a
  | Raise e => Raise e
  end.

End PyExc.
Import PyExc.

Notation "'try!' x ':=' m 'in' k" := (PyExc.bind m (fun x => k))
  (at level 10, x name, m at level 200, k at level 200).

(** [s.encode()]: UTF-8; a lone surrogate cannot be encoded. *)
Definition encode_char (c : char) : result bytes :=
  match c with
  | Latin a => Return (utf8 a)
  | Escape _ _ _ _ _ _ _ => Raise UnicodeEncodeError
  end.

Fixpoint encode (s : str) : result bytes :=
  match s with
  | [] => Return []
  | c :: s' =>
      try! b := encode_char c in
      try! rest := encode s' in
      Return (b ++ rest)
  end.

(** ** [ipaddress] *)

Module Ipaddress.

(** An address object: [IPv4Address] with its [_ip], [IPv6Address] with
    its [_ip] and [_scope_id]. *)
Inductive address : Type :=
| IPv4Address (ip : Z)
| IPv6Address (ip : Z) (scope_id : option str).

Definition digit_value (c : char) : Z :=
  if is_ascii_digit c then Z.of_N (ord c) - 48
  else if between 65 70 c then Z.of_N (ord c) - 55
  else Z.of_N (ord c) - 87.

(** [int(s, base)] on a string of digits of that base. *)
Definition int_of (base : Z) (s : str) : Z :=
  fold_left (fun acc c => acc * base + digit_value c)%Z s 0%Z.

(** [IPv4Address._parse_octet] *)
Definition parse_octet (octet_str : str) : result Z :=
  if negb (truthy octet_str) then Raise ValueError
  else if negb (forallb is_ascii_digit octet_str) then Raise ValueError
  else if (3 <? length octet_str)%nat then Raise ValueError
  else if negb (bool_decide (octet_str = py "0")) && startswith (py "0") octet_str
       then Raise ValueError
  else if (255 <? int_of 10 octet_str)%Z then Raise ValueError
  else Return (int_of 10 octet_str).

(** [int.from_bytes(map(parse, octets), 'big')] *)
Fixpoint octets_value (octets : list str) (acc : Z) : result Z :=
  match octets with
  | [] => Return acc
  | o :: rest =>
      try! v := parse_octet o in octets_value rest (acc * 256 + v)%Z
  end.

(** [IPv4Address._ip_int_from_string] *)
Definition v4_int_from_string (ip_str : str) : result Z :=
  if negb (truthy ip_str) then Raise ValueError
  else
    let octets := split "." ip_str in
    if negb (length octets =? 4)%nat then Raise ValueError
    else octets_value octets 0%Z.

(** [IPv4Address(address)] on a string. *)
Definition new_IPv4Address (addr_str : str) : result Z :=
  if char_in "/" addr_str then Raise ValueError
  else v4_int_from_string addr_str.

(** [IPv6Address._parse_hextet] *)
Definition parse_hextet (hextet_str : str) : result Z :=
  if negb (forallb is_hex_digit hextet_str) then Raise ValueError
  else if (4 <? length hextet_str)%nat then Raise ValueError
  else if negb (truthy hextet_str) then Raise ValueError
  else Return (int_of 16 hextet_str).

(** ['%x' % n] *)
Definition hex_char (d : Z) : char :=
  Latin (if (d <? 10)%Z then ascii_of_N (48 + Z.to_N d) else ascii_of_N (87 + Z.to_N d)).
Fixpoint hex_digits (fuel : nat) (n : Z) (acc : str) : str :=
  match fuel with
  | O => acc
  | S f =>
      if (n <? 16)%Z then hex_char n :: acc
      else hex_digits f (n / 16)%Z (hex_char (n mod 16)%Z :: acc)
  end.
Definition hex_of (n : Z) : str := hex_digits (S (Z.to_nat (Z.log2 n))) n [].

(** The loop that looks for an empty part strictly between the two ends. *)
Fixpoint find_skip (i : nat) (middle : list str) (skip_index : option nat)
  : result (option nat) :=
  match middle with
  | [] => Return skip_index
  | p :: rest =>
      if truthy p then find_skip (S i) rest skip_index
      else match skip_index with
           | Some _ => Raise ValueError
           | None => find_skip (S i) rest (Some i)
           end
  end.

(** [ip_int <<= 16; ip_int |= parse_hextet(part)] over a run of parts. *)
Fixpoint hextets_value (parts : list str) (ip_int : Z) : result Z :=
  match parts with
  | [] => Return ip_int
  | p :: rest =>
      try! v := parse_hextet p in
      hextets_value rest (Z.lor (Z.shiftl ip_int 16) v)
  end.

Definition HEXTET_COUNT : nat := 8.

(** [IPv6Address._ip_int_from_string] *)
Definition v6_int_from_string (ip_str : str) : result Z :=
  if negb (truthy ip_str) then Raise ValueError
  else
    let parts0 := split ":" ip_str in
    if (length parts0 <? 3)%nat then Raise ValueError
    else
      try! parts :=
        (if char_in "." (List.last parts0 [])
         then try! ipv4_int := new_IPv4Address (List.last parts0 []) in
              Return (removelast parts0 ++
                      [hex_of (Z.land (Z.shiftr ipv4_int 16) 65535);
                       hex_of (Z.land ipv4_int 65535)])
         else Return parts0) in
      if (HEXTET_COUNT + 1 <? length parts)%nat then Raise ValueError
      else
        try! skip_index := find_skip 1 (removelast (tl parts)) None in
        try! counts :=
          match skip_index with
          | Some skip =>
              let parts_hi := skip in
              let parts_lo := (length parts - skip - 1)%nat in
              try! parts_hi :=
                (if negb (truthy (hd [] parts))
                 then if negb (Nat.pred parts_hi =? 0)%nat then Raise ValueError
                      else Return (Nat.pred parts_hi)
                 else Return parts_hi) in
              try! parts_lo :=
                (if negb (truthy (List.last parts []))
                 then if negb (Nat.pred parts_lo =? 0)%nat then Raise ValueError
                      else Return (Nat.pred parts_lo)
                 else Return parts_lo) in
              if (HEXTET_COUNT <? parts_hi + parts_lo + 1)%nat then Raise ValueError
              else Return (parts_hi, parts_lo, (HEXTET_COUNT - (parts_hi + parts_lo))%nat)
          | None =>
              if negb (length parts =? HEXTET_COUNT)%nat then Raise ValueError
              else if negb (truthy (hd [] parts)) then Raise ValueError
              else if negb (truthy (List.last parts [])) then Raise ValueError
              else Return (length parts, O, O)
          end in
        let '(parts_hi, parts_lo, parts_skipped) := counts in
        try! hi := hextets_value (firstn parts_hi parts) 0%Z in
        hextets_value (skipn (length parts - parts_lo) parts)
                      (Z.shiftl hi (16 * Z.of_nat parts_skipped)).

(** [IPv6Address._split_scope_id] *)
Definition split_scope_id (ip_str : str) : result (str * option str) :=
  match str_partition "%" ip_str with
  | None => Return (ip_str, None)
  | Some (addr, scope_id) =>
      if negb (truthy scope_id) || char_in "%" scope_id then Raise ValueError
      else Return (addr, Some scope_id)
  end.

(** [IPv6Address(address)] on a string. *)
Definition new_IPv6Address (addr_str : str) : result (Z * option str) :=
  if char_in "/" addr_str then Raise ValueError
  else
    try! split := split_scope_id addr_str in
    try! ip := v6_int_from_string (fst split) in
    Return (ip, snd split).

(** [ipaddress.ip_address(address)] on a string: an IPv4 address if it
    parses as one, else an IPv6 address if it parses as one, else
    [ValueError]. *)
Definition ip_address (addr : str) : result address :=
  match new_IPv4Address addr with
  | Return ip => Return (IPv4Address ip)
  | Raise _ =>
      match new_IPv6Address addr with
      | Return (ip, scope) => Return (IPv6Address ip scope)
      | Raise _ => Raise ValueError
      end
  end.

(** [address.is_loopback], as in CPython 3.11 and 3.12: membership in
    [IPv4Network('127.0.0.0/8')] (the address masked by the netmask is the
    network address), and [_ip == 1] for IPv6. *)
Definition is_loopback (a : address) : bool :=
  match a with
  | IPv4Address ip => (Z.land ip 4278190080 =? 2130706432)%Z
  | IPv6Address ip _ => (ip =? 1)%Z
  end.

End Ipaddress.
Import Ipaddress.

(** ** [urllib.parse] *)

Module Urllib.

Definition tab : char := Latin (ascii_of_N 9).
Definition cr : char := Latin (ascii_of_N 13).

(** [s.partition(sep)[0]], [s.partition(sep)[2]] and [s.rpartition(sep)[2]] *)
Definition part_before (sep : char) (s : str) : str :=
  match str_partition sep s with Some (a, _) => a | None => s end.
Definition part_after (sep : char) (s : str) : str :=
  match str_partition sep s with Some (_, b) => b | None => [] end.
Definition rpart_after (sep : char) (s : str) : str :=
  match str_rpartition sep s with Some (_, b) => b | None => s end.

Fixpoint takewhile (p : char -> bool) (s : str) : str :=
  match s with
  | [] => []
  | c :: s' => if p c then c :: takewhile p s' else []
  end.

Definition scheme_char (c : char) : bool :=
  is_ascii_alpha c || is_ascii_digit c || char_in c (py "+-.").

(** The pattern [\Av[a-fA-F0-9]+\..+\Z] of [_check_bracketed_host]. *)
Definition IPVFUTURE : re :=
  Cat (Chr "v") (Cat (Plus (Cls is_hex_digit))
    (Cat (Chr ".") (Plus (Cls (fun c => negb (eqc c newline)))))).

(** [_check_bracketed_host] *)
Definition check_bracketed_host (hostname : str) : result unit :=
  if startswith (py "v") hostname then
    if accepts false IPVFUTURE hostname then Return tt else Raise ValueError
  else
    match ip_address hostname with
    | Raise e => Raise e
    | Return (IPv4Address _) => Raise ValueError
    | Return (IPv6Address _ _) => Return tt
    end.

(** [_check_bracketed_netloc] *)
Definition check_bracketed_netloc (netloc : str) : result unit :=
  let hostname_and_port := rpart_after "@" netloc in
  match str_partition "[" hostname_and_port with
  | Some (before_bracket, bracketed) =>
      if truthy before_bracket then Raise ValueError
      else
        let hostname := part_before "]" bracketed in
        let port := part_after "]" bracketed in
        if truthy port && negb (startswith (py ":") port) then Raise ValueError
        else check_bracketed_host hostname
  | None => check_bracketed_host (part_before ":" hostname_and_port)
  end.

(** The [netloc] field of [urlsplit(url)], which is that of
    [urlparse(url)].  [_checknetloc] is left out: it only rejects
    characters whose NFKC form contains one of [/?#@:], and no character
    of the model has such a form (a surrogate is its own). *)
Definition urlsplit_netloc (url : str) : result str :=
  let url := dropwhile (fun c => (ord c <=? 32)%N) url in
  let url := remove_char newline (remove_char cr (remove_char tab url)) in
  let url :=
    match str_partition ":" url with
    | Some (pre, post) =>
        if truthy pre && is_ascii_alpha (hd (Latin " ") pre) && forallb scheme_char pre
        then post else url
    | None => url
    end in
  if startswith (py "//") url then
    let netloc := takewhile (fun c => negb (char_in c (py "/?#"))) (skipn 2 url) in
    if (char_in "[" netloc && negb (char_in "]" netloc))
       || (char_in "]" netloc && negb (char_in "[" netloc))
    then Raise ValueError
    else if char_in "[" netloc && char_in "]" netloc
    then try! ok := check_bracketed_netloc netloc in Return netloc
    else Return netloc
  else Return [].

(** The [hostname] property of a parse result with this [netloc];
    [None] is Python's [None]. *)
Definition hostname (netloc : str) : option str :=
  let hostinfo := rpart_after "@" netloc in
  let hostname :=
    match str_partition "[" hostinfo with
    | Some (_, bracketed) => part_before "]" bracketed
    | None => part_before ":" hostinfo
    end in
  if negb (truthy hostname) then None
  else match str_partition "%" hostname with
       | Some (h, zone) => Some (lower h ++ Latin "%" :: zone)
       | None => Some (lower hostname)
       end.

End Urllib.
Import Urllib.

(** * The script *)

(** ** Constants *)

Definition LOOPBACK_HOSTNAMES : gset str :=
  {[ py "localhost"; py "localhost.localdomain"; py "ip6-localhost"; py "ip6-loopback" ]}.

(** [(:\d+)?], the optional port that ends three of the patterns. *)
Definition PORT : re := Opt (Cat (Chr ":") (Plus Digit)).

(** [re.compile(r"^(https?|ftp|ftps)://", re.IGNORECASE)] *)
Definition URL_PATTERN : Pattern := {|
  body := Cat (Alt (Cat (Lit (py "http")) (Opt (Chr "s")))
                   (Alt (Lit (py "ftp")) (Lit (py "ftps"))))
              (Lit (py "://"));
  ignorecase := true;
  dollar := false |}.

(** [re.compile(r"^(\d{1,3}\.){3}\d{1,3}(:\d+)?$")] *)
Definition IPV4_PATTERN : Pattern := {|
  body := Cat (Rep 3 (Cat (Range 1 3 Digit) (Chr ".")))
              (Cat (Range 1 3 Digit) PORT);
  ignorecase := false;
  dollar := true |}.

(** [re.compile(r"^\[?([0-9a-fA-F:]+)\]?(:\d+)?$")] *)
Definition IPV6_PATTERN : Pattern := {|
  body := Cat (Opt (Chr "["))
              (Cat (Plus (Cls (fun c => is_hex_digit c || eqc c ":")))
                   (Cat (Opt (Chr "]")) PORT));
  ignorecase := false;
  dollar := true |}.

(** [re.compile(r"^([a-zA-Z0-9.-]+)(:\d+)?$")] *)
Definition HOST_PORT_PATTERN : Pattern := {|
  body := Cat (Plus (Cls (fun c => is_ascii_alpha c || is_ascii_digit c
                                   || eqc c "." || eqc c "-")))
              PORT;
  ignorecase := false;
  dollar := true |}.

(** The pattern [r"^\[([^\]]+)\](:\d+)?$"] of [extract_host_from_address]. *)
Definition BRACKETED_PATTERN : Pattern := {|
  body := Cat (Chr "[")
              (Cat (Plus (Cls (fun c => negb (eqc c "]"))))
                   (Cat (Chr "]") PORT));
  ignorecase := false;
  dollar := true |}.

(** ** The loopback policy *)

Definition is_loopback_address (address : str) : bool :=
  match ip_address address with
  | Return ip => is_loopback ip
  | Raise _ => false          (* except ValueError *)
  end.

Definition is_allowed_host (host : str) : bool :=
  let host := strip (py "[]") host in
  if bool_decide (lower host ∈ LOOPBACK_HOSTNAMES) then true
  else is_loopback_address host.

(** ** Host extraction *)

Definition extract_host_from_url (url : str) : option str :=
  match urlsplit_netloc url with
  | Return netloc => hostname netloc
  | Raise _ => None           (* except Exception *)
  end.

(** [match.group(1)] of [BRACKETED_PATTERN] on [address]: the class
    [[^\]]] cannot cross a closing bracket, so on a match the group is the
    text between the leading bracket and the first closing one. *)
Definition bracketed_group (address : str) : option str :=
  if re_match BRACKETED_PATTERN address
  then Some (part_before "]" (tl address))
  else None.

Definition extract_host_from_address (address : str) : option str :=
  if startswith (py "[") address then
    match bracketed_group address with
    | Some g => Some g
    | None => Some address
    end
  else if char_in ":" address then
    match str_rpartition ":" address with
    | Some (before, after) => if isdigit after then Some before else Some address
    | None => Some address
    end
  else Some address.

(** ** Validation of the argument list *)

(** [host and not is_allowed_host(host)] *)
Definition host_denied (host : option str) : bool :=
  match host with
  | Some h => truthy h && negb (is_allowed_host h)
  | None => false
  end.

(** The four checks of the loop body on the text [arg] to classify:
    [Some reason] when the body returns [(False, reason)], [None] when it
    moves on to the next argument. *)
Definition check_arg (arg : str) : option str :=
  if re_match URL_PATTERN arg then
    if host_denied (extract_host_from_url arg)
    then Some (py "URL contains non-loopback host: " ++ arg)
    else None
  else if re_match IPV4_PATTERN arg then
    if host_denied (extract_host_from_address arg)
    then Some (py "IPv4 address is not loopback: " ++ arg)
    else None
  else if re_match IPV6_PATTERN arg then
    if host_denied (extract_host_from_address arg)
    then Some (py "IPv6 address is not loopback: " ++ arg)
    else None
  else if re_match HOST_PORT_PATTERN arg && char_in ":" arg then
    if host_denied (extract_host_from_address arg)
    then Some (py "Host:port contains non-loopback host: " ++ arg)
    else None
  else None.

(** The head of the loop body: what is classified for one token, if
    anything. *)
Definition flag_value (arg : str) : option str :=
  if startswith (py "-") arg then
    if char_in "=" arg then Some (part_after "=" arg)
    else None
  else Some arg.

Definition check_token (arg : str) : option str :=
  match flag_value arg with
  | Some value => check_arg value
  | None => None
  end.

Fixpoint validate_network_args (args : list str) : bool * str :=
  match args with
  | [] => (true, [])
  | arg :: rest =>
      match check_token arg with
      | Some reason => (false, reason)
      | None => validate_network_args rest
      end
  end.

(** ** The world the script acts on *)

(** A path relative to the working directory, as its components. *)
Definition path : Type := list str.

Inductive node : Type :=
| Dir
| File (content : bytes).

(** What is written to a standard stream: text through [sys.stderr.write]
    (the error stream escapes what it cannot encode and does not raise)
    or through [print_help], bytes through [sys.stdout.buffer.write]. *)
Inductive chunk : Type :=
| Text (s : str)
| Data (b : bytes).

(** What a run has done, in order.  [Validated] records the result bound
    by [main] to [is_valid, error_msg], [Spawned] a call of
    [subprocess.run], whatever its outcome; the others record a
    completed effect. *)
Inductive event : Type :=
| Validated (allowed : bool) (reason : str)
| MadeReportDir (p : path)
| Wrote (p : path)
| Spawned (command : list str) (stdin_data : option bytes)
| PrintedHelp.

Record World : Type := {
  fs : gmap path node;
  stdout : list chunk;
  stderr : list chunk;
  log : list event
}.

Definition set_fs (f : gmap path node) (w : World) : World :=
  {| fs := f; stdout := stdout w; stderr := stderr w; log := log w |}.
Definition add_stdout (c : chunk) (w : World) : World :=
  {| fs := fs w; stdout := stdout w ++ [c]; stderr := stderr w; log := log w |}.
Definition add_stderr (c : chunk) (w : World) : World :=
  {| fs := fs w; stdout := stdout w; stderr := stderr w ++ [c]; log := log w |}.
Definition add_log (e : event) (w : World) : World :=
  {| fs := fs w; stdout := stdout w; stderr := stderr w; log := log w ++ [e] |}.

(** A [datetime] value. *)
Record datetime : Type := {
  year : Z; month : Z; day : Z;
  hour : Z; minute : Z; second : Z; microsecond : Z
}.

(** How [subprocess.run] ends: with the output and exit code of the
    child, or with an exception. *)
Inductive spawn_outcome : Type :=
| Completed (stdout_data stderr_data : bytes) (returncode : Z)
| SpawnFileNotFoundError
| SpawnPermissionError
| SpawnException (detail : str).

(** What a run reads from its environment.  A float number of seconds
    enters the script only to be printed with six decimals, so it is kept
    as the number of microseconds it is printed as. *)
Record Env : Type := {
  env_stdin : option bytes;            (* [None]: standard input is a terminal *)
  env_cwd : str;                       (* [os.getcwd()] *)
  env_now_dir : datetime;              (* the clock read by [get_timestamp] *)
  env_now_start : datetime;            (* the clock read before the spawn *)
  env_now_end : datetime;              (* the clock read after it *)
  env_perf_start : Z;                  (* [time.perf_counter()] before *)
  env_perf_end : Z;                    (* and after *)
  env_spawn : list str -> option bytes -> spawn_outcome;
  env_child_fs : list str -> option bytes -> gmap path node -> gmap path node;
                                       (* the file system as the spawn leaves it *)
  env_help : str;                      (* [parser.format_help()] *)
  env_rusage : option (Z * Z * Z)      (* [None]: no [resource] module *)
}.

(** Computations on the world that may raise. *)
Definition M (A : Type) : Type := World -> result A * World.

Definition ret {A : Type} (a : A) : M A := fun w => (Return a, w).
Definition raise {A : Type} (e : exn) : M A := fun w => (Raise e, w).
Definition mbind {A B : Type} (m : M A) (k : A -> M B) : M B :=
  fun w => match m w with
           | (Return a, w') => k a w'
           | (Raise e, w') => (Raise e, w')
           end.
Definition effect (f : World -> World) : M unit := fun w => (Return tt, f w).
Definition lift {A : Type} (r : result A) : M A := fun w => (r, w).

Notation "'do!' x ':=' m 'in' k" := (mbind m (fun x => k))
  (at level 10, x name, m at level 200, k at level 200).
Notation "'exec!' m 'then' k" := (mbind m (fun _ => k))
  (at level 10, m at level 200, k at level 200).

(** *** The file system *)

Definition parent (p : path) : path := removelast p.

(** The working directory itself is a directory. *)
Definition lookup_node (f : gmap path node) (p : path) : option node :=
  match p with
  | [] => Some Dir
  | _ => f !! p
  end.

Definition is_dir (f : gmap path node) (p : path) : bool :=
  match lookup_node f p with
  | Some Dir => true
  | _ => false
  end.

(** The longest name of a directory entry, in bytes, as on the file
    systems of Linux. *)
Definition NAME_MAX : nat := 255.

Definition name_too_long (name : str) : bool :=
  (NAME_MAX <? length (fsencode name))%nat.

(** [os.mkdir(p)] *)
Definition os_mkdir (p : path) (f : gmap path node) : result (gmap path node) :=
  match lookup_node f p with
  | Some _ => Raise FileExistsError
  | None =>
      match lookup_node f (parent p) with
      | Some Dir =>
          if name_too_long (List.last p []) then Raise OSError   (* ENAMETOOLONG *)
          else Return (<[p := Dir]> f)
      | Some (File _) => Raise NotADirectoryError
      | None => Raise FileNotFoundError
      end
  end.

(** [Path.mkdir(parents=False, exist_ok=True)] *)
Definition mkdir_exist_ok (p : path) (f : gmap path node) : result (gmap path node) :=
  match os_mkdir p f with
  | Return f' => Return f'
  | Raise FileNotFoundError => Raise FileNotFoundError
  | Raise e => if is_dir f p then Return f else Raise e
  end.

(** [Path.mkdir(parents=True, exist_ok=True)], on the reversed path: the
    parent of [rev (c :: rp)] is [rev rp].  The file system is returned
    in either case: the parents made stay when the directory itself
    cannot be made. *)
Fixpoint mkdir_parents (rp : list str) (f : gmap path node)
  : result unit * gmap path node :=
  match os_mkdir (rev rp) f with
  | Return f' => (Return tt, f')
  | Raise FileNotFoundError =>
      match rp with
      | [] => (Raise FileNotFoundError, f)
      | _ :: rparent =>
          match mkdir_parents rparent f with
          | (Return _, f1) =>
              match mkdir_exist_ok (rev rp) f1 with
              | Return f2 => (Return tt, f2)
              | Raise e => (Raise e, f1)
              end
          | (Raise e, f1) => (Raise e, f1)
          end
      end
  | Raise e => if is_dir f (rev rp) then (Return tt, f) else (Raise e, f)
  end.

(** [p.mkdir(parents=True, exist_ok=True)] *)
Definition mkdir (p : path) : M unit :=
  fun w => (fst (mkdir_parents (rev p) (fs w)),
            set_fs (snd (mkdir_parents (rev p) (fs w))) w).

(** [open(p, "wb")] followed by the writing of [data]: the file is
    created, or replaced. *)
Definition create_file (p : path) (data : bytes) : M unit :=
  fun w => match lookup_node (fs w) p with
           | Some Dir => (Raise IsADirectoryError, w)
           | _ =>
               match lookup_node (fs w) (parent p) with
               | Some Dir =>
                   if name_too_long (List.last p []) then (Raise OSError, w)
                   else (Return tt, set_fs (<[p := File data]> (fs w)) w)
               | Some (File _) => (Raise NotADirectoryError, w)
               | None => (Raise FileNotFoundError, w)
               end
           end.

(** [p.write_bytes(data)] *)
Definition write_bytes (p : path) (data : bytes) : M unit :=
  exec! create_file p data then
  effect (add_log (Wrote p)).

(** [p.write_text(s)]: the file is opened, which creates or empties it,
    and [s] is encoded as it is written. *)
Definition write_text (p : path) (s : str) : M unit :=
  match encode s with
  | Return data => write_bytes p data
  | Raise e => exec! create_file p [] then raise e
  end.

(** [p / name], for a relative [name]. *)
Definition path_join (p : path) (name : str) : path :=
  p ++ List.filter (fun c => truthy c && negb (bool_decide (c = py "."))) (split "/" name).

(** ** Report directory *)

(** [d.strftime("%Y-%m-%dT%H-%M-%S.%f")] *)
Definition strftime_stamp (d : datetime) : str :=
  str_of_Z (year d) ++ py "-" ++ zpad 2 (month d) ++ py "-" ++ zpad 2 (day d)
  ++ py "T" ++ zpad 2 (hour d) ++ py "-" ++ zpad 2 (minute d) ++ py "-"
  ++ zpad 2 (second d) ++ py "." ++ zpad 6 (microsecond d).

(** [s[:-3]] *)
Definition drop_last3 (s : str) : str := firstn (length s - 3) s.

Definition get_timestamp (env : Env) : str :=
  drop_last3 (strftime_stamp (env_now_dir env)).

(** [\w] of a [str] pattern: alphanumeric in Unicode, or the underscore. *)
Definition is_word (c : char) : bool := uni_isalnum c || eqc c "_".

(** [re.sub(r"[^\w\-.]", "_", command_name)] *)
Definition safe_name (command_name : str) : str :=
  map (fun c => if negb (is_word c || eqc c "-" || eqc c ".") then Latin "_" else c)
      command_name.

Definition report_dir_of (env : Env) (command_name : str) : path :=
  path_join (path_join (path_join [] (py "./test-output")) (py "autoapprove"))
            (get_timestamp env ++ py "-" ++ safe_name command_name).

Definition create_report_directory (env : Env) (command_name : str) : M path :=
  let report_dir := report_dir_of env command_name in
  exec! mkdir report_dir then
  exec! effect (add_log (MadeReportDir report_dir)) then
  ret report_dir.

(** ** Running the command *)

Definition get_resource_usage (env : Env) : Z * Z * Z :=
  match env_rusage env with
  | None => (0, 0, 0)%Z
  | Some usage => usage
  end.

(** [f"{x:.6f}"] for [x] given in microseconds. *)
Definition fmt_6f (us : Z) : str :=
  (if (us <? 0)%Z then py "-" else [])
  ++ str_of_Z (Z.abs us / 1000000) ++ py "." ++ zpad 6 (Z.abs us mod 1000000).

(** [d.isoformat()] for an aware [datetime] in UTC. *)
Definition isoformat (d : datetime) : str :=
  zpad 4 (year d) ++ py "-" ++ zpad 2 (month d) ++ py "-" ++ zpad 2 (day d)
  ++ py "T" ++ zpad 2 (hour d) ++ py ":" ++ zpad 2 (minute d) ++ py ":"
  ++ zpad 2 (second d)
  ++ (if (microsecond d =? 0)%Z then [] else py "." ++ zpad 6 (microsecond d))
  ++ py "+00:00".

Definition result_content (env : Env) (command : list str) (exit_code : Z) : str :=
  let '(user_time, system_time, max_memory) := get_resource_usage env in
  py "command: " ++ join (py " ") command ++ [newline]
  ++ py "working_directory: " ++ env_cwd env ++ [newline]
  ++ py "exit_code: " ++ str_of_Z exit_code ++ [newline]
  ++ py "start_time: " ++ isoformat (env_now_start env) ++ [newline]
  ++ py "end_time: " ++ isoformat (env_now_end env) ++ [newline]
  ++ py "duration_seconds: " ++ fmt_6f (env_perf_end env - env_perf_start env) ++ [newline]
  ++ py "cpu_user_time_seconds: " ++ fmt_6f user_time ++ [newline]
  ++ py "cpu_system_time_seconds: " ++ fmt_6f system_time ++ [newline]
  ++ py "max_memory_kb: " ++ str_of_Z max_memory ++ [newline].

(** [command[0]] *)
Definition first_arg (command : list str) : M str :=
  match command with
  | [] => raise IndexError
  | name :: _ => ret name
  end.

(** The [try] statement around [subprocess.run]: the captured streams
    and exit code, real or synthetic. *)
Definition spawn (env : Env) (command : list str) (stdin_data : option bytes)
  : M (bytes * bytes * Z) :=
  exec! effect (add_log (Spawned command stdin_data)) then
  exec! effect (fun w => set_fs (env_child_fs env command stdin_data (fs w)) w) then
  match env_spawn env command stdin_data with
  | Completed stdout_data stderr_data returncode =>
      ret (stdout_data, stderr_data, returncode)
  | SpawnFileNotFoundError =>
      do! name := first_arg command in
      do! stderr_data := lift (encode (py "Command not found: " ++ name ++ [newline])) in
      ret ([], stderr_data, 127%Z)
  | SpawnPermissionError =>
      do! name := first_arg command in
      do! stderr_data := lift (encode (py "Permission denied: " ++ name ++ [newline])) in
      ret ([], stderr_data, 126%Z)
  | SpawnException detail =>
      do! stderr_data := lift (encode (py "Error executing command: " ++ detail
                                       ++ [newline])) in
      ret ([], stderr_data, 1%Z)
  end.

Definition run_command (env : Env) (command : list str) (report_dir : path)
    (stdin_data : option bytes) : M Z :=
  exec! (match stdin_data with
         | Some (b :: data) =>
             write_bytes (path_join report_dir (py "STDIN.log")) (b :: data)
         | _ => write_text (path_join report_dir (py "STDIN.log")) []
         end) then
  do! captured := spawn env command stdin_data in
  let '(stdout_data, stderr_data, exit_code) := captured in
  exec! write_bytes (path_join report_dir (py "STDOUT.log")) stdout_data then
  exec! write_bytes (path_join report_dir (py "STDERR.log")) stderr_data then
  exec! write_text (path_join report_dir (py "result.log"))
                   (result_content env command exit_code) then
  exec! effect (add_stdout (Data stdout_data)) then
  exec! effect (add_stderr (Data stderr_data)) then
  ret exit_code.

(** ** Entry point *)

(** The parsed command line. *)
Record Namespace : Type := {
  command : list str;
  skip_validation : bool
}.

(** [os.path.basename(p)] *)
Definition basename (p : str) : str := rpart_after "/" p.

(** [parser.print_help()]: the help is written to [sys.stdout], which
    encodes it. *)
Definition print_help (env : Env) : M unit :=
  do! encoded := lift (encode (env_help env)) in
  exec! effect (add_stdout (Text (env_help env))) then
  effect (add_log PrintedHelp).

Definition main (env : Env) (args : Namespace) : M Z :=
  match command args with
  | [] => exec! print_help env then ret 1%Z
  | name :: _ =>
      let run :=
        (do! report_dir := create_report_directory env (basename name) in
         run_command env (command args) report_dir (env_stdin env)) in
      if negb (skip_validation args) then
        let '(is_valid, error_msg) := validate_network_args (command args) in
        exec! effect (add_log (Validated is_valid error_msg)) then
        if negb is_valid then
          exec! effect (add_stderr (Text (py "autoapprove: Network validation failed: "
                                          ++ error_msg ++ [newline]))) then
          exec! effect (add_stderr (Text (py "autoapprove: Only loopback addresses (127.0.0.1, ::1, localhost) are allowed."
                                          ++ [newline]))) then
          exec! effect (add_stderr (Text (py "autoapprove: Use --skip-validation to bypass this check (not recommended)."
                                          ++ [newline]))) then
          ret 1%Z
        else run
      else run
  end.

(** * The specification's vocabulary *)

(** The categories of section 4.1, in their order of precedence. *)
Inductive category : Type :=
| CatURL
| CatIPv4
| CatIPv6
| CatHostPort.

Definition precedence : list category := [CatURL; CatIPv4; CatIPv6; CatHostPort].

Definition has_shape (c : category) (arg : str) : bool :=
  match c with
  | CatURL => re_match URL_PATTERN arg
  | CatIPv4 => re_match IPV4_PATTERN arg
  | CatIPv6 => re_match IPV6_PATTERN arg
  | CatHostPort => re_match HOST_PORT_PATTERN arg && char_in ":" arg
  end.

(** The first category, in order of precedence, whose shape the text
    has; [None] for a text that is not network-shaped. *)
Definition classify (arg : str) : option category :=
  find (fun c => has_shape c arg) precedence.

Definition extract_host (c : category) (arg : str) : option str :=
  match c with
  | CatURL => extract_host_from_url arg
  | _ => extract_host_from_address arg
  end.

Definition denial (c : category) : str :=
  match c with
  | CatURL => py "URL contains non-loopback host: "
  | CatIPv4 => py "IPv4 address is not loopback: "
  | CatIPv6 => py "IPv6 address is not loopback: "
  | CatHostPort => py "Host:port contains non-loopback host: "
  end.

(** The verdict on a text under one category alone. *)
Definition judge (c : category) (arg : str) : option str :=
  if host_denied (extract_host c arg) then Some (denial c ++ arg) else None.

(** The verdict of the specification: the text is judged under the
    category it is classified in, and under no other. *)
Definition spec_check (arg : str) : option str :=
  match classify arg with
  | Some c => judge c arg
  | None => None
  end.

(** The loopback ranges as section 4.2 states them: [127.0.0.0/8] and
    [::1]. *)
Definition in_loopback_range (a : address) : Prop :=
  match a with
  | IPv4Address ip => (127 * 2 ^ 24 <= ip < 128 * 2 ^ 24)%Z
  | IPv6Address ip _ => ip = 1%Z
  end.

(** Section 4.2 on a host string, read literally. *)
Definition spec_allowed (h : str) : Prop :=
  lower h ∈ LOOPBACK_HOSTNAMES \/
  exists a, ip_address h = Return a /\ in_loopback_range a.

(** The character class [[A-Za-z0-9_.-]] of section 4.5. *)
Definition spec_safe_char (c : char) : bool :=
  is_ascii_alpha c || is_ascii_digit c || eqc c "_" || eqc c "." || eqc c "-".

Definition spec_sanitize (command_name : str) : str :=
  map (fun c => if spec_safe_char c then c else Latin "_") command_name.

(** [needle in hay] *)
Fixpoint contains (needle hay : str) : bool :=
  startswith needle hay ||
  match hay with
  | [] => false
  | _ :: hay' => contains needle hay'
  end.

(** The events of one kind among those a run added to the log. *)
Definition is_validation (e : event) : bool :=
  match e with Validated _ _ => true | _ => false end.
Definition is_report_dir (e : event) : bool :=
  match e with MadeReportDir _ => true | _ => false end.
Definition is_spawn (e : event) : bool :=
  match e with Spawned _ _ => true | _ => false end.
Definition count (p : event -> bool) (l : list event) : nat := length (List.filter p l).

(** A file system in which every entry lies in a directory. *)
Definition fs_wf (f : gmap path node) : Prop :=
  forall p n, f !! p = Some n -> p <> [] /\ lookup_node f (parent p) = Some Dir.

(** The names of the four logs of a report. *)
Definition log_names : list str :=
  [py "STDIN.log"; py "STDOUT.log"; py "STDERR.log"; py "result.log"].

(** Nothing stands in the way of a report in [report_dir]: the directory
    and its ancestors are not files, and its four logs are not
    directories. *)
Definition no_file_at (f : gmap path node) (p : path) : Prop :=
  forall content, f !! p <> Some (File content).

Definition report_possible (f : gmap path node) (report_dir : path) : Prop :=
  fs_wf f /\
  (forall q, q `prefix_of` report_dir -> no_file_at f q) /\
  (forall name, In name log_names -> f !! (report_dir ++ [name]) <> Some Dir) /\
  forallb (fun name => negb (name_too_long name)) report_dir = true.

(** The logs of a report can be written into [report_dir]: it is a
    directory, and none of the four logs is one. *)
Definition logs_writable (f : gmap path node) (report_dir : path) : Prop :=
  is_dir f report_dir = true /\
  forall name, In name log_names -> f !! (report_dir ++ [name]) <> Some Dir.

(** Whatever the spawn does to the file system, it leaves a report
    directory that can be written into in that state. *)
Definition spawn_keeps_report (env : Env) (command : list str)
    (stdin_data : option bytes) (report_dir : path) : Prop :=
  forall f, logs_writable f report_dir ->
            logs_writable (env_child_fs env command stdin_data f) report_dir.

(** [s.encode()] does not raise. *)
Definition encodable (s : str) : bool :=
  match encode s with
  | Return _ => true
  | Raise _ => false
  end.

Definition is_latin (c : char) : bool :=
  match c with
  | Latin _ => true
  | Escape _ _ _ _ _ _ _ => false
  end.

(** The text written to a stream, and the number of lines in a text
    that ends with a newline. *)
Definition chunk_text (c : chunk) : str :=
  match c with
  | Text s => s
  | Data _ => []
  end.
Definition text_of (chunks : list chunk) : str := flat_map chunk_text chunks.
Definition line_count (s : str) : nat := length (List.filter (eqc newline) s).

(** An empty world, and an environment in which every spawn fails to
    find the binary. *)
Definition empty_world : World :=
  {| fs := ∅; stdout := []; stderr := []; log := [] |}.

Definition sample_time : datetime :=
  {| year := 2025; month := 1; day := 2; hour := 3; minute := 4; second := 5;
     microsecond := 678912 |}.

Definition sample_env (outcome : spawn_outcome) : Env :=
  {| env_stdin := None; env_cwd := py "/work";
     env_now_dir := sample_time; env_now_start := sample_time;
     env_now_end := sample_time; env_perf_start := 0; env_perf_end := 1500;
     env_spawn := fun _ _ => outcome; env_child_fs := fun _ _ f => f;
     env_help := py "usage: autoapprove.py [-h] [--skip-validation] ...";
     env_rusage := None |}.

(** An argument that is the one byte 0xFF, which is no valid UTF-8. *)
Definition undecodable : str := [Escape true true true true true true true].

(** An environment in which the child runs to completion and removes
    every file and directory, and a world with a directory [report]. *)
Definition removing_env : Env :=
  {| env_stdin := None; env_cwd := py "/work";
     env_now_dir := sample_time; env_now_start := sample_time;
     env_now_end := sample_time; env_perf_start := 0; env_perf_end := 1500;
     env_spawn := fun _ _ => Completed [] [] 0; env_child_fs := fun _ _ _ => ∅;
     env_help := []; env_rusage := None |}.

Definition report_world : World :=
  {| fs := {[ [py "report"] := Dir ]}; stdout := []; stderr := []; log := [] |}.

(** The place of a category in the order of precedence. *)
Definition rank (c : category) : nat :=
  match c with
  | CatURL => 0
  | CatIPv4 => 1
  | CatIPv6 => 2
  | CatHostPort => 3
  end.

(** A token that leaves nothing to classify: the empty string, or a flag
    whose first ["="] is its last character. *)
Definition empty_valued (t : str) : Prop :=
  t = [] \/
  (startswith (py "-") t = true /\
   exists name, t = name ++ py "=" /\ char_in "=" name = false).

(** The time stamp of section 6: UTC, to the millisecond, as
    [YYYY-MM-DDTHH-MM-SS.mmm]. *)
Definition timestamp_ms (d : datetime) : str :=
  str_of_Z (year d) ++ py "-" ++ zpad 2 (month d) ++ py "-" ++ zpad 2 (day d)
  ++ py "T" ++ zpad 2 (hour d) ++ py "-" ++ zpad 2 (minute d) ++ py "-"
  ++ zpad 2 (second d) ++ py "." ++ zpad 3 (microsecond d / 1000).

(** Step 4 of section 4.6: the synthetic error text and the exit code
    for each outcome of the spawn of a command named [name], and with
    them what is captured, when that text can be encoded. *)
Definition spawn_message (name : str) (o : spawn_outcome) : str :=
  match o with
  | Completed _ _ _ => []
  | SpawnFileNotFoundError => py "Command not found: " ++ name ++ [newline]
  | SpawnPermissionError => py "Permission denied: " ++ name ++ [newline]
  | SpawnException detail => py "Error executing command: " ++ detail ++ [newline]
  end.

Definition spawn_code (o : spawn_outcome) : Z :=
  match o with
  | Completed _ _ returncode => returncode
  | SpawnFileNotFoundError => 127%Z
  | SpawnPermissionError => 126%Z
  | SpawnException _ => 1%Z
  end.

Definition spawn_result (name : str) (o : spawn_outcome) : result (bytes * bytes * Z) :=
  match o with
  | Completed stdout_data stderr_data returncode =>
      Return (stdout_data, stderr_data, returncode)
  | _ =>
      try! stderr_data := encode (spawn_message name o) in
      Return ([], stderr_data, spawn_code o)
  end.

(** An execution record has been written: a file named [result.log]. *)
Definition is_record (e : event) : bool :=
  match e with
  | Wrote p => bool_decide (List.last p [] = py "result.log")
  | _ => false
  end.

(** What [STDIN.log] receives. *)
Definition stdin_content (stdin_data : option bytes) : bytes :=
  match stdin_data with
  | Some data => data
  | None => []
  end.

(** The three lines written to the error stream on denial. *)
Definition denial_lines (reason : str) : list chunk :=
  [Text (py "autoapprove: Network validation failed: " ++ reason ++ [newline]);
   Text (py "autoapprove: Only loopback addresses (127.0.0.1, ::1, localhost) are allowed."
         ++ [newline]);
   Text (py "autoapprove: Use --skip-validation to bypass this check (not recommended)."
         ++ [newline])].

(** An invocation is denied when validation is not skipped and fails. *)
Definition denied (args : Namespace) : bool :=
  negb (skip_validation args) && negb (fst (validate_network_args (command args))).

(** What [mkdir] changes: nothing but absent prefixes of the path, which
    become directories. *)
Definition only_adds_dirs (f f' : gmap path node) (p : path) : Prop :=
  forall q, f' !! q = f !! q \/
            (f !! q = None /\ f' !! q = Some Dir /\ q `prefix_of` p).

(** The events of a run that creates its report directory and runs the
    command. *)
Definition report_events (report_dir : path) (command : list str)
    (stdin_data : option bytes) : list event :=
  [MadeReportDir report_dir;
   Wrote (report_dir ++ [py "STDIN.log"]);
   Spawned command stdin_data;
   Wrote (report_dir ++ [py "STDOUT.log"]);
   Wrote (report_dir ++ [py "STDERR.log"]);
   Wrote (report_dir ++ [py "result.log"])].

(** ** Vocabulary of the further properties *)

(** An optional port: nothing, or a colon and a non-empty run of decimal
    digits. *)
Definition optional_port (port : str) : Prop :=
  port = [] \/
  exists d, port = py ":" ++ d /\ d <> [] /\ forallb is_ascii_digit d = true.

(** The characters of a plain host name: letters, digits, dot, hyphen. *)
Definition host_char (c : char) : bool :=
  is_ascii_alpha c || is_ascii_digit c || eqc c "." || eqc c "-".

(** The dotted quad [a.b.c.d] in decimal. *)
Definition dotted (a b c d : Z) : str :=
  str_of_Z a ++ py "." ++ str_of_Z b ++ py "." ++ str_of_Z c ++ py "."
  ++ str_of_Z d.

(** All the characters of the model. *)
Definition all_chars : list char :=
  map (fun n => Latin (ascii_of_N (N.of_nat n))) (seq 0 256)
  ++ map (fun n => match ascii_of_N (N.of_nat n) with
                   | Ascii b0 b1 b2 b3 b4 b5 b6 _ => Escape b0 b1 b2 b3 b4 b5 b6
                   end) (seq 0 128).

(** Every character that passes the first test passes the second. *)
Definition test_implies (t P : char -> bool) : bool :=
  forallb (fun x => implb (t x) (P x)) all_chars.

(** A sufficient syntactic condition for every string of a language to
    be empty or to begin with a character in [P] ... *)
Fixpoint first_opt (ic : bool) (P : char -> bool) (r : re) : bool :=
  match r with
  | Void => true
  | Eps => true
  | Chr c => test_implies (chr_test ic c) P
  | Cls p => test_implies p P
  | Cat a b =>
      (negb (nullable a) && first_opt ic P a)
      || (first_opt ic P a && first_opt ic P b)
  | Alt a b => first_opt ic P a && first_opt ic P b
  | Star a => first_opt ic P a
  end.

(** ... and for none of them to be empty. *)
Fixpoint never_empty (r : re) : bool :=
  match r with
  | Void => true
  | Eps => false
  | Chr _ => true
  | Cls _ => true
  | Cat a b => never_empty a || never_empty b
  | Alt a b => never_empty a && never_empty b
  | Star _ => false
  end.

(** A sufficient syntactic condition for every string of a language to
    contain a character in [Q]. *)
Fixpoint must_have (ic : bool) (Q : char -> bool) (r : re) : bool :=
  match r with
  | Void => true
  | Eps => false
  | Chr c => test_implies (chr_test ic c) Q
  | Cls p => test_implies p Q
  | Cat a b => must_have ic Q a || must_have ic Q b
  | Alt a b => must_have ic Q a && must_have ic Q b
  | Star _ => false
  end.

(** The characters of the IPv6 class of [IPV6_PATTERN]. *)
Definition hex_or_colon (c : char) : bool := is_hex_digit c || eqc c ":".

(** The decimal rendering of an octet is one to three digits that
    [_parse_octet] reads back. *)
Definition octet_ok (n : Z) : bool :=
  forallb is_ascii_digit (str_of_Z n)
  && (1 <=? length (str_of_Z n))%nat && (length (str_of_Z n) <=? 3)%nat
  && match parse_octet (str_of_Z n) with
     | Return v => (v =? n)%Z
     | Raise _ => false
     end.

(** The first letter of a URL scheme that [URL_PATTERN] knows, in either
    case. *)
Definition scheme_initial (x : char) : bool :=
  eqc (uni_tolower x) "h" || eqc (uni_tolower x) "f".

(** The characters of a bracketed IPv6 token. *)
Definition bracket_token_char (c : char) : bool :=
  hex_or_colon c || eqc c "[" || eqc c "]".

(** The letter [t], in either case: every scheme of [URL_PATTERN] has
    one. *)
Definition letter_t (x : char) : bool := eqc (uni_tolower x) "t".

(** The first letter of a loopback hostname, in either case. *)
Definition hostname_initial (x : char) : bool :=
  eqc (uni_tolower x) "l" || eqc (uni_tolower x) "i".

(** The schemes of [URL_PATTERN], in lowercase. *)
Definition known_schemes : list str := [py "http"; py "https"; py "ftp"; py "ftps"].

(** What [urlsplit] needs of a scheme, and [URL_PATTERN] of the scheme
    followed by [://]. *)
Definition scheme_ok (scheme : str) : bool :=
  match scheme with
  | [] => false
  | x :: _ =>
      negb (ord x <=? 32)%N && is_ascii_alpha x && forallb scheme_char scheme
      && forallb host_char scheme
      && accepts true (body URL_PATTERN) (scheme ++ py "://")
  end.

(** What may follow the authority of a URL: nothing, or a path. *)
Definition optional_path (rest : str) : Prop :=
  rest = [] \/ exists p, rest = py "/" ++ p.

(** The characters [safe_name] lets through. *)
Definition safe_char (c : char) : bool := is_word c || eqc c "-" || eqc c ".".

(** The lines of [result.log]: nine keys, each with its value. *)
Definition result_lines (env : Env) (command : list str) (exit_code : Z) : list str :=
  let '(user_time, system_time, max_memory) := get_resource_usage env in
  [py "command: " ++ join (py " ") command;
   py "working_directory: " ++ env_cwd env;
   py "exit_code: " ++ str_of_Z exit_code;
   py "start_time: " ++ isoformat (env_now_start env);
   py "end_time: " ++ isoformat (env_now_end env);
   py "duration_seconds: " ++ fmt_6f (env_perf_end env - env_perf_start env);
   py "cpu_user_time_seconds: " ++ fmt_6f user_time;
   py "cpu_system_time_seconds: " ++ fmt_6f system_time;
   py "max_memory_kb: " ++ str_of_Z max_memory].

(** The characters of a rendered number or time. *)
Definition number_char (c : char) : bool :=
  is_ascii_digit c || eqc c "-" || eqc c "." || eqc c ":" || eqc c "+" || eqc c "T".

(** The texts a run has to encode can be encoded: the arguments, the
    working directory, and the synthetic error text if the spawn
    fails. *)
Definition run_encodable (env : Env) (command : list str) : bool :=
  forallb encodable command && encodable (env_cwd env)
  && encodable (spawn_message (hd [] command)
                              (env_spawn env command (env_stdin env))).

(** A run of [command] can write its report: nothing stands in the
    way of the report directory, the spawn leaves it in place, and the
    texts of the run can be encoded. *)
Definition run_possible (env : Env) (command : list str) (f : gmap path node) : Prop :=
  let report_dir := report_dir_of env (basename (hd [] command)) in
  report_possible f report_dir /\
  spawn_keeps_report env command (env_stdin env) report_dir /\
  run_encodable env command = true.

(** The file system after [run_command] has written the captured
    streams and the record into [report_dir], from the one the spawn
    left. *)
Definition fs_with_logs (f : gmap path node) (report_dir : path)
    (stdout_log stderr_log result_log : bytes) : gmap path node :=
  <[report_dir ++ [py "result.log"] := File result_log]>
    (<[report_dir ++ [py "STDERR.log"] := File stderr_log]>
       (<[report_dir ++ [py "STDOUT.log"] := File stdout_log]> f)).

(** The file system as the spawn leaves it, [STDIN.log] having been
    written into [report_dir] before. *)
Definition fs_after_spawn (env : Env) (command : list str)
    (stdin_data : option bytes) (report_dir : path) (f : gmap path node)
  : gmap path node :=
  env_child_fs env command stdin_data
    (<[report_dir ++ [py "STDIN.log"] := File (stdin_content stdin_data)]> f).

(** The exit code [main] returns when nothing raises. *)
Definition main_exit_code (env : Env) (args : Namespace) : Z :=
  match command args with
  | [] => 1%Z
  | name :: _ =>
      if denied args then 1%Z
      else spawn_code (env_spawn env (command args) (env_stdin env))
  end.

(** * Facts about strings *)

Module StrFacts.

(** Case analysis over every character of the model. *)
Ltac each_char x :=
  destruct x as [[[] [] [] [] [] [] [] []] | [] [] [] [] [] [] []].

Lemma eqc_true (a b : char) : eqc a b = true <-> a = b.
Proof.
  destruct a as [x | a0 a1 a2 a3 a4 a5 a6], b as [y | b0 b1 b2 b3 b4 b5 b6];
    cbn [eqc]; try (split; [discriminate | congruence]).
  - rewrite Ascii.eqb_eq. split; congruence.
  - rewrite Ascii.eqb_eq. unfold escaped_byte. split; congruence.
Qed.

Lemma eqc_false (a b : char) : eqc a b = false <-> a <> b.
Proof.
  rewrite <- eqc_true. destruct (eqc a b); split; congruence.
Qed.

Lemma eqc_sym (a b : char) : eqc a b = eqc b a.
Proof.
  destruct a, b; cbn [eqc]; try reflexivity; apply Ascii.eqb_sym.
Qed.

Lemma char_in_false (c : char) (s : str) :
  char_in c s = false <-> ~ In c s.
Proof.
  unfold char_in. induction s as [|x s IH]; simpl.
  - tauto.
  - rewrite orb_false_iff, IH, eqc_false. firstorder congruence.
Qed.

Lemma char_in_app (c : char) (s t : str) :
  char_in c (s ++ t) = char_in c s || char_in c t.
Proof. unfold char_in. apply existsb_app. Qed.

Lemma dropwhile_none (p : char -> bool) (s : str) :
  (forall c, In c s -> p c = false) -> dropwhile p s = s.
Proof.
  destruct s as [|x s]; simpl; [reflexivity|].
  intros H. rewrite (H x); [reflexivity | now left].
Qed.

Lemma dropwhile_app_none (p : char -> bool) (s t : str) :
  s <> [] -> (forall c, In c s -> p c = false) -> dropwhile p (s ++ t) = s ++ t.
Proof.
  destruct s as [|x s]; [congruence|]. simpl. intros _ H.
  rewrite (H x); [reflexivity | now left].
Qed.

Lemma partition_first (sep : char) (a b : str) :
  char_in sep a = false ->
  str_partition sep (a ++ sep :: b) = Some (a, b).
Proof.
  induction a as [|x a IH]; simpl; intros H.
  - assert (E : eqc sep sep = true) by now apply eqc_true. now rewrite E.
  - apply orb_false_iff in H as [Hx Ha]. rewrite eqc_sym in Hx. rewrite Hx.
    now rewrite (IH Ha).
Qed.

Lemma partition_none (sep : char) (s : str) :
  char_in sep s = false -> str_partition sep s = None.
Proof.
  induction s as [|x s IH]; simpl; intros H; [reflexivity|].
  apply orb_false_iff in H as [Hx Hs]. rewrite eqc_sym in Hx. rewrite Hx.
  now rewrite (IH Hs).
Qed.

Lemma partition_some (sep : char) (s a b : str) :
  str_partition sep s = Some (a, b) ->
  s = a ++ sep :: b /\ char_in sep a = false.
Proof.
  revert a b. induction s as [|x s IH]; simpl; intros a b H; [discriminate|].
  destruct (eqc x sep) eqn:E.
  - injection H as <- <-. apply eqc_true in E. subst. now split.
  - destruct (str_partition sep s) as [[a' b']|]; [|discriminate].
    injection H as <- <-. destruct (IH a' b' eq_refl) as [-> Ha]. split.
    + reflexivity.
    + simpl. rewrite eqc_sym, E. exact Ha.
Qed.

Lemma char_in_partition (sep : char) (s : str) :
  char_in sep s = true -> exists a b, str_partition sep s = Some (a, b).
Proof.
  destruct (str_partition sep s) as [[a b]|] eqn:E; [eauto|].
  intros H. assert (char_in sep s = false); [|congruence].
  clear H. induction s as [|x s IH]; simpl in *; [reflexivity|].
  destruct (eqc x sep) eqn:Ex; [discriminate|].
  destruct (str_partition sep s) as [[a b]|]; [discriminate|].
  rewrite eqc_sym, Ex. simpl. now apply IH.
Qed.

Lemma startswith_app (p s : str) : startswith p (p ++ s) = true.
Proof.
  induction p as [|x p IH]; simpl; [reflexivity|].
  rewrite IH, andb_true_r. now apply eqc_true.
Qed.

Lemma char_in_cons (c x : char) (s : str) :
  char_in c (x :: s) = eqc c x || char_in c s.
Proof. reflexivity. Qed.

Lemma split_app_sep (sep : char) (a rest : str) :
  char_in sep a = false ->
  split sep (a ++ sep :: rest) = a :: split sep rest.
Proof.
  induction a as [|x a IH]; intros H.
  - simpl. assert (E : eqc sep sep = true) by now apply eqc_true. now rewrite E.
  - rewrite char_in_cons in H. apply orb_false_iff in H as [Hx Ha].
    cbn [app split]. rewrite eqc_sym, Hx, (IH Ha). reflexivity.
Qed.

End StrFacts.
Import StrFacts.

(** * The matcher decides the language of a pattern *)

Module ReFacts.

Ltac invert_lang H := inversion H; subst; clear H.

Lemma nullable_lang (ic : bool) (r : re) :
  nullable r = true <-> lang ic r [].
Proof.
  induction r as [| |c|p|a IHa b IHb|a IHa b IHb|a IHa]; simpl.
  - split; [discriminate | intros H; inversion H].
  - split; [constructor | reflexivity].
  - split; [discriminate | intros H; inversion H].
  - split; [discriminate | intros H; inversion H].
  - rewrite andb_true_iff, IHa, IHb. split.
    + intros [Ha Hb]. exact (LCat ic a b [] [] Ha Hb).
    + intros H. invert_lang H.
      match goal with E : _ ++ _ = [] |- _ => apply app_eq_nil in E as [-> ->] end.
      now split.
  - rewrite orb_true_iff, IHa, IHb. split.
    + intros [H | H]; [now apply LAltL | now apply LAltR].
    + intros H. invert_lang H; [now left | now right].
  - split; [constructor | reflexivity].
Qed.

(** A non-empty match of a star starts with a non-empty match of its
    body. *)
Lemma star_cons (ic : bool) (a : re) (x : char) (s : str) :
  lang ic (Star a) (x :: s) ->
  exists s1 s2, s = s1 ++ s2 /\ lang ic a (x :: s1) /\ lang ic (Star a) s2.
Proof.
  intros H. remember (Star a) as r eqn:Er. remember (x :: s) as xs eqn:Exs.
  revert s Exs.
  induction H as [| | | | | | |a' u t Hu _ Ht IH]; try discriminate.
  injection Er as ->. intros s Exs. destruct u as [|y u].
  - simpl in Exs. now apply IH.
  - injection Exs as Hy Hs. subst. now exists u, t.
Qed.

Lemma cat_cons (ic : bool) (a b : re) (x : char) (s : str) :
  lang ic (Cat a b) (x :: s) ->
  (exists u t, s = u ++ t /\ lang ic a (x :: u) /\ lang ic b t) \/
  (lang ic a [] /\ lang ic b (x :: s)).
Proof.
  intros H. remember (Cat a b) as r eqn:Er. remember (x :: s) as xs eqn:Exs.
  destruct H as [| | |a' b' u t Hu Ht| | | |]; try discriminate.
  injection Er as -> ->. destruct u as [|y u].
  - right. simpl in Exs. subst t. now split.
  - left. injection Exs as Hy Hs. subst. now exists u, t.
Qed.

Lemma deriv_lang (ic : bool) (x : char) (r : re) (s : str) :
  lang ic (deriv ic x r) s <-> lang ic r (x :: s).
Proof.
  revert s. induction r as [| |c|p|a IHa b IHb|a IHa b IHb|a IHa]; intros s; simpl.
  - split; intros H; inversion H.
  - split; intros H; inversion H.
  - destruct (chr_test ic c x) eqn:E; split; intros H; invert_lang H.
    + now constructor.
    + constructor.
    + congruence.
  - destruct (p x) eqn:E; split; intros H; invert_lang H.
    + now constructor.
    + constructor.
    + congruence.
  - assert (Hcat : lang ic (Cat (deriv ic x a) b) s ->
                   lang ic (Cat a b) (x :: s)).
    { intros H. invert_lang H.
      match goal with Hu : lang ic (deriv ic x a) ?u, Ht : lang ic b ?t |- _ =>
        apply IHa in Hu; exact (LCat ic a b (x :: u) t Hu Ht) end. }
    assert (Hsplit : lang ic (Cat a b) (x :: s) ->
                     lang ic (Cat (deriv ic x a) b) s \/
                     (lang ic a [] /\ lang ic b (x :: s))).
    { intros H. destruct (cat_cons ic a b x s H) as [(u & t & -> & Hu & Ht) | H'].
      - left. apply IHa in Hu. now constructor.
      - now right. }
    destruct (nullable a) eqn:Hn.
    + split.
      * intros H. invert_lang H; [now apply Hcat|].
        apply (LCat ic a b [] (x :: s)); [now apply nullable_lang | now apply IHb].
      * intros H. destruct (Hsplit H) as [H' | [_ H']].
        -- now apply LAltL.
        -- apply LAltR. now apply IHb.
    + split; [exact Hcat|]. intros H. destruct (Hsplit H) as [H' | [H' _]]; [exact H'|].
      apply nullable_lang in H'. congruence.
  - split; intros H; invert_lang H.
    + apply LAltL. now apply IHa.
    + apply LAltR. now apply IHb.
    + apply LAltL. now apply IHa.
    + apply LAltR. now apply IHb.
  - split.
    + intros H. invert_lang H.
      match goal with Hu : lang ic (deriv ic x a) ?u, Ht : lang ic (Star a) ?t |- _ =>
        apply IHa in Hu; exact (LStarCons ic a (x :: u) t Hu Ht) end.
    + intros H. destruct (star_cons ic a x s H) as (s1 & s2 & -> & H1 & H2).
      constructor; [now apply IHa | exact H2].
Qed.

Lemma accepts_lang (ic : bool) (r : re) (s : str) :
  accepts ic r s = true <-> lang ic r s.
Proof.
  revert r. induction s as [|x s IH]; intros r; simpl.
  - apply (nullable_lang ic).
  - rewrite IH. apply deriv_lang.
Qed.

Lemma accepts_prefix_lang (ic : bool) (r : re) (s : str) :
  accepts_prefix ic r s = true <->
  exists p t, s = p ++ t /\ lang ic r p.
Proof.
  revert r. induction s as [|x s IH]; intros r; simpl.
  - rewrite orb_false_r, (nullable_lang ic). split.
    + intros H. exists [], []. now split.
    + intros (p & t & E & H). symmetry in E. apply app_eq_nil in E as [-> _]. exact H.
  - rewrite orb_true_iff, (nullable_lang ic), IH. split.
    + intros [H | (p & t & -> & H)].
      * exists [], (x :: s). now split.
      * exists (x :: p), t. split; [reflexivity | now apply deriv_lang].
    + intros (p & t & E & H). destruct p as [|y p].
      * now left.
      * right. injection E as -> ->. exists p, t. split; [reflexivity|].
        now apply deriv_lang.
Qed.

Lemma chr_test_newline (ic : bool) (x : char) :
  chr_test ic newline x = true -> x = newline.
Proof.
  destruct ic; each_char x; vm_compute; intros H;
    solve [reflexivity | discriminate H].
Qed.

Lemma opt_newline_lang (ic : bool) (t : str) :
  lang ic (Opt (Chr newline)) t <-> t = [] \/ t = [newline].
Proof.
  split.
  - intros H. invert_lang H.
    + match goal with Hc : lang ic (Chr newline) _ |- _ => invert_lang Hc end.
      right. f_equal. now apply (chr_test_newline ic).
    + match goal with He : lang ic Eps _ |- _ => invert_lang He end. now left.
  - intros [-> | ->].
    + apply LAltR. constructor.
    + apply LAltL. constructor. now destruct ic.
Qed.

(** [pattern.match(s)] succeeds exactly when the body matches a prefix of
    [s] that, under [$], is [s] or [s] without its final newline. *)
Lemma re_match_lang (p : Pattern) (s : str) :
  re_match p s = true <->
  if dollar p
  then lang (ignorecase p) (body p) s \/
       exists m, s = m ++ [newline] /\ lang (ignorecase p) (body p) m
  else exists m t, s = m ++ t /\ lang (ignorecase p) (body p) m.
Proof.
  unfold re_match. destruct (dollar p); [|apply accepts_prefix_lang].
  rewrite accepts_lang. split.
  - intros H. invert_lang H.
    match goal with Ht : lang _ (Opt _) _ |- _ =>
      apply opt_newline_lang in Ht as [-> | ->] end.
    + left. now rewrite app_nil_r.
    + right. eauto.
  - intros [H | (m & -> & H)].
    + rewrite <- (app_nil_r s). constructor; [exact H|].
      apply opt_newline_lang. now left.
    + constructor; [exact H|]. apply opt_newline_lang. now right.
Qed.

Lemma chr_lang (c : char) (s : str) :
  lang false (Chr c) s -> s = [c].
Proof.
  intros H. invert_lang H. f_equal.
  match goal with Hx : chr_test false _ _ = true |- _ =>
    unfold chr_test in Hx; now apply StrFacts.eqc_true in Hx end.
Qed.

Lemma star_class_lang (ic : bool) (p : char -> bool) (s : str) :
  lang ic (Star (Cls p)) s -> forallb p s = true.
Proof.
  intros H. remember (Star (Cls p)) as r eqn:Er.
  induction H as [| | | | | | |a u t Hu _ Ht IH]; try discriminate; [reflexivity|].
  injection Er as ->. invert_lang Hu. simpl.
  match goal with Hx : p _ = true |- _ => rewrite Hx end. now apply IH.
Qed.

Lemma plus_class_lang (ic : bool) (p : char -> bool) (s : str) :
  lang ic (Plus (Cls p)) s -> s <> [] /\ forallb p s = true.
Proof.
  intros H. invert_lang H.
  match goal with Hc : lang ic (Cls p) _, Hs : lang ic (Star (Cls p)) _ |- _ =>
    invert_lang Hc; apply star_class_lang in Hs end.
  split; [discriminate|]. simpl.
  match goal with Hx : p _ = true |- _ => now rewrite Hx end.
Qed.

(** The shape of an address that [BRACKETED_PATTERN] matches, with the
    text its group matched. *)
Lemma bracketed_shape (address : str) :
  re_match BRACKETED_PATTERN address = true ->
  exists g rest,
    lang false (Plus (Cls (fun c => negb (eqc c "]")))) g /\
    address = (Latin "[") :: g ++ (Latin "]") :: rest.
Proof.
  intros H. apply re_match_lang in H. cbn [dollar BRACKETED_PATTERN ignorecase body] in H.
  assert (Hbody : forall m,
    lang false (Cat (Chr "[") (Cat (Plus (Cls (fun c => negb (eqc c "]"))))
                                   (Cat (Chr "]") PORT))) m ->
    exists g rest,
      lang false (Plus (Cls (fun c => negb (eqc c "]")))) g /\
      m = (Latin "[") :: g ++ (Latin "]") :: rest).
  { intros m Hm. invert_lang Hm.
    match goal with
    | H1 : lang false (Chr (Latin "[")) _, H2 : lang false (Cat (Plus _) _) _ |- _ =>
        apply chr_lang in H1; subst; invert_lang H2
    end.
    match goal with
    | H2 : lang false (Cat (Chr (Latin "]")) PORT) _ |- _ => invert_lang H2
    end.
    match goal with
    | H1 : lang false (Chr (Latin "]")) _, Hg : lang false (Plus _) ?g,
      Hp : lang false PORT ?t |- _ =>
        apply chr_lang in H1; subst; exists g, t; split; [exact Hg | reflexivity]
    end. }
  destruct H as [H | (m & -> & H)].
  - now apply Hbody.
  - destruct (Hbody m H) as (g & rest & Hg & ->).
    exists g, (rest ++ [newline]). split; [exact Hg|].
    cbn [app]. now rewrite <- app_assoc.
Qed.

End ReFacts.

(** Whenever [BRACKETED_PATTERN] matches with its group on [g], the
    group returned by [bracketed_group] is [g]. *)
Lemma bracketed_group_is_group (address g rest : str) :
  lang false (Plus (Cls (fun c => negb (eqc c "]")))) g ->
  address = (Latin "[") :: g ++ (Latin "]") :: rest ->
  re_match BRACKETED_PATTERN address = true ->
  bracketed_group address = Some g.
Proof.
  intros Hg -> Hm. unfold bracketed_group. rewrite Hm. cbn [tl]. f_equal.
  apply ReFacts.plus_class_lang in Hg as [_ Hg].
  unfold part_before. rewrite partition_first; [reflexivity|].
  apply char_in_false. intros Hin.
  rewrite forallb_forall in Hg. specialize (Hg _ Hin). discriminate Hg.
Qed.

Lemma bracketed_group_some (address : str) :
  re_match BRACKETED_PATTERN address = true ->
  exists g rest,
    bracketed_group address = Some g /\
    address = (Latin "[") :: g ++ (Latin "]") :: rest /\
    g <> [] /\ char_in "]" g = false.
Proof.
  intros Hm. destruct (ReFacts.bracketed_shape address Hm) as (g & rest & Hg & E).
  exists g, rest. split; [now apply (bracketed_group_is_group address g rest)|].
  split; [exact E|]. apply ReFacts.plus_class_lang in Hg as [Hne Hg].
  split; [exact Hne|]. apply char_in_false. intros Hin.
  rewrite forallb_forall in Hg. specialize (Hg _ Hin). discriminate Hg.
Qed.

(** * Facts about validation *)

Lemma validate_skip (t : str) (before after : list str) :
  check_token t = None ->
  validate_network_args (before ++ t :: after)
  = validate_network_args (before ++ after).
Proof.
  intros Ht. induction before as [|b before IH]; simpl.
  - now rewrite Ht.
  - destruct (check_token b); [reflexivity | exact IH].
Qed.

Lemma check_arg_empty : check_arg [] = None.
Proof. reflexivity. Qed.

Lemma check_arg_spec (arg : str) : check_arg arg = spec_check arg.
Proof.
  unfold check_arg, spec_check, classify, precedence, judge.
  cbn [find has_shape extract_host denial].
  destruct (re_match URL_PATTERN arg); [reflexivity|].
  destruct (re_match IPV4_PATTERN arg); [reflexivity|].
  destruct (re_match IPV6_PATTERN arg); [reflexivity|].
  destruct (re_match HOST_PORT_PATTERN arg && char_in ":" arg); reflexivity.
Qed.

Lemma validate_denied (args : list str) (reason : str) :
  validate_network_args args = (false, reason) ->
  exists tok text c,
    In tok args /\ flag_value tok = Some text /\
    classify text = Some c /\ host_denied (extract_host c text) = true /\
    reason = denial c ++ text.
Proof.
  induction args as [|a args IH]; simpl; [discriminate|].
  destruct (check_token a) as [r|] eqn:E.
  - intros [= <-]. unfold check_token in E.
    destruct (flag_value a) as [text|] eqn:F; [|discriminate].
    rewrite check_arg_spec in E. unfold spec_check in E.
    destruct (classify text) as [c|] eqn:C; [|discriminate].
    unfold judge in E. destruct (host_denied (extract_host c text)) eqn:D; [|discriminate].
    injection E as <-. exists a, text, c. auto.
  - intros H. destruct (IH H) as (tok & text & c & Hin & rest).
    exists tok, text, c. auto.
Qed.

Lemma validate_leftmost (args : list str) (reason : str) :
  validate_network_args args = (false, reason) ->
  exists before t after,
    args = before ++ t :: after /\
    Forall (fun x => check_token x = None) before /\
    check_token t = Some reason.
Proof.
  induction args as [|a args IH]; simpl; [discriminate|].
  destruct (check_token a) as [r|] eqn:E.
  - intros [= <-]. exists [], a, args. now repeat split.
  - intros H. destruct (IH H) as (before & t & after & -> & Hb & Ht).
    exists (a :: before), t, after. split; [reflexivity|].
    split; [now constructor | exact Ht].
Qed.

Lemma classify_first (arg : str) (c : category) :
  classify arg = Some c <->
  has_shape c arg = true /\
  forall c', rank c' < rank c -> has_shape c' arg = false.
Proof.
  unfold classify, precedence. cbn [find].
  split.
  - intros H.
    destruct (has_shape CatURL arg) eqn:E1;
      [|destruct (has_shape CatIPv4 arg) eqn:E2;
        [|destruct (has_shape CatIPv6 arg) eqn:E3;
          [|destruct (has_shape CatHostPort arg) eqn:E4; [|discriminate]]]];
      injection H as <-; (split; [assumption|]);
      intros [] Hr; cbn [rank] in Hr; solve [lia | assumption].
  - intros [Hc Hlt].
    pose proof (Hlt CatURL) as H1. pose proof (Hlt CatIPv4) as H2.
    pose proof (Hlt CatIPv6) as H3.
    destruct c; cbn [rank] in H1, H2, H3.
    + now rewrite Hc.
    + rewrite H1 by lia. now rewrite Hc.
    + rewrite H1, H2 by lia. now rewrite Hc.
    + rewrite H1, H2, H3 by lia. now rewrite Hc.
Qed.

Lemma classify_none (arg : str) :
  classify arg = None <-> forall c, has_shape c arg = false.
Proof.
  unfold classify, precedence. cbn [find]. split.
  - intros H [];
      destruct (has_shape CatURL arg); try discriminate;
      destruct (has_shape CatIPv4 arg); try discriminate;
      destruct (has_shape CatIPv6 arg); try discriminate;
      destruct (has_shape CatHostPort arg); try discriminate; reflexivity.
  - intros H. now rewrite !H.
Qed.

(** A token with two shapes: it is an IPv4 literal with a port and a
    host:port pair, and it is judged as the former. *)
Example ambiguous_token :
  has_shape CatIPv4 (py "10.0.0.1:80") = true /\
  has_shape CatHostPort (py "10.0.0.1:80") = true /\
  check_arg (py "10.0.0.1:80") = Some (py "IPv4 address is not loopback: 10.0.0.1:80").
Proof. vm_compute. auto. Qed.

(** C3. Every token is classified by the first of URL scheme, IPv4
    dotted-quad, IPv6, host:port whose shape it has, and its host is
    extracted and judged under that category alone: the loop body agrees
    with the verdict under the classified category, whatever shapes of
    lower precedence the token also has. *)
Theorem C3_first_match_wins (tok : str) :
  check_token tok
  = match flag_value tok with
    | Some text =>
        match classify text with
        | Some c => judge c text
        | None => None
        end
    | None => None
    end
  /\ (forall text c,
        classify text = Some c <->
        has_shape c text = true /\
        forall c', rank c' < rank c -> has_shape c' text = false)
  /\ (forall text, classify text = None <-> forall c, has_shape c text = false)
  /\ map rank precedence = [0; 1; 2; 3].
Proof.
  split; [|split; [|split]].
  - unfold check_token. destruct (flag_value tok) as [text|]; [|reflexivity].
    apply check_arg_spec.
  - intros text c. apply classify_first.
  - apply classify_none.
  - reflexivity.
Qed.

(** C5. Of a token that begins with ["-"] and contains ["="], only the
    text after the first ["="] is classified, whatever the flag name is;
    a token that begins with ["-"] and has no ["="] is skipped and can be
    taken out of any argument list without changing the verdict; and
    [curl --url=http://example.com] is denied with a reason that mentions
    "non-loopback". *)
Theorem C5_flag_tokens (t : str) (Hflag : startswith (py "-") t = true) :
  (forall name value,
      t = name ++ py "=" ++ value -> char_in "=" name = false ->
      check_token t = check_arg value)
  /\ (char_in "=" t = true ->
      exists name value,
        t = name ++ py "=" ++ value /\ char_in "=" name = false)
  /\ (char_in "=" t = false ->
      check_token t = None /\
      forall before after,
        validate_network_args (before ++ t :: after)
        = validate_network_args (before ++ after))
  /\ validate_network_args [py "curl"; py "--url=http://example.com"]
     = (false, py "URL contains non-loopback host: http://example.com")
  /\ contains (py "non-loopback")
       (snd (validate_network_args [py "curl"; py "--url=http://example.com"])) = true.
Proof.
  split; [|split; [|split; [|split]]].
  - intros name value -> Hname. unfold check_token, flag_value.
    rewrite Hflag, char_in_app. simpl (char_in "=" (py "=" ++ value)).
    rewrite orb_true_r. unfold part_after.
    change (py "=" ++ value) with ((Latin "=") :: value).
    now rewrite (partition_first _ _ _ Hname).
  - intros Heq. destruct (char_in_partition _ _ Heq) as (a & b & Hab).
    apply partition_some in Hab as [-> Ha]. now exists a, b.
  - intros Hno. assert (Ht : check_token t = None).
    { unfold check_token, flag_value. now rewrite Hflag, Hno. }
    split; [exact Ht|]. intros before after. now apply validate_skip.
  - vm_compute. reflexivity.
  - vm_compute. reflexivity.
Qed.

Lemma C5_flag_tokens_witness :
  startswith (py "-") (py "--url=http://example.com") = true /\
  (char_in "=" (py "--url=http://example.com") = true ->
   exists name value,
     py "--url=http://example.com" = name ++ py "=" ++ value /\
     char_in "=" name = false).
Proof.
  split; [reflexivity|].
  apply (C5_flag_tokens (py "--url=http://example.com")). reflexivity.
Defined.

(** C10. An empty token, and a flag whose first ["="] is its last
    character, never cause denial: such a token yields no verdict, and
    the result on any argument list is the result on the list without
    it; none of the four patterns matches the empty string. *)
Theorem C10_empty_value_never_denied (t : str) (Ht : empty_valued t)
    (before after : list str) :
  check_token t = None
  /\ validate_network_args (before ++ t :: after)
     = validate_network_args (before ++ after)
  /\ Forall (fun p => re_match p [] = false)
       [URL_PATTERN; IPV4_PATTERN; IPV6_PATTERN; HOST_PORT_PATTERN].
Proof.
  assert (H : check_token t = None).
  { destruct Ht as [-> | [Hflag (name & -> & Hname)]]; [reflexivity|].
    unfold check_token, flag_value. rewrite Hflag, char_in_app.
    simpl (char_in "=" (py "=")). rewrite orb_true_r. unfold part_after.
    change (py "=") with [(Latin "=")].
    now rewrite (partition_first _ _ _ Hname). }
  split; [exact H|]. split; [now apply validate_skip|].
  repeat constructor.
Qed.

Lemma C10_empty_value_never_denied_witness :
  empty_valued (py "--url=") /\
  validate_network_args ([py "curl"] ++ py "--url=" :: [py "http://localhost/"])
  = validate_network_args ([py "curl"] ++ [py "http://localhost/"]).
Proof.
  assert (H : empty_valued (py "--url=")).
  { right. split; [reflexivity|]. exists (py "--url"). split; reflexivity. }
  split; [exact H|].
  apply (C10_empty_value_never_denied (py "--url=") H [py "curl"] [py "http://localhost/"]).
Defined.

(** * Facts about the loopback policy *)

Lemma bracket_chars (c : char) :
  char_in c (py "[]") = eqc c "[" || eqc c "]".
Proof. unfold char_in. simpl. now rewrite orb_false_r. Qed.

Lemma no_brackets (h : str) :
  char_in "[" h = false -> char_in "]" h = false ->
  forall c, In c h -> char_in c (py "[]") = false.
Proof.
  intros Hl Hr c Hc. rewrite bracket_chars. apply orb_false_iff.
  apply char_in_false in Hl, Hr.
  split; apply eqc_false; intros ->; tauto.
Qed.

Lemma strip_no_brackets (h : str) :
  char_in "[" h = false -> char_in "]" h = false -> strip (py "[]") h = h.
Proof.
  intros Hl Hr. pose proof (no_brackets h Hl Hr) as H.
  unfold strip, rstrip, lstrip.
  rewrite (dropwhile_none _ h H).
  rewrite dropwhile_none; [apply rev_involutive|].
  intros c Hc. apply H. now apply in_rev.
Qed.

Lemma strip_wrapped (h : str) :
  char_in "[" h = false -> char_in "]" h = false ->
  strip (py "[]") (py "[" ++ h ++ py "]") = h.
Proof.
  intros Hl Hr. pose proof (no_brackets h Hl Hr) as H.
  unfold strip, rstrip, lstrip.
  change (py "[" ++ h ++ py "]") with ((Latin "[") :: h ++ [(Latin "]")]).
  cbn [dropwhile]. change (char_in "[" (py "[]")) with true. cbv iota.
  assert (Hcase : h = [] \/ h <> []) by (destruct h; [left | right]; congruence).
  destruct Hcase as [-> | Hne]; [reflexivity|].
  rewrite (dropwhile_app_none _ h _ Hne H).
  rewrite rev_app_distr. cbn [rev app dropwhile].
  change (char_in "]" (py "[]")) with true. cbv iota.
  rewrite dropwhile_none; [apply rev_involutive|].
  intros c Hc. apply H. now apply in_rev.
Qed.

Lemma digits_nonneg (s : str) (acc : Z) :
  forallb is_ascii_digit s = true -> (0 <= acc)%Z ->
  (0 <= fold_left (fun a c => a * 10 + digit_value c) s acc)%Z.
Proof.
  revert acc. induction s as [|c s IH]; simpl; intros acc Hs Hacc; [exact Hacc|].
  apply andb_true_iff in Hs as [Hc Hs]. apply IH; [exact Hs|].
  unfold digit_value. rewrite Hc. unfold is_ascii_digit, between in Hc.
  apply andb_true_iff in Hc as [Hlo _]. apply N.leb_le in Hlo. lia.
Qed.

Lemma parse_octet_range (o : str) (v : Z) :
  parse_octet o = Return v -> (0 <= v <= 255)%Z.
Proof.
  unfold parse_octet.
  destruct (negb (truthy o)); [discriminate|].
  destruct (forallb is_ascii_digit o) eqn:Hd; [|discriminate]. cbn [negb].
  destruct (3 <? length o)%nat; [discriminate|].
  destruct (negb (bool_decide (o = py "0")) && startswith (py "0") o); [discriminate|].
  destruct (255 <? int_of 10 o)%Z eqn:Hle; [discriminate|].
  intros [= <-]. apply Z.ltb_ge in Hle. split; [|exact Hle].
  unfold int_of. now apply digits_nonneg.
Qed.

Lemma octets_value_range (l : list str) (acc v : Z) :
  octets_value l acc = Return v -> (0 <= acc)%Z ->
  (acc * 256 ^ Z.of_nat (length l) <= v < (acc + 1) * 256 ^ Z.of_nat (length l))%Z.
Proof.
  revert acc. induction l as [|o l IH]; intros acc H Hacc.
  - simpl in *. injection H as <-. lia.
  - cbn [octets_value] in H. destruct (parse_octet o) as [x|] eqn:Ho; [|discriminate].
    cbn [PyExc.bind] in H. apply parse_octet_range in Ho.
    apply IH in H; [|lia].
    cbn [length]. rewrite Nat2Z.inj_succ, Z.pow_succ_r by lia.
    assert (0 < 256 ^ Z.of_nat (length l))%Z by (apply Z.pow_pos_nonneg; lia).
    nia.
Qed.

Lemma IPv4_range (s : str) (ip : Z) :
  new_IPv4Address s = Return ip -> (0 <= ip < 2 ^ 32)%Z.
Proof.
  unfold new_IPv4Address, v4_int_from_string.
  destruct (char_in "/" s); [discriminate|].
  destruct (negb (truthy s)); [discriminate|].
  destruct (length (split "." s) =? 4)%nat eqn:Hlen; [|discriminate]. cbn [negb].
  intros H. apply octets_value_range in H; [|lia].
  apply Nat.eqb_eq in Hlen. rewrite Hlen in H.
  change (256 ^ Z.of_nat 4)%Z with (2 ^ 32)%Z in H. lia.
Qed.

Lemma land_high_byte (ip : Z) :
  (0 <= ip < 2 ^ 32)%Z ->
  Z.land ip 4278190080 = (ip / 2 ^ 24 * 2 ^ 24)%Z.
Proof.
  intros H. change 4278190080%Z with (Z.shiftl (Z.ones 8) 24).
  rewrite <- Z.shiftl_mul_pow2, <- Z.shiftr_div_pow2 by lia.
  apply Z.bits_inj'. intros n Hn. rewrite Z.land_spec.
  destruct (Z.lt_ge_cases n 24) as [Hlow|Hhigh].
  - rewrite !Z.shiftl_spec_low by lia. apply andb_false_r.
  - rewrite !Z.shiftl_spec, Z.shiftr_spec by lia.
    replace (n - 24 + 24)%Z with n by lia.
    destruct (Z.lt_ge_cases n 32) as [Hin|Hout].
    + rewrite Z.ones_spec_low by lia. apply andb_true_r.
    + rewrite Z.ones_spec_high by lia. rewrite andb_false_r. symmetry.
      destruct (Z.eq_dec ip 0%Z) as [->|Hnz]; [apply Z.bits_0|].
      apply Z.bits_above_log2; [lia|].
      assert (Z.log2 ip < 32)%Z by (apply Z.log2_lt_pow2; lia). lia.
Qed.

Lemma loopback_v4_range (ip : Z) :
  (0 <= ip < 2 ^ 32)%Z ->
  is_loopback (IPv4Address ip) = true <-> in_loopback_range (IPv4Address ip).
Proof.
  intros H. unfold is_loopback, in_loopback_range.
  rewrite Z.eqb_eq, (land_high_byte ip H).
  change (2 ^ 24)%Z with 16777216%Z. change (2 ^ 32)%Z with 4294967296%Z in H.
  pose proof (Z.div_mod ip 16777216 ltac:(lia)) as Hdm.
  pose proof (Z.mod_pos_bound ip 16777216 ltac:(lia)) as Hmod.
  lia.
Qed.

Lemma loopback_parsed (s : str) (a : address) :
  ip_address s = Return a ->
  is_loopback a = true <-> in_loopback_range a.
Proof.
  unfold ip_address. destruct (new_IPv4Address s) as [ip|] eqn:H4.
  - intros [= <-]. apply loopback_v4_range. now apply IPv4_range in H4.
  - destruct (new_IPv6Address s) as [[ip scope]|]; [|discriminate].
    intros [= <-]. unfold is_loopback, in_loopback_range. apply Z.eqb_eq.
Qed.

Lemma is_loopback_address_spec (s : str) :
  is_loopback_address s = true <->
  exists a, ip_address s = Return a /\ in_loopback_range a.
Proof.
  unfold is_loopback_address. destruct (ip_address s) as [a|e] eqn:E.
  - rewrite (loopback_parsed s a E). split.
    + intros H. now exists a.
    + intros (a' & [= <-] & H). exact H.
  - split; [discriminate|]. intros (a & Ha & _). discriminate.
Qed.

(** C2, as the code has it: the host is judged after the square brackets
    at its two ends are stripped.  It is allowed exactly when the
    lowercase form of what remains is one of the four loopback hostnames,
    or what remains parses as an IP address in [127.0.0.0/8] or equal to
    [::1]; when it fails to parse and is not a loopback hostname the
    answer is [false]. *)
Theorem C2_allowed_host (h : str) :
  (is_allowed_host h = true <-> spec_allowed (strip (py "[]") h))
  /\ (forall e, ip_address (strip (py "[]") h) = Raise e ->
      ~ lower (strip (py "[]") h) ∈ LOOPBACK_HOSTNAMES ->
      is_allowed_host h = false).
Proof.
  unfold is_allowed_host, spec_allowed. split.
  - destruct (bool_decide (lower (strip (py "[]") h) ∈ LOOPBACK_HOSTNAMES)) eqn:Hn.
    + apply bool_decide_eq_true in Hn. tauto.
    + apply bool_decide_eq_false in Hn. rewrite is_loopback_address_spec. tauto.
  - intros e He Hn. rewrite (bool_decide_eq_false_2 _ Hn).
    unfold is_loopback_address. now rewrite He.
Qed.

(** C2 as stated fails on a bracketed hostname: ["[localhost]"] is
    allowed, yet its lowercase form is not a loopback hostname and it
    does not parse as an IP address. *)
Lemma C2_counterexample :
  is_allowed_host (py "[localhost]") = true /\ ~ spec_allowed (py "[localhost]").
Proof.
  split; [vm_compute; reflexivity|].
  intros [Hname | (a & Ha & _)].
  - pose proof (bool_decide_eq_true_2 _ Hname) as Hb. vm_compute in Hb. discriminate.
  - vm_compute in Ha. discriminate.
Qed.

(** C9. Wrapping a host without square brackets in one pair of
    brackets does not change the policy's answer, and ["[::1]"] is
    allowed. *)
Theorem C9_bracket_invariance (h : str)
    (Hopen : char_in "[" h = false) (Hclose : char_in "]" h = false) :
  is_allowed_host (py "[" ++ h ++ py "]") = is_allowed_host h
  /\ is_allowed_host (py "[::1]") = true.
Proof.
  split; [|vm_compute; reflexivity].
  unfold is_allowed_host.
  now rewrite (strip_wrapped h Hopen Hclose), (strip_no_brackets h Hopen Hclose).
Qed.

Lemma C9_bracket_invariance_witness :
  char_in "[" (py "127.0.0.1") = false /\ char_in "]" (py "127.0.0.1") = false /\
  is_allowed_host (py "[" ++ py "127.0.0.1" ++ py "]") = is_allowed_host (py "127.0.0.1").
Proof.
  split; [reflexivity|]. split; [reflexivity|].
  apply (C9_bracket_invariance (py "127.0.0.1")); reflexivity.
Defined.

(** C4 fails on the code: a bare word of hexadecimal letters has neither
    a URL scheme, nor dots, nor a bracket or a colon, yet it has the IPv6
    shape, and [git add] is denied. *)
Theorem C4_bare_hex_word_denied :
  char_in "[" (py "add") = false /\ char_in "]" (py "add") = false /\
  char_in ":" (py "add") = false /\
  forallb is_ascii_alpha (py "add") = true /\
  classify (py "add") = Some CatIPv6 /\
  validate_network_args [py "git"; py "add"]
  = (false, py "IPv6 address is not loopback: add").
Proof. vm_compute. repeat split. Qed.

(** * Facts about the world *)

Lemma lookup_node_child (f : gmap path node) (dir : path) (name : str) :
  lookup_node f (dir ++ [name]) = f !! (dir ++ [name]).
Proof. unfold lookup_node. destruct dir; reflexivity. Qed.

Lemma parent_child (dir : path) (name : str) : parent (dir ++ [name]) = dir.
Proof. apply removelast_last. Qed.

Lemma child_neq_dir (dir : path) (name : str) : dir ++ [name] <> dir.
Proof.
  intros H. apply (f_equal (@length str)) in H.
  rewrite length_app in H. simpl in H. lia.
Qed.

Lemma child_inj (dir : path) (a b : str) : a <> b -> dir ++ [a] <> dir ++ [b].
Proof. intros Hab H. apply app_inv_head in H. congruence. Qed.

Lemma is_dir_insert_child (f : gmap path node) (dir : path) (name : str) (n : node) :
  is_dir (<[dir ++ [name] := n]> f) dir = is_dir f dir.
Proof.
  unfold is_dir, lookup_node. destruct dir as [|c dir]; [reflexivity|].
  rewrite lookup_insert_ne; [reflexivity|]. apply (child_neq_dir (c :: dir) name).
Qed.

Lemma log_names_short (name : str) :
  In name log_names -> name_too_long name = false.
Proof.
  intros [<- | [<- | [<- | [<- | []]]]]; vm_compute; reflexivity.
Qed.

Lemma create_file_ok (dir : path) (name : str) (data : bytes)
    (f : gmap path node) (out err : list chunk) (lg : list event) :
  is_dir f dir = true ->
  f !! (dir ++ [name]) <> Some Dir ->
  name_too_long name = false ->
  create_file (dir ++ [name]) data {| fs := f; stdout := out; stderr := err; log := lg |}
  = (Return tt,
     {| fs := <[dir ++ [name] := File data]> f; stdout := out; stderr := err;
        log := lg |}).
Proof.
  intros Hdir Hfree Hname. unfold create_file. cbn [fs].
  rewrite lookup_node_child, parent_child, last_last, Hname.
  unfold is_dir in Hdir.
  destruct (lookup_node f dir) as [[|c]|]; try discriminate.
  destruct (f !! (dir ++ [name])) as [[|c]|]; [contradiction | reflexivity | reflexivity].
Qed.

Lemma write_bytes_ok (dir : path) (name : str) (data : bytes)
    (f : gmap path node) (out err : list chunk) (lg : list event) :
  is_dir f dir = true ->
  f !! (dir ++ [name]) <> Some Dir ->
  name_too_long name = false ->
  write_bytes (dir ++ [name]) data {| fs := f; stdout := out; stderr := err; log := lg |}
  = (Return tt,
     {| fs := <[dir ++ [name] := File data]> f; stdout := out; stderr := err;
        log := lg ++ [Wrote (dir ++ [name])] |}).
Proof.
  intros Hdir Hfree Hname. unfold write_bytes, mbind.
  rewrite (create_file_ok _ _ _ _ _ _ _ Hdir Hfree Hname). reflexivity.
Qed.

Lemma path_join_log (dir : path) :
  path_join dir (py "STDIN.log") = dir ++ [py "STDIN.log"] /\
  path_join dir (py "STDOUT.log") = dir ++ [py "STDOUT.log"] /\
  path_join dir (py "STDERR.log") = dir ++ [py "STDERR.log"] /\
  path_join dir (py "result.log") = dir ++ [py "result.log"].
Proof. unfold path_join. repeat split; f_equal; vm_compute; reflexivity. Qed.

(** ** Encoding *)

Lemma encode_latin (s : str) :
  forallb is_latin s = true -> encode s = Return (fsencode s).
Proof.
  induction s as [|c s IH]; [reflexivity|]. cbn [forallb]. intros H.
  apply andb_true_iff in H as [Hc Hs]. cbn [encode]. rewrite (IH Hs).
  destruct c; [reflexivity | discriminate Hc].
Qed.

Lemma encodable_latin (s : str) : encodable s = forallb is_latin s.
Proof.
  unfold encodable. induction s as [|c s IH]; [reflexivity|].
  cbn [encode forallb]. destruct c as [a|]; [|reflexivity].
  cbn [encode_char PyExc.bind is_latin andb]. rewrite <- IH.
  now destruct (encode s).
Qed.

Lemma encodable_encode (s : str) :
  encodable s = true -> encode s = Return (fsencode s).
Proof. rewrite encodable_latin. apply encode_latin. Qed.

Lemma not_encodable (s : str) :
  encodable s = false -> encode s = Raise UnicodeEncodeError.
Proof.
  unfold encodable. induction s as [|c s IH]; [discriminate|].
  cbn [encode]. destruct c as [a|]; [|reflexivity].
  cbn [encode_char PyExc.bind]. destruct (encode s); [discriminate|].
  intros _. now rewrite IH.
Qed.

Lemma encodable_app (a b : str) : encodable (a ++ b) = encodable a && encodable b.
Proof. rewrite !encodable_latin. apply forallb_app. Qed.

Lemma encodable_py (literal : string) : encodable (py literal) = true.
Proof.
  rewrite encodable_latin. unfold py.
  induction (list_ascii_of_string literal) as [|a l IH]; [reflexivity | exact IH].
Qed.

Lemma encodable_join (sep : str) (l : list str) :
  encodable sep = true -> encodable (join sep l) = forallb encodable l.
Proof.
  intros Hsep. induction l as [|x l IH]; [reflexivity|]. cbn [forallb join].
  destruct l as [|y l]; [now rewrite andb_true_r|].
  now rewrite !encodable_app, Hsep, IH.
Qed.

Lemma pad_digits_latin (width : nat) : forall (n : Z) (acc : str),
  forallb is_latin acc = true -> forallb is_latin (pad_digits width n acc) = true.
Proof.
  induction width as [|width IH]; intros n acc Hacc; [exact Hacc|].
  cbn [pad_digits]. apply IH. exact Hacc.
Qed.

Lemma nat_digits_latin (fuel : nat) : forall (n : Z) (acc : str),
  forallb is_latin acc = true -> forallb is_latin (nat_digits fuel n acc) = true.
Proof.
  induction fuel as [|fuel IH]; intros n acc Hacc; [exact Hacc|].
  cbn [nat_digits]. destruct (n <? 10)%Z; [exact Hacc|]. apply IH. exact Hacc.
Qed.

Lemma zpad_encodable (width : nat) (n : Z) : encodable (zpad width n) = true.
Proof. rewrite encodable_latin. now apply pad_digits_latin. Qed.

Lemma str_of_Z_encodable (n : Z) : encodable (str_of_Z n) = true.
Proof.
  rewrite encodable_latin. unfold str_of_Z.
  destruct (n <? 0)%Z; [cbn [forallb is_latin andb]|]; now apply nat_digits_latin.
Qed.

Lemma fmt_6f_encodable (us : Z) : encodable (fmt_6f us) = true.
Proof.
  unfold fmt_6f.
  rewrite !encodable_app, str_of_Z_encodable, zpad_encodable, encodable_py.
  now destruct (us <? 0)%Z.
Qed.

Lemma isoformat_encodable (d : datetime) : encodable (isoformat d) = true.
Proof.
  unfold isoformat. rewrite !encodable_app, !zpad_encodable, !encodable_py.
  destruct (microsecond d =? 0)%Z; [reflexivity|].
  now rewrite encodable_app, zpad_encodable, encodable_py.
Qed.

(** [result.log] can be encoded when the arguments and the working
    directory can. *)
Lemma result_content_encoding (env : Env) (command : list str) (exit_code : Z) :
  encodable (result_content env command exit_code)
  = forallb encodable command && encodable (env_cwd env).
Proof.
  unfold result_content.
  destruct (get_resource_usage env) as [[user_time system_time] max_memory].
  assert (Hnl : encodable [newline] = true) by reflexivity.
  rewrite !encodable_app, !encodable_py, !str_of_Z_encodable, !isoformat_encodable,
    !fmt_6f_encodable, Hnl.
  rewrite (encodable_join (py " ") command (encodable_py " ")).
  cbn [andb]. now rewrite !andb_true_r.
Qed.

Lemma result_content_encodable (env : Env) (command : list str) (exit_code : Z) :
  forallb encodable command = true -> encodable (env_cwd env) = true ->
  encodable (result_content env command exit_code) = true.
Proof. intros Hcommand Hcwd. now rewrite result_content_encoding, Hcommand, Hcwd. Qed.

Lemma write_text_ok (dir : path) (name : str) (s : str)
    (f : gmap path node) (out err : list chunk) (lg : list event) :
  encodable s = true ->
  is_dir f dir = true ->
  f !! (dir ++ [name]) <> Some Dir ->
  name_too_long name = false ->
  write_text (dir ++ [name]) s {| fs := f; stdout := out; stderr := err; log := lg |}
  = (Return tt,
     {| fs := <[dir ++ [name] := File (fsencode s)]> f; stdout := out; stderr := err;
        log := lg ++ [Wrote (dir ++ [name])] |}).
Proof.
  intros Hs Hdir Hfree Hname. unfold write_text. rewrite (encodable_encode s Hs).
  now apply write_bytes_ok.
Qed.

(** ** The spawn and the logs *)

Lemma spawn_ok (env : Env) (name : str) (rest : list str)
    (stdin_data : option bytes) (w : World) :
  spawn env (name :: rest) stdin_data w
  = (spawn_result name (env_spawn env (name :: rest) stdin_data),
     {| fs := env_child_fs env (name :: rest) stdin_data (fs w);
        stdout := stdout w; stderr := stderr w;
        log := log w ++ [Spawned (name :: rest) stdin_data] |}).
Proof.
  unfold spawn, mbind, effect, spawn_result, first_arg, ret, lift, set_fs, add_log.
  cbn [fs stdout stderr log].
  destruct (env_spawn env (name :: rest) stdin_data); cbn [spawn_message spawn_code];
    try reflexivity;
    match goal with |- context [encode ?m] => destruct (encode m) end; reflexivity.
Qed.

Lemma logs_writable_insert (f : gmap path node) (dir : path) (name : str)
    (data : bytes) :
  logs_writable f dir -> logs_writable (<[dir ++ [name] := File data]> f) dir.
Proof.
  intros [Hdir Hfree]. split; [now rewrite is_dir_insert_child|].
  intros n Hn. destruct (decide (dir ++ [n] = dir ++ [name])) as [-> | Hne].
  - rewrite lookup_insert_eq. discriminate.
  - rewrite lookup_insert_ne by congruence. now apply Hfree.
Qed.

(** A run of [run_command] on a report directory that exists and whose
    logs are not directories, before the spawn and after it, with texts
    that can be encoded: what it returns and the world it leaves. *)
Lemma run_command_ok (env : Env) (name : str) (rest : list str)
    (report_dir : path) (stdin_data : option bytes) (w : World)
    (stdout_data stderr_data : bytes) (exit_code : Z) :
  logs_writable (fs w) report_dir ->
  spawn_keeps_report env (name :: rest) stdin_data report_dir ->
  spawn_result name (env_spawn env (name :: rest) stdin_data)
  = Return (stdout_data, stderr_data, exit_code) ->
  encodable (result_content env (name :: rest) exit_code) = true ->
  run_command env (name :: rest) report_dir stdin_data w
  = (Return exit_code,
     {| fs := fs_with_logs
                (fs_after_spawn env (name :: rest) stdin_data report_dir (fs w))
                report_dir stdout_data stderr_data
                (fsencode (result_content env (name :: rest) exit_code));
        stdout := stdout w ++ [Data stdout_data];
        stderr := stderr w ++ [Data stderr_data];
        log := log w ++ [Wrote (report_dir ++ [py "STDIN.log"]);
                         Spawned (name :: rest) stdin_data;
                         Wrote (report_dir ++ [py "STDOUT.log"]);
                         Wrote (report_dir ++ [py "STDERR.log"]);
                         Wrote (report_dir ++ [py "result.log"])] |}).
Proof.
  destruct w as [f out err lg]. cbn [fs stdout stderr log].
  intros Hlogs Hkeeps Hres Henc.
  pose proof (Hkeeps _ (logs_writable_insert f report_dir (py "STDIN.log")
                          (stdin_content stdin_data) Hlogs)) as Hlogs2.
  fold (fs_after_spawn env (name :: rest) stdin_data report_dir f) in Hlogs2.
  set (f2 := fs_after_spawn env (name :: rest) stdin_data report_dir f) in *.
  destruct Hlogs as [Hdir Hfree].
  destruct (path_join_log report_dir) as (J1 & J2 & J3 & J4).
  unfold run_command. rewrite J1, J2, J3, J4. unfold mbind at 1.
  match goal with
  | |- context [match stdin_data with Some _ => _ | None => _ end ?w] =>
      replace (match stdin_data with
               | Some (b :: data) =>
                   write_bytes (report_dir ++ [py "STDIN.log"]) (b :: data)
               | _ => write_text (report_dir ++ [py "STDIN.log"]) []
               end w)
        with (write_bytes (report_dir ++ [py "STDIN.log"])
                          (stdin_content stdin_data) w)
        by (destruct stdin_data as [[|b data]|]; reflexivity)
  end.
  rewrite (write_bytes_ok _ _ _ _ _ _ _ Hdir
             (Hfree (py "STDIN.log") ltac:(simpl; auto)) eq_refl).
  unfold mbind at 1. rewrite spawn_ok, Hres. cbn [fs stdout stderr log].
  fold (fs_after_spawn env (name :: rest) stdin_data report_dir f). fold f2.
  destruct (logs_writable_insert f2 report_dir (py "STDOUT.log") stdout_data Hlogs2)
    as [Hdir3 Hfree3].
  destruct (logs_writable_insert _ report_dir (py "STDERR.log") stderr_data
              (conj Hdir3 Hfree3)) as [Hdir4 Hfree4].
  destruct Hlogs2 as [Hdir2 Hfree2].
  unfold mbind at 1.
  rewrite (write_bytes_ok _ _ _ _ _ _ _ Hdir2
             (Hfree2 (py "STDOUT.log") ltac:(simpl; auto)) eq_refl).
  unfold mbind at 1.
  rewrite (write_bytes_ok _ _ _ _ _ _ _ Hdir3
             (Hfree3 (py "STDERR.log") ltac:(simpl; auto)) eq_refl).
  unfold mbind at 1.
  rewrite (write_text_ok _ _ _ _ _ _ _ Henc Hdir4
             (Hfree4 (py "result.log") ltac:(simpl; auto)) eq_refl).
  unfold mbind, effect, ret, add_stdout, add_stderr, fs_with_logs.
  cbn [fs stdout stderr log]. rewrite <- !app_assoc. reflexivity.
Qed.

Lemma fs_with_logs_lookup (f : gmap path node) (dir : path)
    (stdout_log stderr_log result_log : bytes) :
  let f' := fs_with_logs f dir stdout_log stderr_log result_log in
  f' !! (dir ++ [py "STDOUT.log"]) = Some (File stdout_log) /\
  f' !! (dir ++ [py "STDERR.log"]) = Some (File stderr_log) /\
  f' !! (dir ++ [py "result.log"]) = Some (File result_log) /\
  is_dir f' dir = is_dir f dir /\
  (forall q, q <> dir ++ [py "STDOUT.log"] -> q <> dir ++ [py "STDERR.log"] ->
             q <> dir ++ [py "result.log"] -> f' !! q = f !! q).
Proof.
  unfold fs_with_logs. cbv zeta. split; [|split; [|split; [|split]]].
  - rewrite !lookup_insert_ne by (apply child_inj; discriminate).
    apply lookup_insert_eq.
  - rewrite !lookup_insert_ne by (apply child_inj; discriminate).
    apply lookup_insert_eq.
  - apply lookup_insert_eq.
  - now rewrite !is_dir_insert_child.
  - intros q H1 H2 H3. now rewrite !lookup_insert_ne by congruence.
Qed.

(** * The entry point *)

Lemma line_count_app (a b : str) : line_count (a ++ b) = line_count a + line_count b.
Proof. unfold line_count. now rewrite List.filter_app, length_app. Qed.

Lemma line_count_none (s : str) : char_in newline s = false -> line_count s = 0.
Proof.
  unfold line_count, char_in. induction s as [|c s IH]; [reflexivity|].
  cbn [existsb List.filter]. intros H. apply orb_false_iff in H as [Hc Hs].
  rewrite Hc. exact (IH Hs).
Qed.

(** C1, as the code has it.  When validation is not skipped and denies
    the argument list, [main] returns 1 and changes the world only by
    three writes to the error stream, each ending with a newline: the
    denial reason, the statement that only loopback addresses are
    allowed, and the [--skip-validation] hint.  The reason is that of the
    leftmost denied token; it ends with the text that was classified,
    which is the token, or for a flag token its value, and whose host is
    not allowed.  The writes make three lines when that text holds no
    newline, and one more for each newline it holds.  The file system is
    untouched and no spawn or report directory is logged. *)
Theorem C1_denied_invocation (env : Env) (args : Namespace) (w : World)
    (Hskip : skip_validation args = false)
    (Hdenied : fst (validate_network_args (command args)) = false) :
  exists before tok after text c,
    command args = before ++ tok :: after /\
    Forall (fun t => check_token t = None) before /\
    flag_value tok = Some text /\
    classify text = Some c /\
    host_denied (extract_host c text) = true /\
    snd (validate_network_args (command args)) = denial c ++ text /\
    main env args w
    = (Return 1%Z,
       {| fs := fs w;
          stdout := stdout w;
          stderr := stderr w ++ denial_lines (denial c ++ text);
          log := log w ++ [Validated false (denial c ++ text)] |}) /\
    line_count (text_of (denial_lines (denial c ++ text))) = 3 + line_count text /\
    (char_in newline text = false ->
     split newline (text_of (denial_lines (denial c ++ text)))
     = [py "autoapprove: Network validation failed: " ++ denial c ++ text;
        py "autoapprove: Only loopback addresses (127.0.0.1, ::1, localhost) are allowed.";
        py "autoapprove: Use --skip-validation to bypass this check (not recommended).";
        []]).
Proof.
  destruct (validate_network_args (command args)) as [valid reason] eqn:E.
  cbn [fst snd] in *. subst valid.
  destruct (validate_leftmost (command args) reason E)
    as (before & tok & after & Hcmd & Hbefore & Htok).
  unfold check_token in Htok. destruct (flag_value tok) as [text|] eqn:Hflag;
    [|discriminate].
  rewrite check_arg_spec in Htok. unfold spec_check in Htok.
  destruct (classify text) as [c|] eqn:Hcls; [|discriminate].
  unfold judge in Htok.
  destruct (host_denied (extract_host c text)) eqn:Hhost; [|discriminate].
  injection Htok as <-.
  exists before, tok, after, text, c.
  do 6 (split; [assumption || reflexivity|]).
  assert (Hd : line_count (denial c) = 0) by (destruct c; reflexivity).
  assert (Hdn : char_in newline (denial c) = false) by (destruct c; reflexivity).
  split; [|split].
  - destruct w as [f out err lg]. unfold main.
    destruct (command args) as [|name rest] eqn:Hargs; [discriminate E|].
    rewrite Hskip. cbn [negb]. rewrite E. cbn [negb].
    unfold mbind, effect, ret, add_stderr, add_log, denial_lines.
    cbn [fs stdout stderr log]. rewrite <- !app_assoc. reflexivity.
  - unfold denial_lines, text_of. cbn [flat_map chunk_text].
    rewrite !line_count_app, Hd.
    repeat match goal with
    | |- context [line_count (py ?l)] => rewrite (line_count_none (py l) eq_refl)
    end.
    change (line_count [newline]) with 1. change (line_count []) with 0. lia.
  - intros Hnl. unfold denial_lines, text_of. cbn [flat_map chunk_text].
    rewrite app_nil_r, <- !app_assoc.
    match goal with
    | |- split _ (?k ++ ?d ++ ?t ++ [newline] ++ ?rest) = _ =>
        transitivity (split newline ((k ++ d ++ t) ++ newline :: rest));
          [f_equal; now rewrite <- !app_assoc|]
    end.
    rewrite split_app_sep by (rewrite !char_in_app, Hdn, Hnl; reflexivity).
    f_equal; vm_compute; reflexivity.
Qed.

Lemma C1_denied_invocation_witness :
  let args := {| command := [py "curl"; py "--url=http://example.com"];
                 skip_validation := false |} in
  skip_validation args = false /\
  fst (validate_network_args (command args)) = false /\
  exists before tok after text c,
    command args = before ++ tok :: after /\
    Forall (fun t => check_token t = None) before /\
    flag_value tok = Some text /\
    classify text = Some c /\
    host_denied (extract_host c text) = true /\
    snd (validate_network_args (command args)) = denial c ++ text /\
    main (sample_env SpawnFileNotFoundError) args empty_world
    = (Return 1%Z,
       {| fs := fs empty_world;
          stdout := stdout empty_world;
          stderr := stderr empty_world ++ denial_lines (denial c ++ text);
          log := log empty_world ++ [Validated false (denial c ++ text)] |}).
Proof.
  cbv zeta. split; [reflexivity|]. split; [vm_compute; reflexivity|].
  destruct (C1_denied_invocation (sample_env SpawnFileNotFoundError)
              {| command := [py "curl"; py "--url=http://example.com"];
                 skip_validation := false |} empty_world eq_refl
              ltac:(vm_compute; reflexivity))
    as (before & tok & after & text & c & H1 & H2 & H3 & H4 & H5 & H6 & H7 & _).
  exists before, tok, after, text, c. repeat (split; [assumption|]). assumption.
Defined.

(** C1 as stated fails on a denied token that holds a newline: the
    reason quotes it, and the three writes make four lines. *)
Lemma C1_counterexample :
  let token := py "http://example.com/" ++ [newline] ++ py "x" in
  let args := {| command := [py "curl"; token]; skip_validation := false |} in
  let run := main (sample_env SpawnFileNotFoundError) args empty_world in
  skip_validation args = false /\
  fst (validate_network_args (command args)) = false /\
  fst run = Return 1%Z /\
  length (stderr (snd run)) = 3 /\
  line_count (text_of (stderr (snd run))) = 4 /\
  line_count (text_of (stderr (snd run))) <> 3.
Proof. vm_compute. repeat split. discriminate. Qed.

(** C6, as the code has it.  When the spawn fails, [run_command] returns
    127 with the standard error "Command not found: <name>" if the binary
    was not found, 126 with "Permission denied: <name>" if permission was
    denied, and 1 with "Error executing command: <detail>" for any other
    exception (each message ends with a newline and is encoded in
    UTF-8); the captured output is empty, and [STDOUT.log], [STDERR.log]
    and [result.log] are written all the same.  This holds when the
    arguments, the working directory and the detail can be encoded, and
    the report directory is still in place after the spawn. *)
Theorem C6_spawn_failures (env : Env) (name : str) (rest : list str)
    (report_dir : path) (stdin_data : option bytes) (w : World)
    (Hlogs : logs_writable (fs w) report_dir)
    (Hkeeps : spawn_keeps_report env (name :: rest) stdin_data report_dir)
    (Hargs : forallb encodable (name :: rest) = true)
    (Hcwd : encodable (env_cwd env) = true)
    (exit_code : Z) (message : str)
    (Hfail :
       (env_spawn env (name :: rest) stdin_data = SpawnFileNotFoundError /\
        exit_code = 127%Z /\ message = py "Command not found: " ++ name) \/
       (env_spawn env (name :: rest) stdin_data = SpawnPermissionError /\
        exit_code = 126%Z /\ message = py "Permission denied: " ++ name) \/
       (exists detail,
          env_spawn env (name :: rest) stdin_data = SpawnException detail /\
          encodable detail = true /\
          exit_code = 1%Z /\ message = py "Error executing command: " ++ detail)) :
  exists w' stderr_data record,
    encode (message ++ [newline]) = Return stderr_data /\
    encode (result_content env (name :: rest) exit_code) = Return record /\
    run_command env (name :: rest) report_dir stdin_data w = (Return exit_code, w') /\
    fs w' !! (report_dir ++ [py "STDOUT.log"]) = Some (File []) /\
    fs w' !! (report_dir ++ [py "STDERR.log"]) = Some (File stderr_data) /\
    fs w' !! (report_dir ++ [py "result.log"]) = Some (File record) /\
    stdout w' = stdout w ++ [Data []] /\
    stderr w' = stderr w ++ [Data stderr_data] /\
    log w' = log w ++ [Wrote (report_dir ++ [py "STDIN.log"]);
                       Spawned (name :: rest) stdin_data;
                       Wrote (report_dir ++ [py "STDOUT.log"]);
                       Wrote (report_dir ++ [py "STDERR.log"]);
                       Wrote (report_dir ++ [py "result.log"])].
Proof.
  pose proof Hargs as Hname. cbn [forallb] in Hname.
  apply andb_true_iff in Hname as [Hname _].
  assert (Hmsg : encodable (message ++ [newline]) = true
                 /\ spawn_message name (env_spawn env (name :: rest) stdin_data)
                    = message ++ [newline]
                 /\ spawn_code (env_spawn env (name :: rest) stdin_data) = exit_code
                 /\ forall so se rc, env_spawn env (name :: rest) stdin_data
                                     <> Completed so se rc).
  { destruct Hfail as [(-> & -> & ->) | [(-> & -> & ->) | (detail & -> & Hd & -> & ->)]];
      cbn [spawn_message spawn_code]; rewrite <- app_assoc;
      (split; [|split; [reflexivity | split; [reflexivity | discriminate]]]);
      rewrite !encodable_app, encodable_py; [rewrite Hname | rewrite Hname | rewrite Hd];
      reflexivity. }
  destruct Hmsg as (Hmsg & Hsm & Hsc & Hnot).
  pose proof (result_content_encodable env (name :: rest) exit_code Hargs Hcwd) as Hrec.
  assert (Hres : spawn_result name (env_spawn env (name :: rest) stdin_data)
                 = Return ([], fsencode (message ++ [newline]), exit_code)).
  { unfold spawn_result. rewrite Hsm, Hsc, (encodable_encode _ Hmsg).
    destruct (env_spawn env (name :: rest) stdin_data) as [so se rc| | |];
      [now destruct (Hnot so se rc) | reflexivity..]. }
  pose proof (run_command_ok env name rest report_dir stdin_data w _ _ _
                Hlogs Hkeeps Hres Hrec) as Hrun.
  eexists. exists (fsencode (message ++ [newline])),
    (fsencode (result_content env (name :: rest) exit_code)).
  split; [now apply encodable_encode|]. split; [now apply encodable_encode|].
  split; [exact Hrun|]. cbn [fs stdout stderr log].
  destruct (fs_with_logs_lookup
              (fs_after_spawn env (name :: rest) stdin_data report_dir (fs w))
              report_dir [] (fsencode (message ++ [newline]))
              (fsencode (result_content env (name :: rest) exit_code)))
    as (L2 & L3 & L4 & _).
  repeat (split; [assumption || reflexivity|]). reflexivity.
Qed.

Lemma logs_writable_empty : logs_writable ∅ [].
Proof.
  split; [reflexivity|]. intros name _. rewrite lookup_empty. discriminate.
Qed.

Lemma sample_env_keeps (outcome : spawn_outcome) (command : list str)
    (stdin_data : option bytes) (report_dir : path) :
  spawn_keeps_report (sample_env outcome) command stdin_data report_dir.
Proof. intros f Hf. exact Hf. Qed.

Lemma C6_spawn_failures_witness :
  logs_writable (fs empty_world) [] /\
  exists w',
    run_command (sample_env SpawnFileNotFoundError) [py "nonexistent_command_xyz"]
                [] None empty_world
    = (Return 127%Z, w') /\
    exists stderr_data,
      encode (py "Command not found: nonexistent_command_xyz" ++ [newline])
      = Return stderr_data /\
      fs w' !! ([] ++ [py "STDERR.log"]) = Some (File stderr_data).
Proof.
  split; [exact logs_writable_empty|].
  destruct (C6_spawn_failures (sample_env SpawnFileNotFoundError)
              (py "nonexistent_command_xyz") [] [] None empty_world
              logs_writable_empty (sample_env_keeps _ _ _ _) eq_refl eq_refl
              127%Z (py "Command not found: nonexistent_command_xyz")
              (or_introl (conj eq_refl (conj eq_refl eq_refl))))
    as (w' & stderr_data & record & Henc & _ & Hrun & _ & Herr & _).
  exists w'. split; [exact Hrun|]. exists stderr_data. split; [exact Henc | exact Herr].
Defined.

(** C6 as stated fails on a command name that holds a byte that is no
    valid UTF-8: the synthetic error text cannot be encoded, and
    [run_command] raises [UnicodeEncodeError] out of the handler, having
    written [STDIN.log] alone. *)
Lemma C6_counterexample :
  let name := [Escape true true true true true true true] in
  let run := run_command (sample_env SpawnFileNotFoundError) [name] [] None
                         empty_world in
  logs_writable (fs empty_world) [] /\
  env_spawn (sample_env SpawnFileNotFoundError) [name] None = SpawnFileNotFoundError /\
  fst run = Raise UnicodeEncodeError /\
  fst run <> Return 127%Z /\
  fs (snd run) !! [py "STDOUT.log"] = None /\
  fs (snd run) !! [py "STDERR.log"] = None /\
  fs (snd run) !! [py "result.log"] = None /\
  stderr (snd run) = [].
Proof.
  cbv zeta. split; [exact logs_writable_empty|]. vm_compute.
  repeat split. discriminate.
Qed.

(** * Creating directories *)

Lemma lookup_node_insert_ne (f : gmap path node) (p q : path) (n : node) :
  q <> p -> lookup_node (<[p := n]> f) q = lookup_node f q.
Proof.
  intros H. unfold lookup_node. destruct q; [reflexivity|].
  now rewrite lookup_insert_ne.
Qed.

Lemma lookup_node_insert_eq (f : gmap path node) (p : path) (n : node) :
  p <> [] -> lookup_node (<[p := n]> f) p = Some n.
Proof.
  intros H. unfold lookup_node. destruct p; [congruence|]. apply lookup_insert_eq.
Qed.

Lemma parent_neq (p : path) : p <> [] -> parent p <> p.
Proof.
  intros H. destruct (exists_last H) as (p' & c & ->).
  rewrite parent_child. intros E. symmetry in E. exact (child_neq_dir _ _ E).
Qed.

Lemma fs_wf_insert_dir (f : gmap path node) (p : path) :
  fs_wf f -> p <> [] -> f !! p = None -> lookup_node f (parent p) = Some Dir ->
  fs_wf (<[p := Dir]> f).
Proof.
  intros Hwf Hne Hnone Hpar q n Hq.
  destruct (decide (q = p)) as [-> | Hqp].
  - split; [exact Hne|].
    rewrite lookup_node_insert_ne by now apply parent_neq. exact Hpar.
  - rewrite lookup_insert_ne in Hq by congruence.
    destruct (Hwf q n Hq) as [Hq0 Hqpar]. split; [exact Hq0|].
    destruct (decide (parent q = p)) as [-> | Hpq].
    + now apply lookup_node_insert_eq.
    + now rewrite lookup_node_insert_ne.
Qed.

Lemma prefix_snoc (q p : path) (c : str) :
  q `prefix_of` p ++ [c] -> q = p ++ [c] \/ q `prefix_of` p.
Proof.
  intros [k Hk]. destruct k as [|c' k' _] using rev_ind.
  - left. now rewrite app_nil_r in Hk.
  - right. rewrite app_assoc in Hk. apply app_inj_tail in Hk as [-> _].
    now exists k'.
Qed.

Lemma dir_prefixes (f : gmap path node) (p : path) :
  fs_wf f -> is_dir f p = true ->
  forall q, q `prefix_of` p -> is_dir f q = true.
Proof.
  intros Hwf. induction p as [|c p IH] using rev_ind; intros Hdir q Hq.
  - apply prefix_nil_inv in Hq. now subst.
  - destruct (prefix_snoc _ _ _ Hq) as [-> | Hq']; [exact Hdir|].
    apply IH; [|exact Hq'].
    unfold is_dir in Hdir. rewrite lookup_node_child in Hdir.
    destruct (f !! (p ++ [c])) as [[|content]|] eqn:E; try discriminate.
    destruct (Hwf _ _ E) as [_ Hpar]. rewrite parent_child in Hpar.
    unfold is_dir. now rewrite Hpar.
Qed.

Lemma mkdir_parents_ok (rp : list str) (f : gmap path node) :
  fs_wf f ->
  (forall q, q `prefix_of` rev rp -> no_file_at f q) ->
  forallb (fun name => negb (name_too_long name)) rp = true ->
  exists f',
    mkdir_parents rp f = (Return tt, f') /\ fs_wf f' /\
    is_dir f' (rev rp) = true /\ only_adds_dirs f f' (rev rp).
Proof.
  revert f. induction rp as [|c rp IH]; intros f Hwf Hnofile Hshort.
  - exists f. split; [reflexivity|]. split; [assumption|].
    split; [reflexivity|]. intros q. now left.
  - cbn [forallb] in Hshort. apply andb_true_iff in Hshort as [Hc Hshort].
    apply negb_true_iff in Hc.
    cbn [mkdir_parents]. cbn [rev] in *. unfold os_mkdir.
    rewrite lookup_node_child, parent_child, last_last, Hc.
    destruct (f !! (rev rp ++ [c])) as [[|content]|] eqn:Hp.
    + exists f. unfold is_dir. rewrite lookup_node_child, Hp.
      split; [reflexivity|]. split; [assumption|].
      split; [reflexivity|]. intros q. now left.
    + exfalso. exact (Hnofile _ (reflexivity _) content Hp).
    + destruct (lookup_node f (rev rp)) as [[|content]|] eqn:Hpar.
      * exists (<[rev rp ++ [c] := Dir]> f). split; [reflexivity|]. split.
        { apply fs_wf_insert_dir; try assumption.
          - now destruct (rev rp).
          - now rewrite parent_child. }
        split.
        { unfold is_dir. rewrite lookup_node_insert_eq; [reflexivity|].
          now destruct (rev rp). }
        intros q. destruct (decide (q = rev rp ++ [c])) as [-> | Hq].
        { right. rewrite lookup_insert_eq. split; [assumption|]. now split. }
        { left. now rewrite lookup_insert_ne. }
      * exfalso. unfold lookup_node in Hpar.
        destruct (rev rp) as [|x l] eqn:Hrev; [discriminate|].
        refine (Hnofile (x :: l) _ content Hpar). now apply prefix_app_r.
      * destruct (IH f Hwf) as (f1 & Hmk & Hwf1 & Hdir1 & Hadd1);
          [|exact Hshort|].
        { intros q Hq. apply Hnofile. now apply prefix_app_r. }
        rewrite Hmk. unfold mkdir_exist_ok, os_mkdir.
        rewrite lookup_node_child, parent_child, last_last, Hc.
        assert (Hp1 : f1 !! (rev rp ++ [c]) = None).
        { destruct (Hadd1 (rev rp ++ [c])) as [E | (_ & _ & Hpre)]; [congruence|].
          apply prefix_length in Hpre. rewrite length_app in Hpre. simpl in Hpre. lia. }
        rewrite Hp1. unfold is_dir in Hdir1.
        destruct (lookup_node f1 (rev rp)) as [[|content]|] eqn:Hpar1; try discriminate.
        exists (<[rev rp ++ [c] := Dir]> f1). split; [reflexivity|]. split.
        { apply fs_wf_insert_dir; try assumption.
          - now destruct (rev rp).
          - now rewrite parent_child. }
        split.
        { unfold is_dir. rewrite lookup_node_insert_eq; [reflexivity|].
          now destruct (rev rp). }
        intros q. destruct (decide (q = rev rp ++ [c])) as [-> | Hq].
        { right. rewrite lookup_insert_eq.
          destruct (Hadd1 (rev rp ++ [c])) as [E | (E & _)];
            (split; [congruence|]); now split. }
        { rewrite lookup_insert_ne by congruence.
          destruct (Hadd1 q) as [E | (E1 & E2 & Hpre)]; [now left|].
          right. split; [assumption|]. split; [assumption|].
          now apply prefix_app_r. }
Qed.

(** * The name of the report directory *)

Lemma length_pad_digits (width : nat) (n : Z) (acc : str) :
  length (pad_digits width n acc) = width + length acc.
Proof.
  revert n acc. induction width as [|k IH]; intros n acc; simpl; [reflexivity|].
  rewrite IH. simpl. lia.
Qed.

Lemma length_zpad (width : nat) (n : Z) : length (zpad width n) = width.
Proof. unfold zpad. rewrite length_pad_digits. simpl. lia. Qed.

Lemma zpad6_ms (n : Z) : firstn 3 (zpad 6 n) = zpad 3 (n / 1000).
Proof.
  unfold zpad. cbn [pad_digits firstn].
  repeat rewrite Zdiv.Zdiv_Zdiv by lia. reflexivity.
Qed.

Lemma drop_last3_zpad6 (a : str) (n : Z) :
  drop_last3 (a ++ zpad 6 n) = a ++ zpad 3 (n / 1000).
Proof.
  unfold drop_last3. rewrite length_app, length_zpad.
  replace (length a + 6 - 3) with (length a + 3) by lia.
  now rewrite firstn_app_2, zpad6_ms.
Qed.

Lemma get_timestamp_ms (env : Env) :
  get_timestamp env = timestamp_ms (env_now_dir env).
Proof.
  unfold get_timestamp, strftime_stamp, timestamp_ms.
  rewrite !app_assoc. apply drop_last3_zpad6.
Qed.

Lemma digit_char_no_slash (d : Z) :
  (0 <= d < 10)%Z -> eqc "/" (digit_char d) = false.
Proof.
  intros H.
  assert (E : (d = 0 \/ d = 1 \/ d = 2 \/ d = 3 \/ d = 4 \/ d = 5 \/ d = 6
               \/ d = 7 \/ d = 8 \/ d = 9)%Z) by lia.
  repeat (destruct E as [-> | E]; [reflexivity|]). now subst.
Qed.

Lemma pad_digits_no_slash (width : nat) (n : Z) (acc : str) :
  char_in "/" acc = false -> char_in "/" (pad_digits width n acc) = false.
Proof.
  revert n acc. induction width as [|k IH]; intros n acc Hacc; simpl; [exact Hacc|].
  apply IH. simpl. rewrite Hacc, orb_false_r.
  apply digit_char_no_slash. apply Z.mod_pos_bound. lia.
Qed.

Lemma nat_digits_no_slash (fuel : nat) (n : Z) (acc : str) :
  (0 <= n)%Z -> char_in "/" acc = false ->
  char_in "/" (nat_digits fuel n acc) = false.
Proof.
  revert n acc. induction fuel as [|k IH]; intros n acc Hn Hacc; simpl; [exact Hacc|].
  destruct (n <? 10)%Z eqn:E.
  - apply Z.ltb_lt in E. simpl. rewrite Hacc, orb_false_r.
    apply digit_char_no_slash. lia.
  - apply IH.
    + apply Z.div_pos; lia.
    + simpl. rewrite Hacc, orb_false_r.
      apply digit_char_no_slash. apply Z.mod_pos_bound. lia.
Qed.

Lemma str_of_Z_no_slash (n : Z) : char_in "/" (str_of_Z n) = false.
Proof.
  unfold str_of_Z. destruct (n <? 0)%Z eqn:E.
  - apply Z.ltb_lt in E. rewrite char_in_cons.
    rewrite nat_digits_no_slash; [reflexivity | lia | reflexivity].
  - apply Z.ltb_ge in E. apply nat_digits_no_slash; [lia | reflexivity].
Qed.

Lemma safe_name_no_slash (s : str) : char_in "/" (safe_name s) = false.
Proof.
  induction s as [|c s IH]; [reflexivity|].
  unfold safe_name in *. cbn [map]. unfold char_in in *. cbn [existsb].
  rewrite IH, orb_false_r.
  destruct (negb (is_word c || eqc c "-" || eqc c ".")) eqn:E; [reflexivity|].
  apply eqc_false. intros <-. discriminate E.
Qed.

Lemma timestamp_ms_no_slash (d : datetime) : char_in "/" (timestamp_ms d) = false.
Proof.
  unfold timestamp_ms, zpad. rewrite !char_in_app.
  rewrite str_of_Z_no_slash, !pad_digits_no_slash by reflexivity. reflexivity.
Qed.

Lemma split_no_sep (sep : char) (s : str) :
  char_in sep s = false -> split sep s = [s].
Proof.
  induction s as [|c s IH]; intros H; [reflexivity|].
  simpl in H. apply orb_false_iff in H as [Hc Hs].
  simpl. rewrite eqc_sym, Hc. now rewrite (IH Hs).
Qed.

Lemma path_join_single (p : path) (name : str) :
  char_in "/" name = false -> 2 <= length name -> path_join p name = p ++ [name].
Proof.
  intros Hsep Hlen. unfold path_join. rewrite (split_no_sep _ _ Hsep).
  cbn [List.filter]. assert (Hne : name <> py ".").
  { intros ->. simpl in Hlen. lia. }
  rewrite (bool_decide_eq_false_2 _ Hne).
  destruct name; [simpl in Hlen; lia | reflexivity].
Qed.

Lemma report_dir_of_eq (env : Env) (command_name : str) :
  report_dir_of env command_name
  = [py "test-output"; py "autoapprove";
     timestamp_ms (env_now_dir env) ++ py "-" ++ safe_name command_name].
Proof.
  unfold report_dir_of. rewrite get_timestamp_ms.
  change (path_join (path_join [] (py "./test-output")) (py "autoapprove"))
    with [py "test-output"; py "autoapprove"].
  rewrite path_join_single; [reflexivity | |].
  - rewrite !char_in_app, timestamp_ms_no_slash, safe_name_no_slash. reflexivity.
  - unfold timestamp_ms. rewrite !length_app, !length_zpad. simpl. lia.
Qed.

Lemma safe_char_cases (c : char) :
  is_word c || eqc c "-" || eqc c "."
  = spec_safe_char c || (128 <=? ord c)%N && uni_isalnum c.
Proof. each_char c; reflexivity. Qed.

Lemma safe_name_cases (s : str) :
  safe_name s
  = map (fun c => if spec_safe_char c || (128 <=? ord c)%N && uni_isalnum c
                  then c else (Latin "_")) s.
Proof.
  unfold safe_name. apply map_ext. intros c. rewrite safe_char_cases.
  now destruct (spec_safe_char c || (128 <=? ord c)%N && uni_isalnum c).
Qed.

Lemma safe_name_ascii (s : str) :
  forallb (fun c => (ord c <? 128)%N) s = true -> safe_name s = spec_sanitize s.
Proof.
  intros H. rewrite safe_name_cases. unfold spec_sanitize.
  apply map_ext_in. intros c Hc.
  rewrite forallb_forall in H. specialize (H c Hc).
  apply N.ltb_lt in H. assert (E : (128 <=? ord c)%N = false) by (apply N.leb_gt; lia).
  now rewrite E, orb_false_r.
Qed.

Lemma report_dir_names (env : Env) (command_name : str) :
  name_too_long (timestamp_ms (env_now_dir env) ++ py "-" ++ safe_name command_name)
  = false ->
  forallb (fun name => negb (name_too_long name)) (report_dir_of env command_name) = true.
Proof.
  intros H. rewrite report_dir_of_eq. cbn [forallb]. rewrite H. reflexivity.
Qed.

Lemma create_report_directory_ok (env : Env) (command_name : str) (w : World) :
  fs_wf (fs w) ->
  (forall q, q `prefix_of` report_dir_of env command_name -> no_file_at (fs w) q) ->
  forallb (fun name => negb (name_too_long name)) (report_dir_of env command_name) = true ->
  exists f',
    create_report_directory env command_name w
    = (Return (report_dir_of env command_name),
       {| fs := f'; stdout := stdout w; stderr := stderr w;
          log := log w ++ [MadeReportDir (report_dir_of env command_name)] |})
    /\ fs_wf f'
    /\ is_dir f' (report_dir_of env command_name) = true
    /\ only_adds_dirs (fs w) f' (report_dir_of env command_name).
Proof.
  intros Hwf Hfiles Hshort. destruct w as [f out err lg]. cbn [fs stdout stderr log] in *.
  destruct (mkdir_parents_ok (rev (report_dir_of env command_name)) f Hwf)
    as (f' & Hmk & Hwf' & Hdir & Hadd).
  { now rewrite rev_involutive. }
  { rewrite forallb_forall in *. intros x Hx. apply Hshort. now apply in_rev. }
  rewrite rev_involutive in Hdir, Hadd.
  exists f'. split; [|exact (conj Hwf' (conj Hdir Hadd))].
  unfold create_report_directory, mbind, mkdir. cbn [fs]. now rewrite Hmk.
Qed.

(** C8, as the code has it.  [create_report_directory] builds the path
    [test-output/autoapprove/<stamp>-<name>], where the stamp is the UTC
    clock as [YYYY-MM-DDTHH-MM-SS.mmm] and the name is the command name
    in which every character is replaced by an underscore unless it is
    in [A-Za-z0-9_.-] or is alphanumeric outside ASCII in the sense of
    [str.isalnum]: a letter, or a digit or number such as a superscript
    two or the fraction one quarter (so on an ASCII name exactly the
    characters outside [A-Za-z0-9_.-] are replaced).  Where no file
    stands in the way and the name of the directory is not longer than
    a name may be, it creates that directory and its missing parents,
    and changes nothing else. *)
Theorem C8_report_directory (env : Env) (command_name : str) (w : World)
    (Hwf : fs_wf (fs w))
    (Hfiles : forall q, q `prefix_of` report_dir_of env command_name ->
                        no_file_at (fs w) q)
    (Hname : name_too_long (timestamp_ms (env_now_dir env) ++ py "-"
                            ++ safe_name command_name) = false) :
  let report_dir :=
    [py "test-output"; py "autoapprove";
     timestamp_ms (env_now_dir env) ++ py "-" ++ safe_name command_name] in
  safe_name command_name
  = map (fun c => if spec_safe_char c || (128 <=? ord c)%N && uni_isalnum c
                  then c else (Latin "_")) command_name
  /\ (forallb (fun c => (ord c <? 128)%N) command_name = true ->
      safe_name command_name = spec_sanitize command_name)
  /\ exists f',
       create_report_directory env command_name w
       = (Return report_dir,
          {| fs := f'; stdout := stdout w; stderr := stderr w;
             log := log w ++ [MadeReportDir report_dir] |})
       /\ (forall q, q `prefix_of` report_dir -> is_dir f' q = true)
       /\ only_adds_dirs (fs w) f' report_dir.
Proof.
  cbv zeta. split; [apply safe_name_cases|]. split; [apply safe_name_ascii|].
  destruct (create_report_directory_ok env command_name w Hwf Hfiles
              (report_dir_names env command_name Hname))
    as (f' & Hrun & Hwf' & Hdir & Hadd).
  rewrite report_dir_of_eq in Hrun, Hdir, Hadd.
  exists f'. split; [exact Hrun|]. split; [|exact Hadd].
  now apply dir_prefixes.
Qed.

Lemma fs_wf_empty : fs_wf ∅.
Proof. intros p n H. rewrite lookup_empty in H. discriminate. Qed.

Lemma no_file_empty (q : path) : no_file_at ∅ q.
Proof. intros content H. rewrite lookup_empty in H. discriminate. Qed.

Lemma C8_report_directory_witness :
  fs_wf (fs empty_world) /\
  (forall q, q `prefix_of` report_dir_of (sample_env SpawnFileNotFoundError) (py "echo") ->
             no_file_at (fs empty_world) q) /\
  name_too_long (timestamp_ms (env_now_dir (sample_env SpawnFileNotFoundError))
                 ++ py "-" ++ safe_name (py "echo")) = false /\
  exists f',
    create_report_directory (sample_env SpawnFileNotFoundError) (py "echo") empty_world
    = (Return [py "test-output"; py "autoapprove"; py "2025-01-02T03-04-05.678-echo"],
       {| fs := f'; stdout := []; stderr := [];
          log := [MadeReportDir [py "test-output"; py "autoapprove";
                                 py "2025-01-02T03-04-05.678-echo"]] |}).
Proof.
  split; [exact fs_wf_empty|]. split; [intros q _; exact (no_file_empty q)|].
  split; [vm_compute; reflexivity|].
  destruct (C8_report_directory (sample_env SpawnFileNotFoundError) (py "echo")
              empty_world fs_wf_empty (fun q _ => no_file_empty q)
              ltac:(vm_compute; reflexivity))
    as (_ & _ & f' & Hrun & _).
  exists f'. exact Hrun.
Defined.

(** C8 as stated fails on a command name with a letter outside ASCII:
    U+00E9 is outside [A-Za-z0-9_.-] and is kept. *)
Lemma C8_counterexample :
  spec_safe_char (ascii_of_N 233) = false /\
  safe_name [Latin (ascii_of_N 233)] = [Latin (ascii_of_N 233)] /\
  safe_name [Latin (ascii_of_N 233)] <> spec_sanitize [Latin (ascii_of_N 233)].
Proof. repeat split. vm_compute. discriminate. Qed.

(** * Whole runs *)

Lemma validate_allowed_reason (args : list str) (reason : str) :
  validate_network_args args = (true, reason) -> reason = [].
Proof.
  induction args as [|a args IH]; simpl.
  - now intros [= <-].
  - destruct (check_token a); [discriminate | exact IH].
Qed.

Lemma spawn_result_encodable (name : str) (o : spawn_outcome) :
  encodable (spawn_message name o) = true ->
  exists stdout_data stderr_data,
    spawn_result name o = Return (stdout_data, stderr_data, spawn_code o).
Proof.
  intros H. unfold spawn_result. rewrite (encodable_encode _ H).
  destruct o; cbn [PyExc.bind spawn_code]; eauto.
Qed.

Lemma report_run_ok (env : Env) (name : str) (rest : list str) (w : World) :
  run_possible env (name :: rest) (fs w) ->
  exists f2 stdout_data stderr_data,
    spawn_result name (env_spawn env (name :: rest) (env_stdin env))
    = Return (stdout_data, stderr_data,
              spawn_code (env_spawn env (name :: rest) (env_stdin env))) /\
    is_dir f2 (report_dir_of env (basename name)) = true /\
    (do! report_dir := create_report_directory env (basename name) in
     run_command env (name :: rest) report_dir (env_stdin env)) w
    = (Return (spawn_code (env_spawn env (name :: rest) (env_stdin env))),
       {| fs := fs_with_logs f2 (report_dir_of env (basename name))
                  stdout_data stderr_data
                  (fsencode (result_content env (name :: rest)
                               (spawn_code (env_spawn env (name :: rest)
                                                      (env_stdin env)))));
          stdout := stdout w ++ [Data stdout_data];
          stderr := stderr w ++ [Data stderr_data];
          log := log w ++ report_events (report_dir_of env (basename name))
                            (name :: rest) (env_stdin env) |}).
Proof.
  unfold run_possible. cbn [hd]. intros ((Hwf & Hfiles & Hlogs & Hshort) & Hkeeps & Henc).
  unfold run_encodable in Henc. cbn [hd] in Henc.
  apply andb_true_iff in Henc as [Henc Hmsg].
  apply andb_true_iff in Henc as [Hargs Hcwd].
  destruct (create_report_directory_ok env (basename name) w Hwf Hfiles Hshort)
    as (f1 & Hmk & Hwf1 & Hdir1 & Hadd1).
  set (rd := report_dir_of env (basename name)) in *.
  set (code := spawn_code (env_spawn env (name :: rest) (env_stdin env))).
  set (w1 := {| fs := f1; stdout := stdout w; stderr := stderr w;
                log := log w ++ [MadeReportDir rd] |}) in *.
  assert (Hlogs1 : logs_writable (fs w1) rd).
  { split; [exact Hdir1|]. intros log_name Hin. cbn [fs w1].
    destruct (Hadd1 (rd ++ [log_name])) as [E | (_ & _ & Hpre)].
    - rewrite E. now apply Hlogs.
    - apply prefix_length in Hpre. rewrite length_app in Hpre. simpl in Hpre. lia. }
  destruct (spawn_result_encodable _ _ Hmsg) as (stdout_data & stderr_data & Hres).
  pose proof (run_command_ok env name rest rd (env_stdin env) w1 _ _ _ Hlogs1 Hkeeps
                Hres (result_content_encodable env (name :: rest) code Hargs Hcwd))
    as Hrun.
  exists (fs_after_spawn env (name :: rest) (env_stdin env) rd f1),
    stdout_data, stderr_data.
  split; [exact Hres|]. split.
  { apply (Hkeeps _ (logs_writable_insert _ rd (py "STDIN.log")
                       (stdin_content (env_stdin env)) Hlogs1)). }
  unfold mbind. rewrite Hmk. fold w1. rewrite Hrun. cbn [fs stdout stderr log w1].
  unfold report_events. now rewrite <- app_assoc.
Qed.

Lemma count_app (p : event -> bool) (l1 l2 : list event) :
  count p (l1 ++ l2) = count p l1 + count p l2.
Proof. unfold count. now rewrite List.filter_app, length_app. Qed.

Lemma report_events_counts (report_dir : path) (command : list str)
    (stdin_data : option bytes) :
  let events := report_events report_dir command stdin_data in
  count is_validation events = 0 /\ count is_report_dir events = 1 /\
  count is_record events = 1 /\ count is_spawn events = 1.
Proof.
  cbv zeta. unfold report_events, count, is_record.
  cbn [List.filter is_validation is_report_dir is_spawn].
  rewrite !last_last.
  rewrite !bool_decide_eq_false_2 by discriminate.
  rewrite bool_decide_eq_true_2 by reflexivity.
  repeat split.
Qed.

(** C7, as the code has it.  A run on a command line with a command
    binds one validation result unless validation is skipped.  When the
    run is not denied (validation passes or is skipped), nothing stands
    in the way of a report, the spawn leaves the report directory in
    place and the texts of the run can be encoded, it creates one report
    directory, spawns once and writes one [result.log] into that
    directory; when it is denied it creates no report directory, spawns
    nothing, writes no [result.log] and leaves the file system as it
    was. *)
Theorem C7_reports_of_a_run (env : Env) (args : Namespace) (w : World)
    (name : str) (rest : list str)
    (Hcmd : command args = name :: rest)
    (Hrun : denied args = false -> run_possible env (command args) (fs w)) :
  exists exit_code w' added,
    main env args w = (Return exit_code, w') /\
    log w' = log w ++ added /\
    count is_validation added = (if skip_validation args then 0 else 1) /\
    count is_report_dir added = (if denied args then 0 else 1) /\
    count is_record added = (if denied args then 0 else 1) /\
    count is_spawn added = (if denied args then 0 else 1) /\
    (denied args = true -> exit_code = 1%Z /\ fs w' = fs w) /\
    (denied args = false ->
     is_dir (fs w') (report_dir_of env (basename name)) = true /\
     exists content,
       encode (result_content env (command args) exit_code) = Return content /\
       fs w' !! (report_dir_of env (basename name) ++ [py "result.log"])
       = Some (File content)).
Proof.
  destruct args as [cmd skip]. cbn [command skip_validation] in *. subst cmd.
  unfold denied in *. cbn [command skip_validation] in *.
  set (rd := report_dir_of env (basename name)) in *.
  assert (Hruns : forall lg,
    run_possible env (name :: rest) (fs w) ->
    exists exit_code w',
      (do! report_dir := create_report_directory env (basename name) in
       run_command env (name :: rest) report_dir (env_stdin env))
        {| fs := fs w; stdout := stdout w; stderr := stderr w; log := lg |}
      = (Return exit_code, w') /\
      log w' = lg ++ report_events rd (name :: rest) (env_stdin env) /\
      is_dir (fs w') rd = true /\
      exists content,
        encode (result_content env (name :: rest) exit_code) = Return content /\
        fs w' !! (rd ++ [py "result.log"]) = Some (File content)).
  { intros lg Hpossible.
    destruct (report_run_ok env name rest
                {| fs := fs w; stdout := stdout w; stderr := stderr w; log := lg |}
                Hpossible)
      as (f2 & so & se & _ & Hdir2 & Hmain).
    change (report_dir_of env (basename name)) with rd in Hmain, Hdir2.
    eexists. eexists. split; [exact Hmain|]. cbn [fs log].
    destruct (fs_with_logs_lookup f2 rd so se
                (fsencode (result_content env (name :: rest)
                   (spawn_code (env_spawn env (name :: rest) (env_stdin env))))))
      as (_ & _ & L4 & Hd & _).
    split; [reflexivity|]. split; [now rewrite Hd|]. eexists. split; [|exact L4].
    apply encodable_encode. destruct Hpossible as (_ & _ & Henc).
    unfold run_encodable in Henc. apply andb_true_iff in Henc as [Henc _].
    apply andb_true_iff in Henc as [Hargs Hcwd].
    now apply result_content_encodable. }
  destruct (report_events_counts rd (name :: rest) (env_stdin env))
    as (Cv & Cd & Cr & Cs).
  destruct w as [f out err lg]. cbn [fs stdout stderr log] in *.
  unfold main. cbn [command skip_validation].
  destruct skip; cbn [negb andb] in *.
  - destruct (Hruns lg (Hrun eq_refl)) as (code & w' & Hmain & Hlog & Hdir & Hrec).
    exists code, w', (report_events rd (name :: rest) (env_stdin env)).
    split; [exact Hmain|]. split; [exact Hlog|].
    repeat (split; [assumption|]). split; [discriminate|]. intros _. now split.
  - destruct (validate_network_args (name :: rest)) as [valid reason] eqn:E.
    cbn [fst] in *. destruct valid; cbn [negb] in *.
    + destruct (Hruns (lg ++ [Validated true reason]) (Hrun eq_refl))
        as (code & w' & Hmain & Hlog & Hdir & Hrec).
      exists code, w',
        ([Validated true reason] ++ report_events rd (name :: rest) (env_stdin env)).
      split.
      { unfold mbind at 1, effect, add_log. cbn [fs stdout stderr log]. exact Hmain. }
      split; [now rewrite Hlog, <- app_assoc|].
      rewrite !count_app, Cv, Cd, Cr, Cs.
      repeat (split; [reflexivity|]). split; [discriminate|]. intros _. now split.
    + exists 1%Z. eexists. exists [Validated false reason].
      split.
      { unfold mbind, effect, ret, add_stderr, add_log. cbn [fs stdout stderr log].
        reflexivity. }
      cbn [log fs]. repeat (split; [reflexivity|]).
      split; [now intros _|]. discriminate.
Qed.

Lemma report_possible_empty (report_dir : path) :
  forallb (fun name => negb (name_too_long name)) report_dir = true ->
  report_possible ∅ report_dir.
Proof.
  intros Hshort. split; [exact fs_wf_empty|]. split; [|split; [|exact Hshort]].
  - intros q _. apply no_file_empty.
  - intros name _ H. rewrite lookup_empty in H. discriminate.
Qed.

Lemma run_possible_sample (outcome : spawn_outcome) (command : list str) :
  forallb (fun name => negb (name_too_long name))
          (report_dir_of (sample_env outcome) (basename (hd [] command))) = true ->
  run_encodable (sample_env outcome) command = true ->
  run_possible (sample_env outcome) command ∅.
Proof.
  intros Hshort Henc. split; [now apply report_possible_empty|].
  split; [apply sample_env_keeps | exact Henc].
Qed.

Lemma C7_reports_of_a_run_witness :
  let env := sample_env (Completed [] [] 0) in
  let args := {| command := [py "echo"; py "hello"]; skip_validation := false |} in
  command args = py "echo" :: [py "hello"] /\
  (denied args = false -> run_possible env (command args) (fs empty_world)) /\
  exists exit_code w' added,
    main env args empty_world = (Return exit_code, w') /\
    log w' = log empty_world ++ added /\
    count is_report_dir added = (if denied args then 0 else 1).
Proof.
  cbv zeta.
  assert (Hrun : run_possible (sample_env (Completed [] [] 0))
                   [py "echo"; py "hello"] ∅).
  { apply run_possible_sample; vm_compute; reflexivity. }
  split; [reflexivity|]. split; [intros _; exact Hrun|].
  destruct (C7_reports_of_a_run (sample_env (Completed [] [] 0))
              {| command := [py "echo"; py "hello"]; skip_validation := false |}
              empty_world (py "echo") [py "hello"] eq_refl (fun _ => Hrun))
    as (code & w' & added & Hmain & Hlog & _ & Hdirs & _).
  exists code, w', added. auto.
Defined.

(** C7 as stated fails on a denied invocation, which yields no report
    directory at all, and on a run with [--skip-validation], which binds
    no validation result. *)
Lemma C7_counterexample :
  let env := sample_env (Completed [] [] 0) in
  let denied_run :=
    snd (main env {| command := [py "curl"; py "http://example.com"];
                     skip_validation := false |} empty_world) in
  let skipped_run :=
    snd (main env {| command := [py "echo"; py "hello"];
                     skip_validation := true |} empty_world) in
  count is_report_dir (log denied_run) <> 1 /\
  count is_report_dir (log denied_run) = 0 /\
  count is_validation (log denied_run) = 1 /\
  fs denied_run = ∅ /\
  count is_validation (log skipped_run) = 0.
Proof. vm_compute. repeat split. discriminate. Qed.

(** * Further properties of validation *)

Lemma validate_app (before after : list str) :
  validate_network_args (before ++ after)
  = if fst (validate_network_args before)
    then validate_network_args after
    else validate_network_args before.
Proof.
  induction before as [|b before IH]; simpl; [reflexivity|].
  destruct (check_token b); [reflexivity | exact IH].
Qed.

Lemma validate_verdict (args : list str) :
  fst (validate_network_args args)
  = forallb (fun t => match check_token t with Some _ => false | None => true end) args.
Proof.
  induction args as [|a args IH]; simpl; [reflexivity|].
  destruct (check_token a); [reflexivity | exact IH].
Qed.

(** X1. The validator stops at the leftmost denied token: the result is
    [(False, reason)] exactly when some token yields [reason] and every
    token before it yields no verdict. *)
Theorem validate_leftmost_denial (args : list str) (reason : str) :
  validate_network_args args = (false, reason) <->
  exists before t after,
    args = before ++ t :: after /\
    Forall (fun x => check_token x = None) before /\
    check_token t = Some reason.
Proof.
  split.
  - induction args as [|a args IH]; simpl; [discriminate|].
    destruct (check_token a) as [r|] eqn:E.
    + intros [= <-]. exists [], a, args. now repeat split.
    + intros H. destruct (IH H) as (before & t & after & -> & Hb & Ht).
      exists (a :: before), t, after. split; [reflexivity|].
      split; [now constructor | exact Ht].
  - intros (before & t & after & -> & Hb & Ht).
    induction Hb as [|b before Hb0 _ IH]; simpl.
    + now rewrite Ht.
    + now rewrite Hb0.
Qed.

(** X2. Whether an argument list is allowed does not depend on the order
    of its tokens. *)
Theorem validate_order_independent (args args' : list str)
    (Hperm : Permutation args args') :
  fst (validate_network_args args) = fst (validate_network_args args').
Proof.
  rewrite !validate_verdict.
  induction Hperm as [|x l l' _ IH|x y l|l l' l'' _ IH1 _ IH2]; simpl.
  - reflexivity.
  - now rewrite IH.
  - now destruct (check_token x), (check_token y).
  - now rewrite IH1.
Qed.

Lemma validate_order_independent_witness :
  Permutation [py "curl"; py "-s"; py "http://example.com"]
              [py "http://example.com"; py "curl"; py "-s"] /\
  fst (validate_network_args [py "curl"; py "-s"; py "http://example.com"])
  = fst (validate_network_args [py "http://example.com"; py "curl"; py "-s"]).
Proof.
  assert (H : Permutation [py "curl"; py "-s"; py "http://example.com"]
                          [py "http://example.com"; py "curl"; py "-s"]).
  { apply Permutation_sym.
    apply (Permutation_cons_app [py "curl"; py "-s"] []). apply Permutation_refl. }
  split; [exact H|].
  apply (validate_order_independent _ _ H).
Defined.

(** X3. The reason is empty exactly when the list is allowed; a denial
    carries the category's description followed by the classified text. *)
Theorem validate_reason_empty_iff_allowed (args : list str) :
  (fst (validate_network_args args) = true <-> snd (validate_network_args args) = [])
  /\ (fst (validate_network_args args) = false ->
      exists c text,
        snd (validate_network_args args) = denial c ++ text /\
        has_shape c text = true).
Proof.
  destruct (validate_network_args args) as [[|] reason] eqn:E; cbn [fst snd].
  - apply validate_allowed_reason in E. subst. split; [tauto | discriminate].
  - destruct (validate_denied _ _ E) as (tok & text & c & _ & _ & Hc & _ & ->).
    split.
    + split; [discriminate|]. intros H. destruct c; discriminate H.
    + intros _. exists c, text. split; [reflexivity|].
      now apply classify_first in Hc as [Hc _].
Qed.

(** * Further properties of host extraction *)

Lemma rpartition_last (sep : char) (a b : str) :
  char_in sep b = false ->
  str_rpartition sep (a ++ sep :: b) = Some (a, b).
Proof.
  intros Hb. unfold str_rpartition.
  assert (E : rev (a ++ sep :: b) = rev b ++ sep :: rev a).
  { rewrite rev_app_distr. cbn [rev]. now rewrite <- app_assoc. }
  rewrite E, partition_first.
  - now rewrite !rev_involutive.
  - apply char_in_false. intros Hin. apply in_rev in Hin.
    apply char_in_false in Hb. contradiction.
Qed.

Lemma isdigit_no_colon (d : str) : isdigit d = true -> char_in ":" d = false.
Proof.
  intros H. apply char_in_false. intros Hin.
  destruct d as [|x d]; [discriminate|]. unfold isdigit in H.
  rewrite forallb_forall in H. specialize (H _ Hin). discriminate H.
Qed.

Lemma extract_address_last_colon (a d : str) :
  startswith (py "[") (a ++ py ":" ++ d) = false ->
  char_in ":" d = false ->
  extract_host_from_address (a ++ py ":" ++ d)
  = Some (if isdigit d then a else a ++ py ":" ++ d).
Proof.
  intros Hopen Hlast. unfold extract_host_from_address. rewrite Hopen.
  rewrite char_in_app. cbn [app py map list_ascii_of_string].
  rewrite char_in_cons. change (eqc ":" ":") with true.
  cbn [orb]. rewrite orb_true_r.
  rewrite (rpartition_last _ _ _ Hlast). now destruct (isdigit d).
Qed.

(** X4. On an address that does not start with a bracket,
    [extract_host_from_address] cuts at the last colon exactly when what
    follows it is a non-empty run of digits; this holds whatever the part
    before the last colon is, colons included, so that the last group of
    a bare IPv6 address is taken for a port when it is decimal. *)
Theorem extract_host_cuts_decimal_suffix (a d : str)
    (Hopen : startswith (py "[") (a ++ py ":" ++ d) = false)
    (Hlast : char_in ":" d = false) :
  extract_host_from_address (a ++ py ":" ++ d)
  = Some (if isdigit d then a else a ++ py ":" ++ d).
Proof.
  unfold extract_host_from_address. rewrite Hopen.
  assert (Hin : char_in ":" (a ++ py ":" ++ d) = true).
  { rewrite char_in_app. cbn [app py map list_ascii_of_string].
    rewrite char_in_cons. change (eqc ":" ":") with true.
    cbn [orb]. apply orb_true_r. }
  rewrite Hin, (rpartition_last _ _ _ Hlast). now destruct (isdigit d).
Qed.

Lemma extract_host_cuts_decimal_suffix_witness :
  startswith (py "[") (py ":" ++ py ":" ++ py "1") = false /\
  char_in ":" (py "1") = false /\
  extract_host_from_address (py ":" ++ py ":" ++ py "1") = Some (py ":").
Proof.
  split; [reflexivity|]. split; [reflexivity|].
  apply (extract_host_cuts_decimal_suffix (py ":") (py "1")); reflexivity.
Defined.

(** * Building and analysing matches *)

Module MatchFacts.
Import ReFacts.

Lemma star_class_intro (ic : bool) (p : char -> bool) (s : str) :
  forallb p s = true -> lang ic (Star (Cls p)) s.
Proof.
  induction s as [|x s IH]; simpl; intros H; [constructor|].
  apply andb_true_iff in H as [Hx Hs].
  apply (LStarCons ic (Cls p) [x] s); [now constructor | now apply IH].
Qed.

Lemma plus_class_intro (ic : bool) (p : char -> bool) (s : str) :
  s <> [] -> forallb p s = true -> lang ic (Plus (Cls p)) s.
Proof.
  destruct s as [|x s]; [congruence|]. simpl. intros _ H.
  apply andb_true_iff in H as [Hx Hs].
  apply (LCat ic (Cls p) (Star (Cls p)) [x] s);
    [now constructor | now apply star_class_intro].
Qed.

Lemma port_lang (ic : bool) (port : str) :
  optional_port port -> lang ic PORT port.
Proof.
  intros [-> | (d & -> & Hne & Hd)].
  - apply LAltR. constructor.
  - apply LAltL. apply (LCat ic (Chr ":") (Plus Digit) [(Latin ":")] d).
    + constructor. now destruct ic.
    + now apply plus_class_intro.
Qed.

Lemma re_match_whole (p : Pattern) (s : str) :
  dollar p = true -> lang (ignorecase p) (body p) s -> re_match p s = true.
Proof.
  intros Hd H. apply re_match_lang. rewrite Hd. now left.
Qed.

Lemma existsb_eqc_in (x : char) (l : list char) :
  existsb (eqc x) l = true -> In x l.
Proof.
  intros H. apply existsb_exists in H as (y & Hy & E).
  apply StrFacts.eqc_true in E. now subst.
Qed.

Lemma all_chars_complete (x : char) : In x all_chars.
Proof.
  apply existsb_eqc_in.
  each_char x; vm_compute; reflexivity.
Qed.

Lemma test_implies_sound (t P : char -> bool) (x : char) :
  test_implies t P = true -> t x = true -> P x = true.
Proof.
  unfold test_implies. rewrite forallb_forall. intros H Ht.
  specialize (H x (all_chars_complete x)). rewrite Ht in H. exact H.
Qed.

Lemma never_empty_sound (ic : bool) (r : re) (s : str) :
  never_empty r = true -> lang ic r s -> s <> [].
Proof.
  intros Hr H. induction H as [|c x Hx|p x Hx|a b s t Ha IHa Hb IHb
                               |a b s Ha IHa|a b s Hb IHb|a|a s t Ha IHa Ht IHt];
    simpl in Hr; try discriminate.
  - apply orb_true_iff in Hr as [Hr | Hr].
    + intros E. apply app_eq_nil in E as [E _]. now apply IHa.
    + intros E. apply app_eq_nil in E as [_ E]. now apply IHb.
  - apply andb_true_iff in Hr as [Hr _]. now apply IHa.
  - apply andb_true_iff in Hr as [_ Hr]. now apply IHb.
Qed.

Lemma first_opt_sound (ic : bool) (P : char -> bool) (r : re) (s : str) :
  first_opt ic P r = true -> lang ic r s ->
  match s with [] => True | x :: _ => P x = true end.
Proof.
  intros Hr H. induction H as [|c x Hx|p x Hx|a b s t Ha IHa Hb IHb
                               |a b s Ha IHa|a b s Hb IHb|a|a s t Ha IHa Ht IHt];
    simpl in Hr.
  - exact I.
  - now apply (test_implies_sound _ _ _ Hr).
  - now apply (test_implies_sound _ _ _ Hr).
  - apply orb_true_iff in Hr as [Hr | Hr];
      apply andb_true_iff in Hr as [H1 H2].
    + destruct s as [|x s].
      * apply (nullable_lang ic) in Ha. rewrite Ha in H1. discriminate.
      * now apply IHa.
    + destruct s as [|x s]; [now apply IHb | now apply IHa].
  - apply andb_true_iff in Hr as [Hr _]. now apply IHa.
  - apply andb_true_iff in Hr as [_ Hr]. now apply IHb.
  - exact I.
  - destruct s as [|x s]; [now apply IHt | now apply IHa].
Qed.

(** A match of a pattern begins with a character in [P] when its body
    can only begin with one. *)
Lemma re_match_first (p : Pattern) (P : char -> bool) (s : str) :
  never_empty (body p) = true ->
  first_opt (ignorecase p) P (body p) = true ->
  re_match p s = true ->
  exists x rest, s = x :: rest /\ P x = true.
Proof.
  intros Hne Hfirst H. apply re_match_lang in H.
  assert (Hm : forall m t, s = m ++ t -> lang (ignorecase p) (body p) m ->
                           exists x rest, s = x :: rest /\ P x = true).
  { intros m t -> Hm. pose proof (never_empty_sound _ _ _ Hne Hm) as Hnil.
    pose proof (first_opt_sound _ _ _ _ Hfirst Hm) as Hx.
    destruct m as [|x m]; [congruence|]. now exists x, (m ++ t). }
  destruct (dollar p).
  - destruct H as [H | (m & -> & H)].
    + apply (Hm s []); [now rewrite app_nil_r | exact H].
    + now apply (Hm m [newline]).
  - destruct H as (m & t & E & H). now apply (Hm m t).
Qed.

Lemma must_have_sound (ic : bool) (Q : char -> bool) (r : re) (s : str) :
  must_have ic Q r = true -> lang ic r s -> exists x, In x s /\ Q x = true.
Proof.
  intros Hr H. induction H as [|c x Hx|p x Hx|a b s t Ha IHa Hb IHb
                               |a b s Ha IHa|a b s Hb IHb|a|a s t Ha IHa Ht IHt];
    simpl in Hr; try discriminate.
  - exists x. split; [now left | now apply (test_implies_sound _ _ _ Hr)].
  - exists x. split; [now left | now apply (test_implies_sound _ _ _ Hr)].
  - apply orb_true_iff in Hr as [Hr | Hr].
    + destruct (IHa Hr) as (x & Hx & HQ). exists x. split; [|exact HQ].
      apply in_or_app. now left.
    + destruct (IHb Hr) as (x & Hx & HQ). exists x. split; [|exact HQ].
      apply in_or_app. now right.
  - apply andb_true_iff in Hr as [Hr _]. now apply IHa.
  - apply andb_true_iff in Hr as [_ Hr]. now apply IHb.
Qed.

(** A string none of whose characters is in [Q] is not matched by a
    pattern whose body needs one. *)
Lemma re_match_needs (p : Pattern) (Q : char -> bool) (s : str) :
  must_have (ignorecase p) Q (body p) = true ->
  forallb (fun x => negb (Q x)) s = true ->
  re_match p s = false.
Proof.
  intros Hq Hs. destruct (re_match p s) eqn:E; [|reflexivity]. exfalso.
  apply re_match_lang in E. rewrite forallb_forall in Hs.
  assert (Hm : forall m, lang (ignorecase p) (body p) m ->
                         (forall x, In x m -> In x s) -> False).
  { intros m Hm Hsub. destruct (must_have_sound _ _ _ _ Hq Hm) as (x & Hx & HQ).
    specialize (Hs x (Hsub x Hx)). rewrite HQ in Hs. discriminate. }
  destruct (dollar p).
  - destruct E as [E | (m & -> & E)].
    + now apply (Hm s).
    + apply (Hm m E). intros x Hx. apply in_or_app. now left.
  - destruct E as (m & t & -> & E). apply (Hm m E).
    intros x Hx. apply in_or_app. now left.
Qed.

Lemma accepts_prefix_app (ic : bool) (r : re) (m t : str) :
  accepts ic r m = true -> accepts_prefix ic r (m ++ t) = true.
Proof.
  intros H. apply accepts_prefix_lang. exists m, t. split; [reflexivity|].
  now apply accepts_lang.
Qed.

End MatchFacts.

(** X5. A bracketed address, [[g]] followed by an optional port, gives
    its bracket content [g], for every non-empty [g] without a closing
    bracket. *)
Theorem extract_host_bracketed (g port : str)
    (Hg : g <> []) (Hclose : char_in "]" g = false)
    (Hport : optional_port port) :
  extract_host_from_address (py "[" ++ g ++ py "]" ++ port) = Some g.
Proof.
  unfold extract_host_from_address.
  change (py "[" ++ g ++ py "]" ++ port) with ((Latin "[") :: g ++ (Latin "]") :: port).
  change (startswith (py "[") ((Latin "[") :: g ++ (Latin "]") :: port)) with true.
  cbv iota.
  assert (Hlang : lang false (Plus (Cls (fun c => negb (eqc c "]")))) g).
  { apply MatchFacts.plus_class_intro; [exact Hg|].
    apply forallb_forall. intros x Hx. apply negb_true_iff. apply eqc_false.
    intros ->. apply char_in_false in Hclose. contradiction. }
  rewrite (bracketed_group_is_group _ g port Hlang eq_refl); [reflexivity|].
  apply MatchFacts.re_match_whole; [reflexivity|].
  cbn [body ignorecase BRACKETED_PATTERN].
  apply (LCat false (Chr "[") _ [(Latin "[")] (g ++ (Latin "]") :: port)); [now constructor|].
  apply (LCat false _ _ g ((Latin "]") :: port)); [exact Hlang|].
  apply (LCat false (Chr "]") PORT [(Latin "]")] port); [now constructor|].
  now apply MatchFacts.port_lang.
Qed.

Lemma extract_host_bracketed_witness :
  py "::1" <> [] /\ char_in "]" (py "::1") = false /\ optional_port (py ":8080") /\
  extract_host_from_address (py "[" ++ py "::1" ++ py "]" ++ py ":8080")
  = Some (py "::1").
Proof.
  assert (Hport : optional_port (py ":8080")).
  { right. exists (py "8080"). repeat split. discriminate. }
  split; [discriminate|]. split; [reflexivity|]. split; [exact Hport|].
  apply (extract_host_bracketed (py "::1") (py ":8080")); [discriminate | reflexivity | exact Hport].
Defined.

(** * Dotted quads *)

Lemma octet_table : forallb octet_ok (map Z.of_nat (seq 0 256)) = true.
Proof. vm_compute. reflexivity. Qed.

Lemma octet_render (n : Z) :
  (0 <= n <= 255)%Z ->
  forallb is_ascii_digit (str_of_Z n) = true /\
  1 <= length (str_of_Z n) <= 3 /\
  parse_octet (str_of_Z n) = Return n.
Proof.
  intros Hn. pose proof octet_table as H. rewrite forallb_forall in H.
  specialize (H n). unfold octet_ok in H.
  assert (Hin : In n (map Z.of_nat (seq 0 256))).
  { replace n with (Z.of_nat (Z.to_nat n)) by lia. apply in_map, in_seq. lia. }
  apply H in Hin. clear H.
  apply andb_true_iff in Hin as [Hin Hparse].
  apply andb_true_iff in Hin as [Hin Hhi].
  apply andb_true_iff in Hin as [Hdigits Hlo].
  apply Nat.leb_le in Hlo, Hhi. split; [exact Hdigits|]. split; [lia|].
  destruct (parse_octet (str_of_Z n)) as [v|]; [|discriminate].
  apply Z.eqb_eq in Hparse. now subst.
Qed.

Lemma chars_exclude (P : char -> bool) (c : char) (s : str) :
  P c = false -> forallb P s = true -> char_in c s = false.
Proof.
  intros Hc Hs. apply char_in_false. intros Hin.
  rewrite forallb_forall in Hs. specialize (Hs c Hin). congruence.
Qed.

Lemma digits_exclude (c : char) (s : str) :
  is_ascii_digit c = false -> forallb is_ascii_digit s = true ->
  char_in c s = false.
Proof. apply chars_exclude. Qed.

Lemma dotted_chars (a b c d : Z) :
  (0 <= a <= 255)%Z -> (0 <= b <= 255)%Z -> (0 <= c <= 255)%Z -> (0 <= d <= 255)%Z ->
  forallb (fun x => is_ascii_digit x || eqc x ".") (dotted a b c d) = true.
Proof.
  intros Ha Hb Hc Hd.
  destruct (octet_render a Ha) as (Da & _). destruct (octet_render b Hb) as (Db & _).
  destruct (octet_render c Hc) as (Dc & _). destruct (octet_render d Hd) as (Dd & _).
  assert (Hw : forall s, forallb is_ascii_digit s = true ->
                         forallb (fun x => is_ascii_digit x || eqc x ".") s = true).
  { intros s Hs. rewrite forallb_forall in *. intros x Hx. now rewrite (Hs x Hx). }
  unfold dotted. rewrite !forallb_app, (Hw _ Da), (Hw _ Db), (Hw _ Dc), (Hw _ Dd).
  reflexivity.
Qed.

Lemma dotted_parse (a b c d : Z) :
  (0 <= a <= 255)%Z -> (0 <= b <= 255)%Z -> (0 <= c <= 255)%Z -> (0 <= d <= 255)%Z ->
  new_IPv4Address (dotted a b c d)
  = Return (((a * 256 + b) * 256 + c) * 256 + d)%Z.
Proof.
  intros Ha Hb Hc Hd.
  destruct (octet_render a Ha) as (Da & La & Pa).
  destruct (octet_render b Hb) as (Db & Lb & Pb).
  destruct (octet_render c Hc) as (Dc & Lc & Pc).
  destruct (octet_render d Hd) as (Dd & Ld & Pd).
  assert (Hslash : char_in "/" (dotted a b c d) = false).
  { apply (chars_exclude (fun x => is_ascii_digit x || eqc x "."));
      [reflexivity | now apply dotted_chars]. }
  assert (Hne : truthy (dotted a b c d) = true).
  { unfold dotted. destruct (str_of_Z a); [simpl in La; lia | reflexivity]. }
  unfold new_IPv4Address, v4_int_from_string. rewrite Hslash, Hne. cbn [negb].
  unfold dotted. change (py ".") with [(Latin ".")]. cbn [app].
  rewrite !split_app_sep by (apply digits_exclude; [reflexivity | assumption]).
  rewrite (split_no_sep "." (str_of_Z d))
    by (apply digits_exclude; [reflexivity | assumption]).
  cbn [length Nat.eqb negb octets_value]. rewrite Pa. cbn [PyExc.bind].
  rewrite Pb. cbn [PyExc.bind]. rewrite Pc. cbn [PyExc.bind].
  rewrite Pd. cbn [PyExc.bind]. f_equal.
Qed.

Lemma loopback_first_octet (a b c d : Z) :
  (0 <= a <= 255)%Z -> (0 <= b <= 255)%Z -> (0 <= c <= 255)%Z -> (0 <= d <= 255)%Z ->
  is_loopback (IPv4Address (((a * 256 + b) * 256 + c) * 256 + d)) = (a =? 127)%Z.
Proof.
  intros Ha Hb Hc Hd.
  assert (Hr : (0 <= ((a * 256 + b) * 256 + c) * 256 + d < 2 ^ 32)%Z).
  { change (2 ^ 32)%Z with 4294967296%Z. lia. }
  pose proof (loopback_v4_range _ Hr) as Hiff. unfold in_loopback_range in Hiff.
  change (2 ^ 24)%Z with 16777216%Z in Hiff.
  destruct (is_loopback _) eqn:E, (a =? 127)%Z eqn:Ea; try reflexivity.
  - apply Z.eqb_neq in Ea. assert (H : true = true) by reflexivity.
    apply Hiff in H. lia.
  - apply Z.eqb_eq in Ea.
    assert (H : false = true); [|discriminate]. apply Hiff. lia.
Qed.

Lemma dotted_first_digit (a b c d : Z) :
  (0 <= a <= 255)%Z ->
  exists x rest, dotted a b c d = x :: rest /\ is_ascii_digit x = true.
Proof.
  intros Ha. destruct (octet_render a Ha) as (Da & La & _).
  unfold dotted. destruct (str_of_Z a) as [|x sa]; [simpl in La; lia|].
  simpl in Da. apply andb_true_iff in Da as [Dx _].
  eexists. eexists. split; [reflexivity | exact Dx].
Qed.

Lemma digit_first_not_hostname (s : str) :
  (exists x rest, s = x :: rest /\ is_ascii_digit x = true) ->
  ~ lower s ∈ LOOPBACK_HOSTNAMES.
Proof.
  intros (x & rest & -> & Hx) Hin. unfold LOOPBACK_HOSTNAMES in Hin.
  assert (Hlow : uni_tolower x = x).
  { each_char x; try discriminate Hx; reflexivity. }
  cbn [lower map] in Hin. rewrite Hlow in Hin.
  rewrite !elem_of_union, !elem_of_singleton in Hin.
  destruct Hin as [[[Hin | Hin] | Hin] | Hin];
    injection Hin as -> _; discriminate Hx.
Qed.

Lemma strip_unbracketed_chars (P : char -> bool) (s : str) :
  P (Latin "[") = false -> P (Latin "]") = false -> forallb P s = true ->
  strip (py "[]") s = s.
Proof.
  intros Hl Hr Hs. rewrite forallb_forall in Hs.
  apply strip_no_brackets; apply char_in_false; intros Hin;
    specialize (Hs _ Hin); congruence.
Qed.

(** X6. On a dotted quad of four octets written in decimal, the loopback
    test and the host policy both answer whether the first octet is
    127. *)
Theorem dotted_quad_loopback (a b c d : Z)
    (Ha : (0 <= a <= 255)%Z) (Hb : (0 <= b <= 255)%Z)
    (Hc : (0 <= c <= 255)%Z) (Hd : (0 <= d <= 255)%Z) :
  is_loopback_address (dotted a b c d) = (a =? 127)%Z /\
  is_allowed_host (dotted a b c d) = (a =? 127)%Z.
Proof.
  assert (Hl : is_loopback_address (dotted a b c d) = (a =? 127)%Z).
  { unfold is_loopback_address, ip_address.
    rewrite (dotted_parse a b c d Ha Hb Hc Hd).
    now apply loopback_first_octet. }
  split; [exact Hl|]. unfold is_allowed_host.
  rewrite (strip_unbracketed_chars (fun x => is_ascii_digit x || eqc x "."))
    by (reflexivity || now apply dotted_chars).
  rewrite bool_decide_eq_false_2; [exact Hl|].
  apply digit_first_not_hostname. now apply dotted_first_digit.
Qed.

Lemma dotted_quad_loopback_witness :
  (0 <= 127 <= 255)%Z /\ (0 <= 255 <= 255)%Z /\
  is_loopback_address (dotted 127 255 255 255) = (127 =? 127)%Z.
Proof.
  split; [lia|]. split; [lia|].
  apply (dotted_quad_loopback 127 255 255 255); lia.
Defined.

(** * Tokens that are IPv4 literals *)

Lemma url_first_letter (s : str) :
  re_match URL_PATTERN s = true ->
  exists x rest, s = x :: rest /\ scheme_initial x = true.
Proof.
  apply MatchFacts.re_match_first; vm_compute; reflexivity.
Qed.

Lemma not_url (P : char -> bool) (x : char) (rest : str) :
  test_implies P (fun c => negb (scheme_initial c)) = true ->
  P x = true -> re_match URL_PATTERN (x :: rest) = false.
Proof.
  intros HP Hx. destruct (re_match URL_PATTERN (x :: rest)) eqn:E; [|reflexivity].
  destruct (url_first_letter _ E) as (y & rest' & [= <- <-] & Hy).
  pose proof (MatchFacts.test_implies_sound _ _ x HP Hx) as Hn.
  cbv beta in Hn. rewrite Hy in Hn. discriminate.
Qed.

Lemma digits_range (s : str) :
  forallb is_ascii_digit s = true -> 1 <= length s <= 3 ->
  lang false (Range 1 3 Digit) s.
Proof.
  intros Hs Hlen.
  assert (Hd : forall x, is_ascii_digit x = true -> lang false Digit [x]).
  { intros x Hx. now constructor. }
  destruct s as [|x [|y [|z [|w s]]]]; simpl in Hlen; try lia; simpl in Hs;
    repeat match goal with H : _ && _ = true |- _ => apply andb_true_iff in H as [? H] end.
  - apply (LCat false (Rep 1 Digit) (UpTo 2 Digit) [x] []).
    + apply (LCat false Digit Eps [x] []); [now apply Hd | constructor].
    + apply LAltR. constructor.
  - apply (LCat false (Rep 1 Digit) (UpTo 2 Digit) [x] [y]).
    + apply (LCat false Digit Eps [x] []); [now apply Hd | constructor].
    + apply LAltL. apply (LCat false Digit (UpTo 1 Digit) [y] []); [now apply Hd|].
      apply LAltR. constructor.
  - apply (LCat false (Rep 1 Digit) (UpTo 2 Digit) [x] [y; z]).
    + apply (LCat false Digit Eps [x] []); [now apply Hd | constructor].
    + apply LAltL. apply (LCat false Digit (UpTo 1 Digit) [y] [z]); [now apply Hd|].
      apply LAltL. apply (LCat false Digit Eps [z] []); [now apply Hd | constructor].
Qed.

Lemma ipv4_pattern_matches (sa sb sc sd port : str) :
  lang false (Range 1 3 Digit) sa -> lang false (Range 1 3 Digit) sb ->
  lang false (Range 1 3 Digit) sc -> lang false (Range 1 3 Digit) sd ->
  optional_port port ->
  re_match IPV4_PATTERN
    ((sa ++ py "." ++ sb ++ py "." ++ sc ++ py "." ++ sd) ++ port) = true.
Proof.
  intros Ha Hb Hc Hd Hport. apply MatchFacts.re_match_whole; [reflexivity|].
  cbn [body ignorecase IPV4_PATTERN].
  replace ((sa ++ py "." ++ sb ++ py "." ++ sc ++ py "." ++ sd) ++ port)
    with (((sa ++ py ".") ++ (sb ++ py ".") ++ (sc ++ py ".") ++ []) ++ sd ++ port)
    by (rewrite app_nil_r, <- !app_assoc; reflexivity).
  assert (Hgroup : forall s, lang false (Range 1 3 Digit) s ->
                             lang false (Cat (Range 1 3 Digit) (Chr ".")) (s ++ py ".")).
  { intros s Hs. constructor; [exact Hs | now constructor]. }
  constructor.
  - cbn [Rep]. constructor; [now apply Hgroup|].
    constructor; [now apply Hgroup|]. constructor; [now apply Hgroup | constructor].
  - constructor; [exact Hd | now apply MatchFacts.port_lang].
Qed.

Lemma ascii_digits_isdigit (d : str) :
  d <> [] -> forallb is_ascii_digit d = true -> isdigit d = true.
Proof.
  intros Hne Hd. destruct d as [|x d]; [congruence|]. unfold isdigit.
  rewrite forallb_forall in *. intros y Hy. unfold uni_isdigit.
  now rewrite (Hd y Hy).
Qed.

(** The host of an address made of [host], free of colons and brackets,
    and an optional port. *)
Lemma extract_host_with_port (host port : str) :
  char_in ":" host = false -> startswith (py "[") (host ++ port) = false ->
  optional_port port ->
  extract_host_from_address (host ++ port) = Some host.
Proof.
  intros Hcolon Hopen [-> | (d & -> & Hne & Hd)].
  - rewrite app_nil_r in *. unfold extract_host_from_address.
    now rewrite Hopen, Hcolon.
  - rewrite extract_address_last_colon.
    + now rewrite (ascii_digits_isdigit d Hne Hd).
    + exact Hopen.
    + now apply (digits_exclude ":").
Qed.

Lemma dotted_token (a b c d : Z) (port : str) :
  (0 <= a <= 255)%Z -> (0 <= b <= 255)%Z -> (0 <= c <= 255)%Z -> (0 <= d <= 255)%Z ->
  optional_port port ->
  re_match URL_PATTERN (dotted a b c d ++ port) = false /\
  re_match IPV4_PATTERN (dotted a b c d ++ port) = true /\
  extract_host_from_address (dotted a b c d ++ port) = Some (dotted a b c d) /\
  startswith (py "-") (dotted a b c d ++ port) = false.
Proof.
  intros Ha Hb Hc Hd Hport.
  destruct (dotted_first_digit a b c d Ha) as (x & rest & E & Hx).
  split; [|split; [|split]].
  - rewrite E. cbn [app].
    apply (not_url is_ascii_digit); [vm_compute; reflexivity | exact Hx].
  - unfold dotted.
    destruct (octet_render a Ha) as (Da & La & _).
    destruct (octet_render b Hb) as (Db & Lb & _).
    destruct (octet_render c Hc) as (Dc & Lc & _).
    destruct (octet_render d Hd) as (Dd & Ld & _).
    apply ipv4_pattern_matches; try assumption; now apply digits_range.
  - apply extract_host_with_port; [| |exact Hport].
    + apply (chars_exclude (fun x => is_ascii_digit x || eqc x "."));
        [reflexivity | now apply dotted_chars].
    + rewrite E. cbn [app py map list_ascii_of_string startswith].
      replace (eqc "[" x) with false; [reflexivity|].
      symmetry. apply eqc_false. intros <-. discriminate Hx.
  - rewrite E. cbn [app py map list_ascii_of_string startswith].
    replace (eqc "-" x) with false; [reflexivity|].
    symmetry. apply eqc_false. intros <-. discriminate Hx.
Qed.

Lemma dotted_allowed (a b c d : Z) :
  (0 <= a <= 255)%Z -> (0 <= b <= 255)%Z -> (0 <= c <= 255)%Z -> (0 <= d <= 255)%Z ->
  is_allowed_host (dotted a b c d) = (a =? 127)%Z.
Proof.
  intros Ha Hb Hc Hd. unfold is_allowed_host.
  rewrite (strip_unbracketed_chars (fun x => is_ascii_digit x || eqc x "."))
    by (reflexivity || now apply dotted_chars).
  rewrite bool_decide_eq_false_2.
  - unfold is_loopback_address, ip_address.
    rewrite (dotted_parse a b c d Ha Hb Hc Hd). now apply loopback_first_octet.
  - apply digit_first_not_hostname. now apply dotted_first_digit.
Qed.

(** X7. A token that is a dotted quad of four decimal octets, with or
    without a port, is judged as an IPv4 literal: it passes when its
    first octet is 127 and is denied otherwise, with the whole token in
    the reason. *)
Theorem ipv4_token_verdict (a b c d : Z) (port : str)
    (Ha : (0 <= a <= 255)%Z) (Hb : (0 <= b <= 255)%Z)
    (Hc : (0 <= c <= 255)%Z) (Hd : (0 <= d <= 255)%Z)
    (Hport : optional_port port) :
  check_token (dotted a b c d ++ port)
  = if (a =? 127)%Z then None
    else Some (py "IPv4 address is not loopback: " ++ dotted a b c d ++ port).
Proof.
  destruct (dotted_token a b c d port Ha Hb Hc Hd Hport) as (Hu & H4 & Hx & Hf).
  unfold check_token, flag_value. rewrite Hf. unfold check_arg.
  rewrite Hu, H4, Hx. unfold host_denied.
  rewrite (dotted_allowed a b c d Ha Hb Hc Hd).
  destruct (dotted_first_digit a b c d Ha) as (x & rest & E & _).
  rewrite E at 1. cbn [truthy andb]. now destruct (a =? 127)%Z.
Qed.

Lemma ipv4_token_verdict_witness :
  (0 <= 192 <= 255)%Z /\ (0 <= 168 <= 255)%Z /\ (0 <= 1 <= 255)%Z /\
  optional_port (py ":8080") /\
  check_token (dotted 192 168 1 1 ++ py ":8080")
  = if (192 =? 127)%Z then None
    else Some (py "IPv4 address is not loopback: " ++ dotted 192 168 1 1 ++ py ":8080").
Proof.
  assert (Hport : optional_port (py ":8080")).
  { right. exists (py "8080"). repeat split. discriminate. }
  split; [lia|]. split; [lia|]. split; [lia|]. split; [exact Hport|].
  apply (ipv4_token_verdict 192 168 1 1 (py ":8080")); (lia || exact Hport).
Defined.

(** * Tokens that are IPv6-shaped *)

Lemma forallb_weaken (P Q : char -> bool) (s : str) :
  test_implies P Q = true -> forallb P s = true -> forallb Q s = true.
Proof.
  intros HPQ Hs. rewrite forallb_forall in *. intros x Hx.
  exact (MatchFacts.test_implies_sound P Q x HPQ (Hs x Hx)).
Qed.

Lemma hostname_first_letter (s : str) :
  lower s ∈ LOOPBACK_HOSTNAMES ->
  exists x rest, s = x :: rest /\ hostname_initial x = true.
Proof.
  unfold LOOPBACK_HOSTNAMES. rewrite !elem_of_union, !elem_of_singleton.
  destruct s as [|x rest]; [intros [[[H | H] | H] | H]; discriminate H|].
  intros H. exists x, rest. split; [reflexivity|]. unfold hostname_initial.
  cbn [lower map] in H.
  destruct H as [[[H | H] | H] | H]; injection H as Hx _; rewrite Hx; reflexivity.
Qed.

Lemma not_hostname (P : char -> bool) (x : char) (rest : str) :
  test_implies P (fun c => negb (hostname_initial c)) = true ->
  P x = true -> ~ lower (x :: rest) ∈ LOOPBACK_HOSTNAMES.
Proof.
  intros HP Hx Hin.
  destruct (hostname_first_letter _ Hin) as (y & rest' & [= <- <-] & Hy).
  pose proof (MatchFacts.test_implies_sound _ _ x HP Hx) as Hn.
  cbv beta in Hn. rewrite Hy in Hn. discriminate.
Qed.

(** Tokens whose characters all lie in the class of [IPV6_PATTERN] are
    neither URLs nor IPv4 literals, and have the IPv6 shape. *)
Lemma hex_colon_shape (s : str) :
  s <> [] -> forallb hex_or_colon s = true ->
  re_match URL_PATTERN s = false /\
  re_match IPV4_PATTERN s = false /\
  re_match IPV6_PATTERN s = true /\
  startswith (py "-") s = false /\
  startswith (py "[") s = false.
Proof.
  intros Hne Hs. split; [|split; [|split; [|split]]].
  - apply (MatchFacts.re_match_needs URL_PATTERN letter_t); [vm_compute; reflexivity|].
    apply (forallb_weaken hex_or_colon); [vm_compute; reflexivity | exact Hs].
  - apply (MatchFacts.re_match_needs IPV4_PATTERN (fun x => eqc x "."));
      [vm_compute; reflexivity|].
    apply (forallb_weaken hex_or_colon); [vm_compute; reflexivity | exact Hs].
  - apply MatchFacts.re_match_whole; [reflexivity|].
    cbn [body ignorecase IPV6_PATTERN].
    replace s with ([] ++ s ++ [] ++ []) by (rewrite !app_nil_r; reflexivity).
    constructor; [apply LAltR; constructor|].
    constructor; [now apply MatchFacts.plus_class_intro|].
    constructor; [apply LAltR; constructor | apply LAltR; constructor].
  - destruct s as [|x s]; [congruence|]. simpl in Hs.
    apply andb_true_iff in Hs as [Hx _]. cbn [py map list_ascii_of_string startswith].
    replace (eqc "-" x) with false; [reflexivity|].
    symmetry. apply eqc_false. intros <-. discriminate Hx.
  - destruct s as [|x s]; [congruence|]. simpl in Hs.
    apply andb_true_iff in Hs as [Hx _]. cbn [py map list_ascii_of_string startswith].
    replace (eqc "[" x) with false; [reflexivity|].
    symmetry. apply eqc_false. intros <-. discriminate Hx.
Qed.

Lemma hex_word_not_allowed (w : str) :
  w <> [] -> forallb is_hex_digit w = true -> is_allowed_host w = false.
Proof.
  intros Hne Hw. unfold is_allowed_host.
  rewrite (strip_unbracketed_chars is_hex_digit) by (reflexivity || exact Hw).
  assert (Hno : forall c, is_hex_digit c = false -> char_in c w = false).
  { intros c Hc. now apply (chars_exclude is_hex_digit). }
  rewrite bool_decide_eq_false_2.
  - unfold is_loopback_address, ip_address, new_IPv4Address, new_IPv6Address,
      v4_int_from_string, split_scope_id, v6_int_from_string.
    rewrite (Hno (Latin "/") eq_refl).
    assert (Ht : truthy w = true) by (destruct w; [congruence | reflexivity]).
    rewrite Ht. cbn [negb].
    rewrite (split_no_sep "." w (Hno (Latin ".") eq_refl)). cbn [length Nat.eqb negb].
    rewrite (partition_none "%" w (Hno (Latin "%") eq_refl)). cbn [PyExc.bind fst snd].
    rewrite Ht. cbn [negb].
    rewrite (split_no_sep ":" w (Hno (Latin ":") eq_refl)). reflexivity.
  - destruct w as [|x w]; [congruence|]. simpl in Hw.
    apply andb_true_iff in Hw as [Hx _].
    apply (not_hostname is_hex_digit); [vm_compute; reflexivity | exact Hx].
Qed.

(** X8. A bare word made only of hexadecimal digits, such as a number or
    [add], has the shape of [IPV6_PATTERN] and is always denied. *)
Theorem hex_word_always_denied (w : str)
    (Hne : w <> []) (Hw : forallb is_hex_digit w = true) :
  check_token w = Some (py "IPv6 address is not loopback: " ++ w).
Proof.
  assert (Hs : forallb hex_or_colon w = true).
  { apply (forallb_weaken is_hex_digit); [vm_compute; reflexivity | exact Hw]. }
  destruct (hex_colon_shape w Hne Hs) as (Hu & H4 & H6 & Hf & Hb).
  unfold check_token, flag_value. rewrite Hf. unfold check_arg. rewrite Hu, H4, H6.
  unfold extract_host_from_address. rewrite Hb.
  rewrite (chars_exclude is_hex_digit ":" w eq_refl Hw).
  unfold host_denied. rewrite (hex_word_not_allowed w Hne Hw).
  destruct w; [congruence | reflexivity].
Qed.

Lemma hex_word_always_denied_witness :
  py "1234" <> [] /\ forallb is_hex_digit (py "1234") = true /\
  check_token (py "1234") = Some (py "IPv6 address is not loopback: " ++ py "1234").
Proof.
  split; [discriminate|]. split; [reflexivity|].
  apply (hex_word_always_denied (py "1234")); [discriminate | reflexivity].
Defined.

(** X9. A bare token of hexadecimal digits and colons that ends in a
    colon and decimal digits is judged as IPv6 on what precedes its last
    colon: it is denied exactly when that part is not empty and is not
    an allowed host. *)
Theorem bare_ipv6_token_verdict (a d : str)
    (Ha : forallb hex_or_colon a = true)
    (Hne : d <> []) (Hd : forallb is_ascii_digit d = true) :
  check_token (a ++ py ":" ++ d)
  = if truthy a && negb (is_allowed_host a)
    then Some (py "IPv6 address is not loopback: " ++ a ++ py ":" ++ d)
    else None.
Proof.
  assert (Hs : forallb hex_or_colon (a ++ py ":" ++ d) = true).
  { rewrite !forallb_app, Ha. cbn [py map list_ascii_of_string forallb andb].
    change (hex_or_colon ":") with true. cbn [andb].
    apply (forallb_weaken is_ascii_digit); [vm_compute; reflexivity | exact Hd]. }
  assert (Hnil : a ++ py ":" ++ d <> []) by (destruct a; discriminate).
  destruct (hex_colon_shape _ Hnil Hs) as (Hu & H4 & H6 & Hf & Hb).
  unfold check_token, flag_value. rewrite Hf. unfold check_arg. rewrite Hu, H4, H6.
  rewrite (extract_address_last_colon a d Hb (digits_exclude ":" d eq_refl Hd)).
  rewrite (ascii_digits_isdigit d Hne Hd). reflexivity.
Qed.

Lemma bare_ipv6_token_verdict_witness :
  forallb hex_or_colon (py ":") = true /\ py "1" <> [] /\
  forallb is_ascii_digit (py "1") = true /\
  check_token (py ":" ++ py ":" ++ py "1")
  = if truthy (py ":") && negb (is_allowed_host (py ":"))
    then Some (py "IPv6 address is not loopback: " ++ py ":" ++ py ":" ++ py "1")
    else None.
Proof.
  split; [reflexivity|]. split; [discriminate|]. split; [reflexivity|].
  apply (bare_ipv6_token_verdict (py ":") (py "1")); [reflexivity | discriminate | reflexivity].
Defined.

Lemma extract_bracketed (g port : str) :
  g <> [] -> char_in "]" g = false -> optional_port port ->
  extract_host_from_address (py "[" ++ g ++ py "]" ++ port) = Some g /\
  lang false (Plus (Cls (fun c => negb (eqc c "]")))) g.
Proof.
  intros Hg Hclose Hport.
  assert (Hlang : lang false (Plus (Cls (fun c => negb (eqc c "]")))) g).
  { apply MatchFacts.plus_class_intro; [exact Hg|].
    apply forallb_forall. intros x Hx. apply negb_true_iff. apply eqc_false.
    intros ->. apply char_in_false in Hclose. contradiction. }
  split; [|exact Hlang]. unfold extract_host_from_address.
  change (py "[" ++ g ++ py "]" ++ port) with ((Latin "[") :: g ++ (Latin "]") :: port).
  change (startswith (py "[") ((Latin "[") :: g ++ (Latin "]") :: port)) with true.
  cbv iota.
  rewrite (bracketed_group_is_group _ g port Hlang eq_refl); [reflexivity|].
  apply MatchFacts.re_match_whole; [reflexivity|].
  cbn [body ignorecase BRACKETED_PATTERN].
  apply (LCat false (Chr "[") _ [(Latin "[")] (g ++ (Latin "]") :: port)); [now constructor|].
  apply (LCat false _ _ g ((Latin "]") :: port)); [exact Hlang|].
  apply (LCat false (Chr "]") PORT [(Latin "]")] port); [now constructor|].
  now apply MatchFacts.port_lang.
Qed.

Lemma optional_port_chars (port : str) :
  optional_port port -> forallb hex_or_colon port = true.
Proof.
  intros [-> | (d & -> & _ & Hd)]; [reflexivity|].
  cbn [py map list_ascii_of_string app forallb]. change (hex_or_colon ":") with true.
  cbn [andb]. apply (forallb_weaken is_ascii_digit); [vm_compute; reflexivity | exact Hd].
Qed.

(** X10. A token [[g]] with an optional port, where [g] is a non-empty
    run of hexadecimal digits and colons, is judged as IPv6 on [g]: it
    passes exactly when [g] is an allowed host. *)
Theorem bracketed_ipv6_token_verdict (g port : str)
    (Hne : g <> []) (Hg : forallb hex_or_colon g = true)
    (Hport : optional_port port) :
  check_token (py "[" ++ g ++ py "]" ++ port)
  = if is_allowed_host g then None
    else Some (py "IPv6 address is not loopback: " ++ py "[" ++ g ++ py "]" ++ port).
Proof.
  assert (Hclose : char_in "]" g = false)
    by now apply (chars_exclude hex_or_colon).
  destruct (extract_bracketed g port Hne Hclose Hport) as [Hx _].
  assert (Hchars : forallb bracket_token_char (py "[" ++ g ++ py "]" ++ port) = true).
  { rewrite !forallb_app.
    rewrite (forallb_weaken hex_or_colon bracket_token_char g);
      [|vm_compute; reflexivity | exact Hg].
    rewrite (forallb_weaken hex_or_colon bracket_token_char port);
      [|vm_compute; reflexivity | now apply optional_port_chars].
    reflexivity. }
  assert (Hu : re_match URL_PATTERN (py "[" ++ g ++ py "]" ++ port) = false).
  { apply (not_url (fun c => eqc c "[")); [vm_compute; reflexivity | reflexivity]. }
  assert (H4 : re_match IPV4_PATTERN (py "[" ++ g ++ py "]" ++ port) = false).
  { apply (MatchFacts.re_match_needs IPV4_PATTERN (fun x => eqc x "."));
      [vm_compute; reflexivity|].
    apply (forallb_weaken bracket_token_char); [vm_compute; reflexivity | exact Hchars]. }
  assert (H6 : re_match IPV6_PATTERN (py "[" ++ g ++ py "]" ++ port) = true).
  { apply MatchFacts.re_match_whole; [reflexivity|].
    cbn [body ignorecase IPV6_PATTERN].
    constructor; [apply LAltL; now constructor|].
    constructor; [now apply MatchFacts.plus_class_intro|].
    constructor; [apply LAltL; now constructor | now apply MatchFacts.port_lang]. }
  unfold check_token, flag_value.
  change (startswith (py "-") (py "[" ++ g ++ py "]" ++ port)) with false.
  cbv iota. unfold check_arg. rewrite Hu, H4, H6, Hx. unfold host_denied.
  destruct g; [congruence|]. cbn [truthy andb]. now destruct (is_allowed_host _).
Qed.

Lemma bracketed_ipv6_token_verdict_witness :
  py "::1" <> [] /\ forallb hex_or_colon (py "::1") = true /\
  optional_port (py ":8080") /\
  check_token (py "[" ++ py "::1" ++ py "]" ++ py ":8080")
  = if is_allowed_host (py "::1") then None
    else Some (py "IPv6 address is not loopback: " ++ py "[" ++ py "::1" ++ py "]" ++ py ":8080").
Proof.
  assert (Hport : optional_port (py ":8080")).
  { right. exists (py "8080"). repeat split. discriminate. }
  split; [discriminate|]. split; [reflexivity|]. split; [exact Hport|].
  apply (bracketed_ipv6_token_verdict (py "::1") (py ":8080"));
    [discriminate | reflexivity | exact Hport].
Defined.

(** * Tokens that are URLs *)

Lemma remove_char_app (c : char) (a b : str) :
  remove_char c (a ++ b) = remove_char c a ++ remove_char c b.
Proof. unfold remove_char. apply List.filter_app. Qed.

Lemma remove_char_id (c : char) (s : str) :
  char_in c s = false -> remove_char c s = s.
Proof.
  induction s as [|x s IH]; intros H; [reflexivity|].
  rewrite char_in_cons in H. apply orb_false_iff in H as [Hx Hs].
  unfold remove_char in *. cbn [List.filter]. rewrite eqc_sym, Hx. cbn [negb].
  now rewrite (IH Hs).
Qed.

Lemma char_in_rev (c : char) (s : str) : char_in c (rev s) = char_in c s.
Proof.
  destruct (char_in c s) eqn:E.
  - unfold char_in in *. apply existsb_exists in E as (x & Hx & Hc).
    apply existsb_exists. exists x. split; [now apply in_rev in Hx | exact Hc].
  - apply char_in_false. apply char_in_false in E. intros H. apply E.
    now apply in_rev.
Qed.

Lemma rpart_after_none (c : char) (s : str) :
  char_in c s = false -> rpart_after c s = s.
Proof.
  intros H. unfold rpart_after, str_rpartition.
  now rewrite partition_none by now rewrite char_in_rev.
Qed.

Lemma takewhile_stop (p : char -> bool) (a b : str) :
  forallb p a = true ->
  match b with [] => True | x :: _ => p x = false end ->
  takewhile p (a ++ b) = a.
Proof.
  intros Ha Hb. induction a as [|x a IH].
  - destruct b as [|y b]; [reflexivity|]. simpl. now rewrite Hb.
  - simpl in Ha. apply andb_true_iff in Ha as [Hx Ha]. simpl. rewrite Hx.
    now rewrite (IH Ha).
Qed.

Lemma host_chars_exclude (c : char) (s : str) :
  host_char c = false -> forallb host_char s = true -> char_in c s = false.
Proof. apply chars_exclude. Qed.

Lemma optional_port_no (c : char) (port : str) :
  hex_or_colon c = false -> optional_port port -> char_in c port = false.
Proof.
  intros Hc Hport. apply (chars_exclude hex_or_colon); [exact Hc|].
  now apply optional_port_chars.
Qed.

(** The authority of a URL with a plain host, and the host name
    [urlparse] reads in it. *)
Lemma plain_netloc_hostname (host port : str) :
  host <> [] -> forallb host_char host = true -> optional_port port ->
  hostname (host ++ port) = Some (lower host).
Proof.
  intros Hne Hhost Hport.
  assert (Hno : forall c, host_char c = false -> hex_or_colon c = false ->
                          char_in c (host ++ port) = false).
  { intros c H1 H2. rewrite char_in_app, (host_chars_exclude c host H1 Hhost).
    now rewrite (optional_port_no c port H2 Hport). }
  unfold hostname. rewrite (rpart_after_none "@") by now apply Hno.
  rewrite (partition_none "[") by now apply Hno.
  assert (Hcut : part_before ":" (host ++ port) = host).
  { unfold part_before. destruct Hport as [-> | (d & -> & _ & _)].
    - rewrite app_nil_r, partition_none; [reflexivity|].
      now apply host_chars_exclude.
    - change (py ":" ++ d) with ((Latin ":") :: d).
      rewrite partition_first; [reflexivity | now apply host_chars_exclude]. }
  rewrite Hcut.
  assert (Ht : truthy host = true) by (destruct host; [congruence | reflexivity]).
  rewrite Ht. cbn [negb].
  rewrite (partition_none "%"); [reflexivity | now apply host_chars_exclude].
Qed.

Lemma plain_url_netloc (scheme host port rest : str) :
  scheme_ok scheme = true ->
  host <> [] -> forallb host_char host = true ->
  optional_port port -> optional_path rest ->
  urlsplit_netloc (scheme ++ py "://" ++ host ++ port ++ rest)
  = Return (host ++ port).
Proof.
  intros Hscheme Hne Hhost Hport Hrest.
  destruct scheme as [|x scheme']; [discriminate|].
  unfold scheme_ok in Hscheme.
  apply andb_true_iff in Hscheme as [Hscheme _].
  apply andb_true_iff in Hscheme as [Hscheme Hhc].
  apply andb_true_iff in Hscheme as [Hscheme Hsc].
  apply andb_true_iff in Hscheme as [Hctl Halpha].
  apply negb_true_iff in Hctl.
  set (scheme := x :: scheme') in *.
  assert (Hclean : forall c, In c [tab; cr; newline] ->
            remove_char c (scheme ++ py "://" ++ host ++ port ++ rest)
            = scheme ++ py "://" ++ host ++ port ++ remove_char c rest).
  { intros c Hc.
    assert (Hcc : host_char c = false /\ hex_or_colon c = false /\
                  remove_char c (py "://") = py "://").
    { destruct Hc as [<- | [<- | [<- | []]]]; repeat split. }
    destruct Hcc as (H1 & H2 & H3).
    rewrite !remove_char_app, H3.
    rewrite (remove_char_id c scheme) by now apply host_chars_exclude.
    rewrite (remove_char_id c host) by now apply host_chars_exclude.
    rewrite (remove_char_id c port) by now apply optional_port_no.
    reflexivity. }
  assert (Hpath : forall c r, In c [tab; cr; newline] ->
                    optional_path r -> optional_path (remove_char c r)).
  { intros c r Hc [-> | (p & ->)]; [now left|]. right.
    exists (remove_char c p). rewrite remove_char_app. f_equal.
    destruct Hc as [<- | [<- | [<- | []]]]; reflexivity. }
  unfold urlsplit_netloc.
  assert (Hdrop : forall t, dropwhile (fun c => (ord c <=? 32)%N) (scheme ++ t)
                            = scheme ++ t).
  { intros t. unfold scheme in *. cbn [app dropwhile]. now rewrite Hctl. }
  rewrite Hdrop.
  rewrite (Hclean tab) by (simpl; auto).
  assert (Hc2 : forall r, remove_char cr (scheme ++ py "://" ++ host ++ port ++ r)
                          = scheme ++ py "://" ++ host ++ port ++ remove_char cr r).
  { intros r. rewrite !remove_char_app.
    rewrite (remove_char_id cr scheme) by now apply host_chars_exclude.
    rewrite (remove_char_id cr host) by now apply host_chars_exclude.
    rewrite (remove_char_id cr port) by now apply optional_port_no.
    reflexivity. }
  assert (Hc3 : forall r, remove_char newline (scheme ++ py "://" ++ host ++ port ++ r)
                          = scheme ++ py "://" ++ host ++ port ++ remove_char newline r).
  { intros r. rewrite !remove_char_app.
    rewrite (remove_char_id newline scheme) by now apply host_chars_exclude.
    rewrite (remove_char_id newline host) by now apply host_chars_exclude.
    rewrite (remove_char_id newline port) by now apply optional_port_no.
    reflexivity. }
  rewrite Hc2, Hc3.
  set (rest' := remove_char newline (remove_char cr (remove_char tab rest))).
  assert (Hrest' : optional_path rest').
  { unfold rest'. apply Hpath; [simpl; auto|]. apply Hpath; [simpl; auto|].
    apply Hpath; [simpl; auto | exact Hrest]. }
  change (py "://" ++ host ++ port ++ rest')
    with ((Latin ":") :: py "//" ++ host ++ port ++ rest').
  rewrite partition_first by now apply host_chars_exclude.
  assert (Hcond : truthy scheme && is_ascii_alpha (hd (Latin " ") scheme)
                  && forallb scheme_char scheme = true).
  { unfold scheme in *. cbn [truthy hd]. now rewrite Halpha, Hsc. }
  rewrite Hcond.
  change (startswith (py "//") (py "//" ++ host ++ port ++ rest')) with true.
  cbv iota. change (skipn 2 (py "//" ++ host ++ port ++ rest'))
    with (host ++ port ++ rest').
  assert (Hnet : takewhile (fun c => negb (char_in c (py "/?#"))) (host ++ port ++ rest')
                 = host ++ port).
  { rewrite app_assoc. apply takewhile_stop.
    - rewrite forallb_app.
      rewrite (forallb_weaken host_char _ host);
        [|vm_compute; reflexivity | exact Hhost].
      rewrite (forallb_weaken hex_or_colon _ port);
        [|vm_compute; reflexivity | now apply optional_port_chars].
      reflexivity.
    - destruct Hrest' as [-> | (p & ->)]; [exact I | reflexivity]. }
  rewrite Hnet.
  assert (Hno : forall c, host_char c = false -> hex_or_colon c = false ->
                          char_in c (host ++ port) = false).
  { intros c H1 H2. rewrite char_in_app, (host_chars_exclude c host H1 Hhost).
    now rewrite (optional_port_no c port H2 Hport). }
  rewrite (Hno (Latin "[") eq_refl eq_refl), (Hno (Latin "]") eq_refl eq_refl).
  reflexivity.
Qed.

Lemma known_scheme_ok (scheme : str) :
  In scheme known_schemes -> scheme_ok scheme = true.
Proof.
  intros [<- | [<- | [<- | [<- | []]]]]; vm_compute; reflexivity.
Qed.

(** X11. For a URL made of one of the schemes [http], [https], [ftp],
    [ftps], a non-empty host of letters, digits, dots and hyphens, an
    optional port and an optional path, the host extracted is the host in
    lowercase, and the token passes exactly when that host is allowed;
    a denial quotes the whole URL. *)
Theorem plain_url_verdict (scheme host port rest : str)
    (Hscheme : In scheme known_schemes)
    (Hne : host <> []) (Hhost : forallb host_char host = true)
    (Hport : optional_port port) (Hrest : optional_path rest) :
  let url := scheme ++ py "://" ++ host ++ port ++ rest in
  extract_host_from_url url = Some (lower host) /\
  check_token url
  = if is_allowed_host (lower host) then None
    else Some (py "URL contains non-loopback host: " ++ url).
Proof.
  cbv zeta. pose proof (known_scheme_ok scheme Hscheme) as Hok.
  assert (Hx : extract_host_from_url (scheme ++ py "://" ++ host ++ port ++ rest)
               = Some (lower host)).
  { unfold extract_host_from_url.
    rewrite (plain_url_netloc scheme host port rest Hok Hne Hhost Hport Hrest).
    now apply plain_netloc_hostname. }
  split; [exact Hx|].
  assert (Hu : re_match URL_PATTERN (scheme ++ py "://" ++ host ++ port ++ rest) = true).
  { unfold re_match. cbn [dollar URL_PATTERN ignorecase].
    rewrite app_assoc. apply MatchFacts.accepts_prefix_app.
    destruct scheme as [|x scheme']; [discriminate|]. unfold scheme_ok in Hok.
    now apply andb_true_iff in Hok as [_ Hok]. }
  assert (Hf : startswith (py "-") (scheme ++ py "://" ++ host ++ port ++ rest) = false).
  { destruct Hscheme as [<- | [<- | [<- | [<- | []]]]]; reflexivity. }
  unfold check_token, flag_value. rewrite Hf. unfold check_arg. rewrite Hu, Hx.
  unfold host_denied. destruct host as [|c host]; [congruence|].
  cbn [lower map truthy andb]. now destruct (is_allowed_host _).
Qed.

Lemma plain_url_verdict_witness :
  In (py "http") known_schemes /\ py "LocalHost" <> [] /\
  forallb host_char (py "LocalHost") = true /\
  optional_port (py ":8080") /\ optional_path (py "/api") /\
  extract_host_from_url (py "http" ++ py "://" ++ py "LocalHost" ++ py ":8080" ++ py "/api")
  = Some (lower (py "LocalHost")).
Proof.
  assert (Hport : optional_port (py ":8080")).
  { right. exists (py "8080"). repeat split. discriminate. }
  assert (Hpath : optional_path (py "/api")).
  { right. now exists (py "api"). }
  split; [now left|]. split; [discriminate|]. split; [reflexivity|].
  split; [exact Hport|]. split; [exact Hpath|].
  apply (plain_url_verdict (py "http") (py "LocalHost") (py ":8080") (py "/api"));
    [now left | discriminate | reflexivity | exact Hport | exact Hpath].
Defined.

(** * The time stamp and the sanitized name *)

Lemma str_of_Z_four_digits (y : Z) :
  (1000 <= y <= 9999)%Z ->
  str_of_Z y = [digit_char (y / 1000); digit_char (y / 100 mod 10);
                digit_char (y / 10 mod 10); digit_char (y mod 10)].
Proof.
  intros Hy. unfold str_of_Z.
  assert (E : (y <? 0)%Z = false) by (apply Z.ltb_ge; lia). rewrite E.
  assert (Hlog : (9 <= Z.log2 y)%Z).
  { change 9%Z with (Z.log2 1000). apply Z.log2_le_mono. lia. }
  remember (Z.to_nat (Z.log2 y)) as n eqn:Hn.
  assert (Hn3 : 3 <= n) by lia.
  destruct n as [|[|[|n]]]; try lia. clear Hn Hn3 Hlog.
  assert (E1 : (y <? 10)%Z = false) by (apply Z.ltb_ge; lia).
  assert (E2 : (y / 10 <? 10)%Z = false).
  { apply Z.ltb_ge. apply Z.div_le_lower_bound; lia. }
  assert (E3 : (y / 10 / 10 <? 10)%Z = false).
  { apply Z.ltb_ge. rewrite Zdiv.Zdiv_Zdiv by lia. apply Z.div_le_lower_bound; lia. }
  assert (E4 : (y / 10 / 10 / 10 <? 10)%Z = true).
  { apply Z.ltb_lt. rewrite !Zdiv.Zdiv_Zdiv by lia. apply Z.div_lt_upper_bound; lia. }
  cbn [nat_digits]. rewrite E1, E2, E3, E4.
  rewrite !Zdiv.Zdiv_Zdiv by lia. reflexivity.
Qed.

(** X12. For a clock in the years 1000 to 9999 the time stamp has 23
    characters, with [-] at offsets 4, 7, 13 and 16, [T] at offset 10 and
    [.] at offset 19. *)
Theorem get_timestamp_layout (env : Env)
    (Hyear : (1000 <= year (env_now_dir env) <= 9999)%Z) :
  length (get_timestamp env) = 23 /\
  nth_error (get_timestamp env) 4 = Some (Latin "-") /\
  nth_error (get_timestamp env) 7 = Some (Latin "-") /\
  nth_error (get_timestamp env) 10 = Some (Latin "T") /\
  nth_error (get_timestamp env) 13 = Some (Latin "-") /\
  nth_error (get_timestamp env) 16 = Some (Latin "-") /\
  nth_error (get_timestamp env) 19 = Some (Latin ".").
Proof.
  rewrite get_timestamp_ms. unfold timestamp_ms.
  rewrite (str_of_Z_four_digits _ Hyear). unfold zpad. cbn [pad_digits].
  repeat split.
Qed.

Lemma get_timestamp_layout_witness :
  (1000 <= year (env_now_dir (sample_env SpawnFileNotFoundError)) <= 9999)%Z /\
  length (get_timestamp (sample_env SpawnFileNotFoundError)) = 23.
Proof.
  split; [vm_compute; split; discriminate|].
  apply (get_timestamp_layout (sample_env SpawnFileNotFoundError)).
  vm_compute. split; discriminate.
Defined.

Lemma safe_char_underscore (c : char) :
  safe_char (if negb (safe_char c) then (Latin "_") else c) = true.
Proof. destruct (safe_char c) eqn:E; [exact E | reflexivity]. Qed.

(** X13. Sanitizing a command name keeps its length, yields only word
    characters, hyphens and dots (so no path separator), and changes
    nothing when applied again. *)
Theorem safe_name_properties (command_name : str) :
  length (safe_name command_name) = length command_name /\
  forallb safe_char (safe_name command_name) = true /\
  char_in "/" (safe_name command_name) = false /\
  safe_name (safe_name command_name) = safe_name command_name.
Proof.
  assert (Hsafe : forallb safe_char (safe_name command_name) = true).
  { unfold safe_name. apply forallb_forall. intros x Hx.
    apply in_map_iff in Hx as (c & <- & _). apply safe_char_underscore. }
  split; [apply length_map|]. split; [exact Hsafe|].
  split; [apply safe_name_no_slash|].
  unfold safe_name at 1. rewrite <- (map_id (safe_name command_name)) at 2.
  apply map_ext_in. intros x Hx. rewrite forallb_forall in Hsafe.
  specialize (Hsafe x Hx). unfold safe_char in Hsafe. now rewrite Hsafe.
Qed.

(** * Further properties of the report directory *)

Lemma mkdir_parents_existing (rp : list str) (f : gmap path node) :
  is_dir f (rev rp) = true -> mkdir_parents rp f = (Return tt, f).
Proof.
  intros Hdir. destruct rp as [|c rp]; cbn [mkdir_parents];
    unfold os_mkdir; unfold is_dir in Hdir.
  - cbn [rev lookup_node]. reflexivity.
  - destruct (lookup_node f (rev (c :: rp))) as [[|content]|] eqn:E; try discriminate.
    unfold is_dir. now rewrite E.
Qed.

(** X14. Creating a report directory that already exists succeeds and
    leaves the file system as it is: nothing tells two runs that fall
    in the same millisecond with the same command name apart. *)
Theorem create_report_directory_existing (env : Env) (command_name : str) (w : World)
    (Hdir : is_dir (fs w) (report_dir_of env command_name) = true) :
  create_report_directory env command_name w
  = (Return (report_dir_of env command_name),
     {| fs := fs w; stdout := stdout w; stderr := stderr w;
        log := log w ++ [MadeReportDir (report_dir_of env command_name)] |}).
Proof.
  destruct w as [f out err lg]. cbn [fs stdout stderr log] in *.
  unfold create_report_directory, mbind, mkdir. cbn [fs].
  rewrite mkdir_parents_existing by now rewrite rev_involutive.
  reflexivity.
Qed.

Lemma create_report_directory_existing_witness :
  let env := sample_env SpawnFileNotFoundError in
  let w := snd (create_report_directory env (py "echo") empty_world) in
  is_dir (fs w) (report_dir_of env (py "echo")) = true /\
  fst (create_report_directory env (py "echo") w)
  = Return (report_dir_of env (py "echo")).
Proof.
  cbv zeta.
  assert (H : is_dir (fs (snd (create_report_directory
                                 (sample_env SpawnFileNotFoundError) (py "echo")
                                 empty_world)))
                (report_dir_of (sample_env SpawnFileNotFoundError) (py "echo")) = true).
  { vm_compute. reflexivity. }
  split; [exact H|].
  now rewrite (create_report_directory_existing _ _ _ H).
Defined.

Lemma mkdir_parents_blocked (rp : list str) (f : gmap path node) :
  fs_wf f ->
  (exists q content, q `prefix_of` rev rp /\ f !! q = Some (File content)) ->
  exists e, mkdir_parents rp f = (Raise e, f).
Proof.
  intros Hwf. induction rp as [|c rp IH]; intros (q & content & Hq & Hfile).
  - apply prefix_nil_inv in Hq. subst q. now destruct (Hwf _ _ Hfile) as [H _].
  - cbn [mkdir_parents]. cbn [rev] in *. unfold os_mkdir.
    rewrite lookup_node_child, parent_child.
    assert (Hparent : q `prefix_of` rev rp -> is_dir f (rev rp) = false).
    { intros Hpre. destruct (is_dir f (rev rp)) eqn:E; [|reflexivity].
      pose proof (dir_prefixes f (rev rp) Hwf E q Hpre) as Hd.
      destruct q as [|x q]; [now destruct (Hwf _ _ Hfile) as [H _]|].
      unfold is_dir, lookup_node in Hd. cbv iota in Hd. unfold path in *.
      rewrite Hfile in Hd. discriminate. }
    destruct (prefix_snoc _ _ _ Hq) as [-> | Hpre].
    + rewrite Hfile. unfold is_dir. rewrite lookup_node_child, Hfile. eauto.
    + pose proof (Hparent Hpre) as Hnd.
      destruct (f !! (rev rp ++ [c])) as [n|] eqn:Hp.
      * destruct (Hwf _ _ Hp) as [_ Hpar]. rewrite parent_child in Hpar.
        unfold is_dir in Hnd. rewrite Hpar in Hnd. discriminate.
      * unfold is_dir in Hnd.
        destruct (lookup_node f (rev rp)) as [[|content']|] eqn:Hpar; try discriminate.
        -- unfold is_dir. rewrite lookup_node_child, Hp. eauto.
        -- destruct IH as [e He]; [now exists q, content|]. rewrite He. eauto.
Qed.

(** X15. When the report directory or one of its ancestors exists as a
    regular file, [create_report_directory] raises and changes nothing. *)
Theorem create_report_directory_blocked (env : Env) (command_name : str) (w : World)
    (Hwf : fs_wf (fs w))
    (Hfile : exists q content,
        q `prefix_of` report_dir_of env command_name /\
        fs w !! q = Some (File content)) :
  exists e, create_report_directory env command_name w = (Raise e, w).
Proof.
  destruct (mkdir_parents_blocked (rev (report_dir_of env command_name)) (fs w) Hwf)
    as [e He].
  { now rewrite rev_involutive. }
  exists e. destruct w as [f out err lg]. cbn [fs] in He.
  unfold create_report_directory, mbind, mkdir. cbn [fs]. now rewrite He.
Qed.

Lemma create_report_directory_blocked_witness :
  let w := {| fs := {[ [py "test-output"] := File [] ]};
              stdout := []; stderr := []; log := [] |} in
  fs_wf (fs w) /\
  exists e, create_report_directory (sample_env SpawnFileNotFoundError) (py "echo") w
            = (Raise e, w).
Proof.
  cbv zeta.
  assert (Hwf : fs_wf ({[ [py "test-output"] := File [] ]} : gmap path node)).
  { intros p n H. apply lookup_singleton_Some in H as [<- _].
    split; [discriminate | reflexivity]. }
  split; [exact Hwf|].
  apply (create_report_directory_blocked (sample_env SpawnFileNotFoundError) (py "echo")
           {| fs := {[ [py "test-output"] := File [] ]};
              stdout := []; stderr := []; log := [] |} Hwf).
  exists [py "test-output"], []. split.
  - rewrite report_dir_of_eq. now eexists.
  - apply lookup_singleton_eq.
Defined.

(** * Further properties of runs *)

(** X16. When the child runs to completion, the report directory is in
    place before and after it, and the arguments and the working
    directory can be encoded, [run_command] returns the exit code of the
    child, writes what it captured into [STDOUT.log] and [STDERR.log] and
    the record into [result.log], leaves every other path as the spawn
    left it, and passes the captured bytes on to its own standard
    streams unchanged. *)
Theorem run_command_completed (env : Env) (name : str) (rest : list str)
    (report_dir : path) (stdin_data : option bytes) (w : World)
    (stdout_data stderr_data : bytes) (returncode : Z)
    (Hlogs : logs_writable (fs w) report_dir)
    (Hkeeps : spawn_keeps_report env (name :: rest) stdin_data report_dir)
    (Hargs : forallb encodable (name :: rest) = true)
    (Hcwd : encodable (env_cwd env) = true)
    (Hrun : env_spawn env (name :: rest) stdin_data
            = Completed stdout_data stderr_data returncode) :
  exists w' record,
    encode (result_content env (name :: rest) returncode) = Return record /\
    run_command env (name :: rest) report_dir stdin_data w = (Return returncode, w') /\
    fs w' !! (report_dir ++ [py "STDOUT.log"]) = Some (File stdout_data) /\
    fs w' !! (report_dir ++ [py "STDERR.log"]) = Some (File stderr_data) /\
    fs w' !! (report_dir ++ [py "result.log"]) = Some (File record) /\
    (forall q, q <> report_dir ++ [py "STDOUT.log"] ->
               q <> report_dir ++ [py "STDERR.log"] ->
               q <> report_dir ++ [py "result.log"] ->
               fs w' !! q
               = fs_after_spawn env (name :: rest) stdin_data report_dir (fs w) !! q) /\
    stdout w' = stdout w ++ [Data stdout_data] /\
    stderr w' = stderr w ++ [Data stderr_data] /\
    log w' = log w ++ [Wrote (report_dir ++ [py "STDIN.log"]);
                       Spawned (name :: rest) stdin_data;
                       Wrote (report_dir ++ [py "STDOUT.log"]);
                       Wrote (report_dir ++ [py "STDERR.log"]);
                       Wrote (report_dir ++ [py "result.log"])].
Proof.
  pose proof (result_content_encodable env (name :: rest) returncode Hargs Hcwd) as Hrec.
  assert (Hres : spawn_result name (env_spawn env (name :: rest) stdin_data)
                 = Return (stdout_data, stderr_data, returncode)).
  { now rewrite Hrun. }
  pose proof (run_command_ok env name rest report_dir stdin_data w _ _ _
                Hlogs Hkeeps Hres Hrec) as H.
  eexists. exists (fsencode (result_content env (name :: rest) returncode)).
  split; [now apply encodable_encode|]. split; [exact H|].
  cbn [fs stdout stderr log].
  destruct (fs_with_logs_lookup
              (fs_after_spawn env (name :: rest) stdin_data report_dir (fs w))
              report_dir stdout_data stderr_data
              (fsencode (result_content env (name :: rest) returncode)))
    as (L2 & L3 & L4 & _ & L5).
  repeat (split; [assumption || reflexivity|]). reflexivity.
Qed.

Lemma run_command_completed_witness :
  let env := sample_env (Completed [] [] 3) in
  logs_writable (fs empty_world) [] /\
  spawn_keeps_report env [py "false"] None [] /\
  forallb encodable [py "false"] = true /\
  encodable (env_cwd env) = true /\
  env_spawn env [py "false"] None = Completed [] [] 3 /\
  exists w', run_command env [py "false"] [] None empty_world = (Return 3%Z, w').
Proof.
  cbv zeta. split; [exact logs_writable_empty|].
  split; [apply sample_env_keeps|]. do 3 (split; [reflexivity|]).
  destruct (run_command_completed (sample_env (Completed [] [] 3)) (py "false") []
              [] None empty_world [] [] 3%Z logs_writable_empty
              (sample_env_keeps _ _ _ _) eq_refl eq_refl eq_refl)
    as (w' & record & _ & Hrun & _).
  now exists w'.
Defined.

(** X17. When the report directory is not there, [run_command] raises
    on its first write, before any spawn, and leaves the world as it
    is. *)
Theorem run_command_without_directory (env : Env) (command : list str)
    (report_dir : path) (stdin_data : option bytes) (w : World)
    (Hmissing : is_dir (fs w) report_dir = false) :
  exists e, run_command env command report_dir stdin_data w = (Raise e, w).
Proof.
  destruct (path_join_log report_dir) as (J1 & _).
  assert (Hw : forall data,
    exists e, write_bytes (report_dir ++ [py "STDIN.log"]) data w = (Raise e, w)).
  { intros data. unfold write_bytes, mbind, create_file. rewrite parent_child.
    unfold is_dir in Hmissing.
    destruct (lookup_node (fs w) (report_dir ++ [py "STDIN.log"])) as [[|c]|];
      [eauto | |];
      destruct (lookup_node (fs w) report_dir) as [[|c']|]; try discriminate; eauto. }
  unfold run_command. rewrite J1. unfold mbind at 1.
  destruct stdin_data as [[|b data]|]; unfold write_text; cbn [encode];
    match goal with
    | |- context [write_bytes _ ?d w] => destruct (Hw d) as [e ->]
    end; eauto.
Qed.

Lemma run_command_without_directory_witness :
  is_dir (fs empty_world) [py "nowhere"] = false /\
  exists e, run_command (sample_env (Completed [] [] 0)) [py "echo"] [py "nowhere"]
              None empty_world
            = (Raise e, empty_world).
Proof.
  split; [reflexivity|].
  apply (run_command_without_directory (sample_env (Completed [] [] 0)) [py "echo"]
           [py "nowhere"] None empty_world).
  reflexivity.
Defined.

(** X18. The exit code of [main].  Without a command it prints the
    help, when the help can be encoded, and returns 1, writing no file
    and nothing to the error stream; on a denial it returns 1; and
    otherwise, when the report of the run can be written, it returns the
    exit code of the run, the child's own or 127, 126 or 1 when the
    spawn fails, and what was captured of the output and of the error
    is what [main] adds to its standard streams. *)
Theorem main_returns_exit_code (env : Env) (args : Namespace) (w : World)
    (Hhelp : command args = [] -> encodable (env_help env) = true)
    (Hrun : command args <> [] -> denied args = false ->
            run_possible env (command args) (fs w)) :
  exists w',
    main env args w = (Return (main_exit_code env args), w') /\
    (command args = [] ->
     fs w' = fs w /\ stdout w' = stdout w ++ [Text (env_help env)] /\
     stderr w' = stderr w /\ log w' = log w ++ [PrintedHelp]) /\
    (forall name rest,
        command args = name :: rest -> denied args = false ->
        exists stdout_data stderr_data,
          spawn_result name (env_spawn env (command args) (env_stdin env))
          = Return (stdout_data, stderr_data, main_exit_code env args) /\
          stdout w' = stdout w ++ [Data stdout_data] /\
          stderr w' = stderr w ++ [Data stderr_data]).
Proof.
  destruct args as [cmd skip]. unfold main_exit_code, denied in *.
  cbn [command skip_validation] in *.
  destruct cmd as [|name rest].
  - destruct w as [f out err lg]. eexists. split.
    + unfold main, print_help, mbind, lift, effect, ret, add_stdout, add_log.
      cbn [command fs stdout stderr log].
      rewrite (encodable_encode _ (Hhelp eq_refl)). reflexivity.
    + split; [intros _; repeat split | discriminate].
  - specialize (Hrun ltac:(discriminate)).
    set (code := spawn_code (env_spawn env (name :: rest) (env_stdin env))) in *.
    assert (Hruns : forall lg,
      negb skip && negb (fst (validate_network_args (name :: rest))) = false ->
      exists w' stdout_data stderr_data,
        (do! report_dir := create_report_directory env (basename name) in
         run_command env (name :: rest) report_dir (env_stdin env))
          {| fs := fs w; stdout := stdout w; stderr := stderr w; log := lg |}
        = (Return code, w') /\
        spawn_result name (env_spawn env (name :: rest) (env_stdin env))
        = Return (stdout_data, stderr_data, code) /\
        stdout w' = stdout w ++ [Data stdout_data] /\
        stderr w' = stderr w ++ [Data stderr_data]).
    { intros lg Hnd.
      destruct (report_run_ok env name rest
                  {| fs := fs w; stdout := stdout w; stderr := stderr w; log := lg |}
                  (Hrun Hnd))
        as (f2 & so & se & Hres & _ & Hmain).
      eexists. exists so, se. split; [exact Hmain|]. split; [exact Hres|]. now split. }
    destruct w as [f out err lg]. cbn [fs stdout stderr log] in *.
    unfold main. cbn [command skip_validation].
    destruct skip; cbn [negb andb] in *.
    + destruct (Hruns lg eq_refl) as (w' & so & se & Hmain & Hres & Hout & Herr).
      exists w'. split; [exact Hmain|]. split; [discriminate|].
      intros n r [= <- <-] _. now exists so, se.
    + destruct (validate_network_args (name :: rest)) as [valid reason] eqn:E.
      cbn [fst] in *. destruct valid; cbn [negb] in *.
      * destruct (Hruns (lg ++ [Validated true reason]) eq_refl)
          as (w' & so & se & Hmain & Hres & Hout & Herr).
        exists w'. split.
        { unfold mbind at 1, effect, add_log. cbn [fs stdout stderr log]. exact Hmain. }
        split; [discriminate|]. intros n r [= <- <-] _. now exists so, se.
      * eexists. split.
        { unfold mbind, effect, ret, add_stderr, add_log. cbn [fs stdout stderr log].
          reflexivity. }
        split; [discriminate|]. intros n r _ H. discriminate H.
Qed.

Lemma main_returns_exit_code_witness :
  let env := sample_env SpawnPermissionError in
  let args := {| command := [py "./tool"]; skip_validation := false |} in
  (command args = [] -> encodable (env_help env) = true) /\
  (command args <> [] -> denied args = false ->
   run_possible env (command args) (fs empty_world)) /\
  main_exit_code env args = 126%Z /\
  exists w', main env args empty_world = (Return (main_exit_code env args), w').
Proof.
  cbv zeta.
  assert (Hrun : run_possible (sample_env SpawnPermissionError) [py "./tool"] ∅).
  { apply run_possible_sample; vm_compute; reflexivity. }
  split; [discriminate|]. split; [intros _ _; exact Hrun|].
  split; [vm_compute; reflexivity|].
  destruct (main_returns_exit_code (sample_env SpawnPermissionError)
              {| command := [py "./tool"]; skip_validation := false |}
              empty_world ltac:(discriminate) (fun _ _ => Hrun)) as (w' & Hmain & _).
  now exists w'.
Defined.

(** * Runs that raise *)

Lemma write_bytes_no_directory (dir : path) (name : str) (data : bytes) (w : World) :
  is_dir (fs w) dir = false ->
  exists e, write_bytes (dir ++ [name]) data w = (Raise e, w).
Proof.
  intros Hmissing. unfold write_bytes, mbind, create_file. rewrite parent_child.
  unfold is_dir in Hmissing.
  destruct (lookup_node (fs w) (dir ++ [name])) as [[|c]|]; [eauto | |];
    destruct (lookup_node (fs w) dir) as [[|c']|]; try discriminate; eauto.
Qed.

(** X21. When the spawn leaves no report directory behind, as a child
    that removes [test-output] does, [run_command] raises after the
    spawn: it returns no exit code, writes no further log and passes
    nothing on to its standard streams. *)
Theorem run_command_report_removed (env : Env) (name : str) (rest : list str)
    (report_dir : path) (stdin_data : option bytes) (w : World)
    (Hlogs : logs_writable (fs w) report_dir)
    (Hgone : is_dir (fs_after_spawn env (name :: rest) stdin_data report_dir (fs w))
                    report_dir = false) :
  exists e,
    run_command env (name :: rest) report_dir stdin_data w
    = (Raise e,
       {| fs := fs_after_spawn env (name :: rest) stdin_data report_dir (fs w);
          stdout := stdout w; stderr := stderr w;
          log := log w ++ [Wrote (report_dir ++ [py "STDIN.log"]);
                           Spawned (name :: rest) stdin_data] |}).
Proof.
  destruct w as [f out err lg]. cbn [fs stdout stderr log] in *.
  destruct Hlogs as [Hdir Hfree].
  destruct (path_join_log report_dir) as (J1 & J2 & _).
  unfold run_command. rewrite J1, J2. unfold mbind at 1.
  match goal with
  | |- context [match stdin_data with Some _ => _ | None => _ end ?w] =>
      replace (match stdin_data with
               | Some (b :: data) =>
                   write_bytes (report_dir ++ [py "STDIN.log"]) (b :: data)
               | _ => write_text (report_dir ++ [py "STDIN.log"]) []
               end w)
        with (write_bytes (report_dir ++ [py "STDIN.log"])
                          (stdin_content stdin_data) w)
        by (destruct stdin_data as [[|b data]|]; reflexivity)
  end.
  rewrite (write_bytes_ok _ _ _ _ _ _ _ Hdir
             (Hfree (py "STDIN.log") ltac:(simpl; auto)) eq_refl).
  unfold mbind at 1. rewrite spawn_ok. cbn [fs stdout stderr log].
  fold (fs_after_spawn env (name :: rest) stdin_data report_dir f).
  rewrite <- app_assoc. cbn [app].
  destruct (spawn_result name (env_spawn env (name :: rest) stdin_data))
    as [[[stdout_data stderr_data] exit_code] | e]; [|eauto].
  unfold mbind at 1.
  match goal with
  | |- context [write_bytes ?p ?d ?w1] =>
      destruct (write_bytes_no_directory report_dir (py "STDOUT.log") d w1 Hgone)
        as [e ->]
  end.
  eauto.
Qed.

Lemma run_command_report_removed_witness :
  logs_writable (fs report_world) [py "report"] /\
  is_dir (fs_after_spawn removing_env [py "rm"] None [py "report"] (fs report_world))
         [py "report"] = false /\
  exists e w', run_command removing_env [py "rm"] [py "report"] None report_world
               = (Raise e, w')
               /\ stdout w' = [].
Proof.
  assert (Hlogs : logs_writable (fs report_world) [py "report"]).
  { split; [reflexivity|]. intros name _. cbn [fs report_world].
    rewrite lookup_singleton_ne; [discriminate|]. intros E. discriminate E. }
  split; [exact Hlogs|]. split; [reflexivity|].
  destruct (run_command_report_removed removing_env (py "rm") [] [py "report"] None
              report_world Hlogs eq_refl) as [e He].
  eexists. eexists. split; [exact He | reflexivity].
Defined.

(** X22. When the child runs to completion but an argument or the
    working directory cannot be encoded, [run_command] writes what it
    captured into [STDOUT.log] and [STDERR.log], leaves [result.log]
    empty and raises [UnicodeEncodeError]: it returns no exit code and
    passes nothing of what it captured on to its standard streams. *)
Theorem run_command_unencodable (env : Env) (name : str) (rest : list str)
    (report_dir : path) (stdin_data : option bytes) (w : World)
    (stdout_data stderr_data : bytes) (returncode : Z)
    (Hlogs : logs_writable (fs w) report_dir)
    (Hkeeps : spawn_keeps_report env (name :: rest) stdin_data report_dir)
    (Hrun : env_spawn env (name :: rest) stdin_data
            = Completed stdout_data stderr_data returncode)
    (Hbad : forallb encodable (name :: rest) && encodable (env_cwd env) = false) :
  run_command env (name :: rest) report_dir stdin_data w
  = (Raise UnicodeEncodeError,
     {| fs := fs_with_logs
                (fs_after_spawn env (name :: rest) stdin_data report_dir (fs w))
                report_dir stdout_data stderr_data [];
        stdout := stdout w; stderr := stderr w;
        log := log w ++ [Wrote (report_dir ++ [py "STDIN.log"]);
                         Spawned (name :: rest) stdin_data;
                         Wrote (report_dir ++ [py "STDOUT.log"]);
                         Wrote (report_dir ++ [py "STDERR.log"])] |}).
Proof.
  destruct w as [f out err lg]. cbn [fs stdout stderr log] in *.
  pose proof (Hkeeps _ (logs_writable_insert f report_dir (py "STDIN.log")
                          (stdin_content stdin_data) Hlogs)) as Hlogs2.
  fold (fs_after_spawn env (name :: rest) stdin_data report_dir f) in Hlogs2.
  set (f2 := fs_after_spawn env (name :: rest) stdin_data report_dir f) in *.
  destruct Hlogs as [Hdir Hfree].
  destruct (path_join_log report_dir) as (J1 & J2 & J3 & J4).
  unfold run_command. rewrite J1, J2, J3, J4. unfold mbind at 1.
  match goal with
  | |- context [match stdin_data with Some _ => _ | None => _ end ?w] =>
      replace (match stdin_data with
               | Some (b :: data) =>
                   write_bytes (report_dir ++ [py "STDIN.log"]) (b :: data)
               | _ => write_text (report_dir ++ [py "STDIN.log"]) []
               end w)
        with (write_bytes (report_dir ++ [py "STDIN.log"])
                          (stdin_content stdin_data) w)
        by (destruct stdin_data as [[|b data]|]; reflexivity)
  end.
  rewrite (write_bytes_ok _ _ _ _ _ _ _ Hdir
             (Hfree (py "STDIN.log") ltac:(simpl; auto)) eq_refl).
  unfold mbind at 1. rewrite spawn_ok, Hrun. cbn [spawn_result fs stdout stderr log].
  fold (fs_after_spawn env (name :: rest) stdin_data report_dir f). fold f2.
  destruct (logs_writable_insert f2 report_dir (py "STDOUT.log") stdout_data Hlogs2)
    as [Hdir3 Hfree3].
  destruct (logs_writable_insert _ report_dir (py "STDERR.log") stderr_data
              (conj Hdir3 Hfree3)) as [Hdir4 Hfree4].
  destruct Hlogs2 as [Hdir2 Hfree2].
  unfold mbind at 1.
  rewrite (write_bytes_ok _ _ _ _ _ _ _ Hdir2
             (Hfree2 (py "STDOUT.log") ltac:(simpl; auto)) eq_refl).
  unfold mbind at 1.
  rewrite (write_bytes_ok _ _ _ _ _ _ _ Hdir3
             (Hfree3 (py "STDERR.log") ltac:(simpl; auto)) eq_refl).
  unfold mbind at 1, write_text.
  rewrite <- (result_content_encoding env (name :: rest) returncode) in Hbad.
  rewrite (not_encodable _ Hbad). unfold mbind at 1.
  rewrite (create_file_ok _ _ _ _ _ _ _ Hdir4
             (Hfree4 (py "result.log") ltac:(simpl; auto)) eq_refl).
  unfold raise, fs_with_logs. rewrite <- !app_assoc. reflexivity.
Qed.

Lemma run_command_unencodable_witness :
  let env := sample_env (Completed [] [] 0) in
  logs_writable (fs empty_world) [] /\
  spawn_keeps_report env [py "echo"; undecodable] None [] /\
  env_spawn env [py "echo"; undecodable] None = Completed [] [] 0 /\
  forallb encodable [py "echo"; undecodable] && encodable (env_cwd env) = false /\
  fst (run_command env [py "echo"; undecodable] [] None empty_world)
  = Raise UnicodeEncodeError.
Proof.
  cbv zeta. split; [exact logs_writable_empty|].
  split; [apply sample_env_keeps|]. do 2 (split; [reflexivity|]).
  rewrite (run_command_unencodable (sample_env (Completed [] [] 0)) (py "echo")
             (undecodable :: nil) nil None empty_world nil nil 0%Z
             logs_writable_empty (sample_env_keeps _ _ _ _) eq_refl eq_refl).
  reflexivity.
Defined.

(** * The layout of [result.log] *)

Lemma digit_char_number (d : Z) : (d <= 9)%Z -> number_char (digit_char d) = true.
Proof.
  intros Hd. unfold digit_char.
  assert (H : (Z.to_N d < 10)%N) by lia.
  destruct (Z.to_N d) as [|p]; [reflexivity|].
  do 4 (destruct p as [p|p|]; try reflexivity; try lia).
Qed.

Lemma pad_digits_chars (width : nat) : forall (n : Z) (acc : str),
  forallb number_char acc = true ->
  forallb number_char (pad_digits width n acc) = true.
Proof.
  induction width as [|width IH]; intros n acc Hacc; [exact Hacc|].
  cbn [pad_digits]. apply IH. cbn [forallb]. rewrite Hacc, digit_char_number.
  - reflexivity.
  - pose proof (Z.mod_pos_bound n 10). lia.
Qed.

Lemma zpad_chars (width : nat) (n : Z) : forallb number_char (zpad width n) = true.
Proof. now apply pad_digits_chars. Qed.

Lemma nat_digits_chars (fuel : nat) : forall (n : Z) (acc : str),
  forallb number_char acc = true ->
  forallb number_char (nat_digits fuel n acc) = true.
Proof.
  induction fuel as [|fuel IH]; intros n acc Hacc; [exact Hacc|].
  cbn [nat_digits]. destruct (n <? 10)%Z eqn:E.
  - cbn [forallb]. rewrite Hacc, digit_char_number; [reflexivity|].
    apply Z.ltb_lt in E. lia.
  - apply IH. cbn [forallb]. rewrite Hacc, digit_char_number; [reflexivity|].
    pose proof (Z.mod_pos_bound n 10). lia.
Qed.

Lemma str_of_Z_chars (n : Z) : forallb number_char (str_of_Z n) = true.
Proof.
  unfold str_of_Z. destruct (n <? 0)%Z.
  - cbn [forallb]. now rewrite nat_digits_chars.
  - now apply nat_digits_chars.
Qed.

Lemma fmt_6f_chars (us : Z) : forallb number_char (fmt_6f us) = true.
Proof.
  unfold fmt_6f. rewrite !forallb_app, str_of_Z_chars, zpad_chars.
  now destruct (us <? 0)%Z.
Qed.

Lemma isoformat_chars (d : datetime) : forallb number_char (isoformat d) = true.
Proof.
  unfold isoformat. rewrite !forallb_app, !zpad_chars.
  destruct (microsecond d =? 0)%Z; [reflexivity|].
  rewrite forallb_app, zpad_chars. reflexivity.
Qed.

Lemma number_one_line (s : str) :
  forallb number_char s = true -> char_in newline s = false.
Proof. apply (chars_exclude number_char newline s). reflexivity. Qed.

Lemma keyed_line (key value rest : str) :
  char_in newline key = false -> char_in newline value = false ->
  split newline (key ++ value ++ [newline] ++ rest)
  = (key ++ value) :: split newline rest.
Proof.
  intros Hk Hv. rewrite app_assoc. cbn [app].
  apply split_app_sep. rewrite char_in_app, Hk, Hv. reflexivity.
Qed.

(** X19. [result.log] has nine lines, one per key and in the order of
    the source, each ending in a newline, as long as neither the
    command's arguments nor the working directory hold a newline. *)
Theorem result_log_lines (env : Env) (command : list str) (exit_code : Z)
    (Hcommand : char_in newline (join (py " ") command) = false)
    (Hcwd : char_in newline (env_cwd env) = false) :
  split newline (result_content env command exit_code)
  = result_lines env command exit_code ++ [[]].
Proof.
  unfold result_content, result_lines.
  destruct (get_resource_usage env) as [[user_time system_time] max_memory].
  repeat match goal with
  | |- context [?v ++ [newline]] =>
      lazymatch goal with
      | |- context [v ++ [newline] ++ _] => fail
      | _ => replace (v ++ [newline]) with (v ++ [newline] ++ []) by reflexivity
      end
  end.
  repeat (rewrite keyed_line;
          [ | reflexivity
            | first [ assumption
                    | apply number_one_line;
                      first [ apply str_of_Z_chars | apply isoformat_chars
                            | apply fmt_6f_chars ] ] ]).
  reflexivity.
Qed.

Lemma result_log_lines_witness :
  let env := sample_env (Completed [] [] 0) in
  char_in newline (join (py " ") [py "go"; py "version"]) = false /\
  char_in newline (env_cwd env) = false /\
  length (split newline (result_content env [py "go"; py "version"] 0)) = 10.
Proof.
  cbv zeta. split; [reflexivity|]. split; [reflexivity|].
  rewrite (result_log_lines (sample_env (Completed [] [] 0)) [py "go"; py "version"] 0
             eq_refl eq_refl).
  reflexivity.
Defined.

(** * Hosts that are names *)

Lemma no_colon_not_v6 (s : str) :
  char_in ":" s = false -> exists e, new_IPv6Address s = Raise e.
Proof.
  intros Hc. unfold new_IPv6Address, split_scope_id.
  destruct (char_in "/" s); [eauto|].
  assert (Hv : forall a, char_in ":" a = false ->
                         exists e, v6_int_from_string a = Raise e).
  { intros a Ha. unfold v6_int_from_string.
    destruct (truthy a); cbn [negb]; [|eauto].
    rewrite (split_no_sep ":" a Ha). cbn [length Nat.ltb Nat.leb]. eauto. }
  destruct (str_partition "%" s) as [[addr scope_id]|] eqn:E.
  - destruct (negb (truthy scope_id) || char_in "%" scope_id); [eauto|].
    cbn [PyExc.bind fst snd].
    apply partition_some in E. destruct E as [E _]. subst s.
    rewrite char_in_app in Hc. apply orb_false_iff in Hc as [Ha _].
    destruct (Hv addr Ha) as [e ->]. eauto.
  - cbn [PyExc.bind fst snd]. destruct (Hv s Hc) as [e ->]. eauto.
Qed.

Lemma not_four_fields_not_v4 (s : str) :
  length (split "." s) <> 4 -> exists e, new_IPv4Address s = Raise e.
Proof.
  intros Hn. unfold new_IPv4Address, v4_int_from_string.
  destruct (char_in "/" s); [eauto|].
  destruct (truthy s); cbn [negb]; [|eauto].
  apply Nat.eqb_neq in Hn. rewrite Hn. cbn [negb]. eauto.
Qed.

(** X20. Names are never resolved.  A host that, once its outer square
    brackets are stripped, holds no colon and is not made of four
    dot-separated fields is no IP address for [is_loopback_address], and
    [is_allowed_host] lets it pass only as one of the four loopback
    names. *)
Theorem named_host_rule (host : str)
    (Hcolon : char_in ":" (strip (py "[]") host) = false)
    (Hfields : length (split "." (strip (py "[]") host)) <> 4) :
  is_loopback_address (strip (py "[]") host) = false /\
  is_allowed_host host
  = bool_decide (lower (strip (py "[]") host) ∈ LOOPBACK_HOSTNAMES).
Proof.
  assert (Hip : is_loopback_address (strip (py "[]") host) = false).
  { unfold is_loopback_address, ip_address.
    destruct (not_four_fields_not_v4 _ Hfields) as [e4 ->].
    destruct (no_colon_not_v6 _ Hcolon) as [e6 ->]. reflexivity. }
  split; [exact Hip|]. unfold is_allowed_host. rewrite Hip.
  now destruct (bool_decide _).
Qed.

Lemma named_host_rule_witness :
  char_in ":" (strip (py "[]") (py "[example.com]")) = false /\
  length (split "." (strip (py "[]") (py "[example.com]"))) <> 4 /\
  is_allowed_host (py "[example.com]") = false.
Proof.
  split; [reflexivity|]. split; [vm_compute; lia|].
  destruct (named_host_rule (py "[example.com]") eq_refl
              ltac:(vm_compute; lia)) as [_ ->].
  apply bool_decide_eq_false_2. vm_compute. set_solver.
Defined.
